(** * Caltech 101 / Caltech 256 dataset adapters

    A shallow embedding of [torchvision/datasets/caltech.py]: the two
    dataset classes [Caltech101] and [Caltech256], their constructors,
    [__getitem__], [__len__], [_check_integrity] and [download].

    Python code that touches the file system or raises is written in a
    state-and-exception monad over an explicit world: a directory tree,
    the interpreter's ability to import scipy, and a log of the
    operating-system and library calls performed so far. *)

From Stdlib Require Import ZArith String Ascii List DecimalString DecimalN Lia.
From stdpp Require Import base list strings sorting gmap.

Local Open Scope Z_scope.

(** ** Python exceptions and results *)

Inductive exn : Type :=
| IndexError                                          (* list index out of range *)
| ValueError_verify (value arg : string) (valid_values : list string)
| ValueError_remove (x : string)                      (* list.remove(x): x not in list *)
| RuntimeError (msg : string)
| FileNotFoundError (path : string)
| NotADirectoryError (path : string)
| IsADirectoryError (path : string)
| FileExistsError (path : string)
| UnidentifiedImageError (path : string)
| MatReadError (path : string)
| KeyError (key : string)
| ModuleNotFoundError (module : string)
| OtherError (msg : string).                          (* raised by a collaborator or a transform *)

Inductive result (A : Type) : Type :=
| Ok (a : A)
| Err (e : exn).
Arguments Ok {A} a.
Arguments Err {A} e.

Definition is_index_error {A} (r : result A) : bool :=
  match r with Err IndexError => true | _ => false end.

Definition is_ok {A} (r : result A) : bool :=
  match r with Ok _ => true | Err _ => false end.

(** ** Python values that cross the dataset interface *)

Definition image := list Z.       (* decoded pixel data *)
Definition ndarray := list Z.     (* a numeric array read from a .mat file *)

#[local] Set Warnings "-register-all".

Inductive pyobj : Type :=
| PInt (z : Z)
| PImage (im : image)
| PArray (a : ndarray)
| PTuple (items : list pyobj)
| POpaque (tag : string).

(** A transform is a Python callable: it may raise.  It is modelled by
    the value it returns or the exception it raises; whatever else a
    transform does, to the disk for instance, is outside the model. *)
Definition callable := pyobj -> result pyobj.

(** ** Strings: [str.startswith], [str.endswith], [os.path.join], [%0Nd] *)

Definition startswith (s pre : string) : bool := String.prefix pre s.

Definition endswith (s suf : string) : bool :=
  let n := String.length s in
  let m := String.length suf in
  if (m <=? n)%nat then String.eqb (String.substring (n - m) m s) suf else false.

(** One step of [posixpath.join]: an absolute component restarts the
    path, otherwise it is appended after exactly one separator. *)
Definition join_step (path b : string) : string :=
  if startswith b "/" || String.eqb path "" then b
  else if endswith path "/" then path +:+ b
  else path +:+ "/" +:+ b.

Definition os_path_join (a : string) (p : list string) : string :=
  fold_left join_step p a.

(** Decimal digits of a non-negative integer, as [str(n)] prints them. *)
Definition decimal (n : N) : string :=
  NilZero.string_of_uint (N.to_uint n).

Fixpoint zeros (k : nat) : string :=
  match k with O => "" | S k' => String "0"%char (zeros k') end.

(** [format(n, "0<width>d")]: sign first, then zeros up to the minimal
    width, then the digits; longer numbers are not truncated. *)
Definition format_0d (width : nat) (n : Z) : string :=
  let digits := decimal (Z.abs_N n) in
  let sign := if n <? 0 then "-" else "" in
  sign +:+ zeros (width - String.length sign - String.length digits) +:+ digits.

(** ** Python list indexing: negative indices count from the end *)

Definition py_index {A} (l : list A) (i : Z) : result A :=
  let n := Z.of_nat (length l) in
  let j := if i <? 0 then i + n else i in
  if (j <? 0) || (n <=? j) then Err IndexError
  else match l !! Z.to_nat j with
       | Some x => Ok x
       | None => Err IndexError
       end.

(** [list.remove(x)]: drops the first occurrence, raises when there is none. *)
Fixpoint list_remove (x : string) (l : list string) : result (list string) :=
  match l with
  | [] => Err (ValueError_remove x)
  | a :: l' =>
      if String.eqb a x then Ok l'
      else match list_remove x l' with
           | Ok r => Ok (a :: r)
           | Err e => Err e
           end
  end.

(** [sorted] on strings: code-point order. *)
Definition sorted (l : list string) : list string := merge_sort String.le l.

(** ** The file system

    A directory is an ordered list of named entries (the order in which
    [os.listdir] reports them); a file carries what the decoders make of
    it.  Paths are resolved component by component from one tree root,
    which stands for both [/] and the working directory; empty and [.]
    components are skipped.  Symbolic links, [..] and permissions are
    outside the model. *)

Inductive content : Type :=
| ImageData (im : image)                       (* PIL can decode it *)
| MatData (vars : gmap string ndarray)         (* scipy.io.loadmat can read it *)
| RawData (bytes : string).

Inductive node : Type :=
| File (c : content)
| Dir (entries : list (string * node)).

Fixpoint assoc {A} (x : string) (es : list (string * A)) : option A :=
  match es with
  | [] => None
  | (k, v) :: es' => if String.eqb k x then Some v else assoc x es'
  end.

Fixpoint assoc_set {A} (x : string) (v : A) (es : list (string * A)) : list (string * A) :=
  match es with
  | [] => [(x, v)]
  | (k, v') :: es' =>
      if String.eqb k x then (k, v) :: es' else (k, v') :: assoc_set x v es'
  end.

Fixpoint assoc_del {A} (x : string) (es : list (string * A)) : list (string * A) :=
  match es with
  | [] => []
  | (k, v) :: es' =>
      if String.eqb k x then es' else (k, v) :: assoc_del x es'
  end.

Fixpoint split_slash (s : string) : list string :=
  match s with
  | EmptyString => [""]
  | String c s' =>
      if Ascii.eqb c "/" then "" :: split_slash s'
      else match split_slash s' with
           | [] => [String c ""]
           | x :: xs => String c x :: xs
           end
  end.

Definition components (path : string) : list string :=
  filter (fun x => x <> "" /\ x <> ".") (split_slash path).

Fixpoint resolve (p : list string) (n : node) : option node :=
  match p with
  | [] => Some n
  | x :: p' =>
      match n with
      | File _ => None
      | Dir es => match assoc x es with
                  | Some n' => resolve p' n'
                  | None => None
                  end
      end
  end.

Definition lookup_path (path : string) (root : node) : option node :=
  resolve (components path) root.

(** [os.makedirs(path, exist_ok=True)] on the tree. *)
Fixpoint makedirs_at (path : string) (p : list string) (n : node) : result node :=
  match p with
  | [] => match n with
          | Dir _ => Ok n
          | File _ => Err (FileExistsError path)
          end
  | x :: p' =>
      match n with
      | File _ => Err (NotADirectoryError path)
      | Dir es =>
          match makedirs_at path p' (default (Dir []) (assoc x es)) with
          | Ok n' => Ok (Dir (assoc_set x n' es))
          | Err e => Err e
          end
      end
  end.

(** Unlinking the entry a path names ([shutil.rmtree], [os.remove]). *)
Fixpoint unlink_at (p : list string) (n : node) : option node :=
  match p, n with
  | [], _ => None
  | _, File _ => None
  | [x], Dir es => match assoc x es with
                   | Some _ => Some (Dir (assoc_del x es))
                   | None => None
                   end
  | x :: p', Dir es =>
      match assoc x es with
      | Some n' => match unlink_at p' n' with
                   | Some n'' => Some (Dir (assoc_set x n'' es))
                   | None => None
                   end
      | None => None
      end
  end.

Definition is_dir (o : option node) : bool :=
  match o with Some (Dir _) => true | _ => false end.

Definition is_file (o : option node) : bool :=
  match o with Some (File _) => true | _ => false end.

(** ** The world and the monad of effectful Python code *)

Inductive event : Type :=
| EvMakedirs (path : string)
| EvExists (path : string)
| EvListdir (path : string)
| EvIsdir (path : string)
| EvIsfile (path : string)
| EvRmtree (path : string)
| EvRemove (path : string)
| EvImageOpen (path : string)
| EvLoadmat (path : string)
| EvImport (module : string)
| EvDownload (url download_root filename md5 : string)
| EvExtract (from_path to_path : string) (remove_finished : bool).

(** The calls that can change the disk, and the ones that use the network. *)
Definition writes_disk (e : event) : bool :=
  match e with
  | EvMakedirs _ | EvRmtree _ | EvRemove _ | EvDownload _ _ _ _ | EvExtract _ _ _ => true
  | _ => false
  end.

Definition uses_network (e : event) : bool :=
  match e with EvDownload _ _ _ _ => true | _ => false end.

Record world : Type := World {
  fs : node;
  scipy_installed : bool;
  log : list event
}.

Definition set_fs (n : node) (w : world) : world :=
  World n (scipy_installed w) (log w).

Definition M (A : Type) : Type := world -> result A * world.

Definition ret {A} (a : A) : M A := fun w => (Ok a, w).
Definition raise {A} (e : exn) : M A := fun w => (Err e, w).
Definition bind {A B} (m : M A) (k : A -> M B) : M B :=
  fun w => match m w with
           | (Ok a, w') => k a w'
           | (Err e, w') => (Err e, w')
           end.
Definition lift {A} (r : result A) : M A := fun w => (r, w).
Definition emit (e : event) : M unit :=
  fun w => (Ok tt, World (fs w) (scipy_installed w) (log w ++ [e])).

Declare Scope py_scope.
Delimit Scope py_scope with py.
Notation "x <- m ;; k" := (bind m (fun x => k))
  (at level 100, m at next level, right associativity) : py_scope.
Notation "m ;;; k" := (bind m (fun _ => k))
  (at level 100, right associativity) : py_scope.
Local Open Scope py_scope.

(** *** Operating-system and library calls *)

Definition os_makedirs (path : string) : M unit :=
  emit (EvMakedirs path) ;;;
  fun w => match makedirs_at path (components path) (fs w) with
           | Ok n => (Ok tt, set_fs n w)
           | Err e => (Err e, w)
           end.

Definition os_path_exists (path : string) : M bool :=
  emit (EvExists path) ;;;
  fun w => (Ok (bool_decide (is_Some (lookup_path path (fs w)))), w).

Definition os_path_isdir (path : string) : M bool :=
  emit (EvIsdir path) ;;;
  fun w => (Ok (is_dir (lookup_path path (fs w))), w).

Definition os_path_isfile (path : string) : M bool :=
  emit (EvIsfile path) ;;;
  fun w => (Ok (is_file (lookup_path path (fs w))), w).

Definition listdir_of (path : string) (n : node) : result (list string) :=
  match lookup_path path n with
  | None => Err (FileNotFoundError path)
  | Some (File _) => Err (NotADirectoryError path)
  | Some (Dir es) => Ok (map fst es)
  end.

Definition os_listdir (path : string) : M (list string) :=
  emit (EvListdir path) ;;;
  fun w => (listdir_of path (fs w), w).

Definition shutil_rmtree (path : string) : M unit :=
  emit (EvRmtree path) ;;;
  fun w => match lookup_path path (fs w) with
           | None => (Err (FileNotFoundError path), w)
           | Some (File _) => (Err (NotADirectoryError path), w)
           | Some (Dir _) =>
               match unlink_at (components path) (fs w) with
               | Some n => (Ok tt, set_fs n w)
               | None => (Err (OtherError "cannot remove the root"), w)
               end
           end.

Definition os_remove (path : string) : M unit :=
  emit (EvRemove path) ;;;
  fun w => match lookup_path path (fs w) with
           | None => (Err (FileNotFoundError path), w)
           | Some (Dir _) => (Err (IsADirectoryError path), w)
           | Some (File _) =>
               match unlink_at (components path) (fs w) with
               | Some n => (Ok tt, set_fs n w)
               | None => (Err (OtherError "cannot remove the root"), w)
               end
           end.

(** [PIL.Image.open]. *)
Definition image_of (path : string) (n : node) : result image :=
  match lookup_path path n with
  | None => Err (FileNotFoundError path)
  | Some (Dir _) => Err (IsADirectoryError path)
  | Some (File (ImageData im)) => Ok im
  | Some (File _) => Err (UnidentifiedImageError path)
  end.

Definition Image_open (path : string) : M image :=
  emit (EvImageOpen path) ;;;
  fun w => (image_of path (fs w), w).

(** [scipy.io.loadmat]: the variables of the file, as a dict. *)
Definition mat_of (path : string) (n : node) : result (gmap string ndarray) :=
  match lookup_path path n with
  | None => Err (FileNotFoundError path)
  | Some (Dir _) => Err (IsADirectoryError path)
  | Some (File (MatData vars)) => Ok vars
  | Some (File _) => Err (MatReadError path)
  end.

Definition scipy_io_loadmat (path : string) : M (gmap string ndarray) :=
  emit (EvLoadmat path) ;;;
  fun w => (mat_of path (fs w), w).

(** [import scipy.io] inside a method body. *)
Definition import_scipy_io : M unit :=
  emit (EvImport "scipy.io") ;;;
  fun w => if scipy_installed w then (Ok tt, w)
           else (Err (ModuleNotFoundError "scipy"), w).

(** [d[key]] on a dict. *)
Definition dict_getitem {V} (d : gmap string V) (key : string) : result V :=
  match d !! key with
  | Some v => Ok v
  | None => Err (KeyError key)
  end.

(** Applying an optional transform: [if f is not None: x = f(x)]. *)
Definition apply_opt (f : option callable) (x : pyobj) : M pyobj :=
  match f with
  | Some g => lift (g x)
  | None => ret x
  end.

(** ** Collaborators from [.utils]

    The archive utilities are not part of this file: they fetch from the
    network and unpack onto the disk.  They are an interface here; every
    statement below holds for any implementation of it. *)

Class ArchiveUtils : Type := {
  download_and_extract_archive_fs :
    forall (url download_root filename md5 : string), node -> result unit * node;
  extract_archive_fs :
    forall (from_path to_path : string) (remove_finished : bool), node -> result unit * node
}.

Definition download_and_extract_archive `{ArchiveUtils}
    (url download_root filename md5 : string) : M unit :=
  emit (EvDownload url download_root filename md5) ;;;
  fun w => let '(r, n) := download_and_extract_archive_fs url download_root filename md5 (fs w) in
           (r, set_fs n w).

Definition extract_archive `{ArchiveUtils}
    (from_path to_path : string) (remove_finished : bool) : M unit :=
  emit (EvExtract from_path to_path remove_finished) ;;;
  fun w => let '(r, n) := extract_archive_fs from_path to_path remove_finished (fs w) in
           (r, set_fs n w).

(** Modelled from the spec: [verify_str_arg] from [.utils], "a string-enum
    validator (value, allowed set) -> raises on invalid value", whose error
    names the invalid value and the allowed set.  It returns the value
    when it is one of the allowed ones. *)
Definition verify_str_arg (value arg : string) (valid_values : list string) : result string :=
  if bool_decide (value ∈ valid_values) then Ok value
  else Err (ValueError_verify value arg valid_values).

(** The list comprehension [[f(t) for t in l]] with a raising [f]. *)
Fixpoint map_result {A B} (f : A -> result B) (l : list A) : result (list B) :=
  match l with
  | [] => Ok []
  | a :: l' =>
      match f a with
      | Err e => Err e
      | Ok b => match map_result f l' with
                | Ok bs => Ok (b :: bs)
                | Err e => Err e
                end
      end
  end.

(** [enumerate(l)], [range(1, n + 1)] and [n * [i]]. *)
Definition enumerate {A} (l : list A) : list (Z * A) :=
  zip (seqZ 0 (Z.of_nat (length l))) l.

Definition range1 (n : Z) : list Z := seqZ 1 n.

Definition repeat_int (n : Z) (i : Z) : list Z := replicate (Z.to_nat n) i.

(** The constructor's loop, shared by both classes:
    [for i, c in enumerate(self.categories):
         n = <count of c>; self.index.extend(range(1, n + 1)); self.y.extend(n * [i])] *)
Fixpoint index_loop (count : string -> M Z) (cs : list (Z * string))
    (index y : list Z) : M (list Z * list Z) :=
  match cs with
  | [] => ret (index, y)
  | (i, c) :: rest =>
      n <- count c ;;
      index_loop count rest (index ++ range1 n) (y ++ repeat_int n i)
  end.

(** Modelled from the spec: [VisionDataset.__init__] from [.vision], the
    base class of both datasets ("shared transform/target-transform
    plumbing"): it stores the root and the two optional transforms, and
    touches nothing else. *)
Record VisionDataset : Type := {
  vd_root : string;
  vd_transform : option callable;
  vd_target_transform : option callable
}.

Definition VisionDataset_init (root : string) (transform target_transform : option callable)
    : M VisionDataset :=
  ret {| vd_root := root; vd_transform := transform;
         vd_target_transform := target_transform |}.

(** [target_type: Union[list[str], str]] *)
Inductive target_type_arg : Type :=
| TStr (s : string)
| TList (l : list string).

(** ** class Caltech101 *)

Module Caltech101.

Record t : Type := {
  root : string;
  transform : option callable;
  target_transform : option callable;
  target_type : list string;
  categories : list string;
  annotation_categories : list string;
  index : list Z;
  y : list Z
}.

Definition images_dir (root : string) : string :=
  os_path_join root ["101_ObjectCategories"].

Definition name_map : gmap string string :=
  {[ "Faces" := "Faces_2";
     "Faces_easy" := "Faces_3";
     "Motorbikes" := "Motorbikes_16";
     "airplanes" := "Airplanes_Side_2" ]}.

(** [lambda x: name_map[x] if x in name_map else x] *)
Definition annotation_name (x : string) : string :=
  match name_map !! x with
  | Some a => a
  | None => x
  end.

Definition _check_integrity (root : string) : M bool :=
  os_path_exists (os_path_join root ["101_ObjectCategories"]).

Section WithUtils.
Context `{ArchiveUtils}.

Definition download (root : string) : M unit :=
  ok <- _check_integrity root ;;
  if ok then ret tt else
  download_and_extract_archive
    "https://data.caltech.edu/records/mzrjq-6wc02/files/caltech-101.zip?download=1"
    root "caltech-101.zip" "3138e1922a9193bfa496528edbbc45d0" ;;;
  let archive_folder := os_path_join root ["caltech-101"] in
  let category_archive := os_path_join archive_folder ["101_ObjectCategories.tar.gz"] in
  let annotation_archive := os_path_join archive_folder ["Annotations.tar"] in
  let macos_meta := os_path_join archive_folder ["__MACOSX"] in
  d <- os_path_isdir macos_meta ;;
  (if d then shutil_rmtree macos_meta else ret tt) ;;;
  extract_archive category_archive root true ;;;
  extract_archive annotation_archive root true ;;;
  d' <- os_path_isdir archive_folder ;;
  (if d' then shutil_rmtree archive_folder else ret tt) ;;;
  let zip_path := os_path_join root ["caltech-101.zip"] in
  f <- os_path_isfile zip_path ;;
  (if f then os_remove zip_path else ret tt).

(** [n = len(os.listdir(os.path.join(self.root, "101_ObjectCategories", c)))] *)
Definition count_files (root c : string) : M Z :=
  ls <- os_listdir (os_path_join root ["101_ObjectCategories"; c]) ;;
  ret (Z.of_nat (length ls)).

Definition __init__ (root_arg : string) (target_type : target_type_arg)
    (transform target_transform : option callable) (download_flag : bool) : M t :=
  base <- VisionDataset_init (os_path_join root_arg ["caltech101"])
            transform target_transform ;;
  let root := vd_root base in
  os_makedirs root ;;;
  let target_type := match target_type with
                     | TStr s => [s]
                     | TList l => l
                     end in
  target_type <- lift (map_result
                         (fun t => verify_str_arg t "target_type" ["category"; "annotation"])
                         target_type) ;;
  (if download_flag then download root else ret tt) ;;;
  ok <- _check_integrity root ;;
  if negb ok then
    raise (RuntimeError
             "Dataset not found or corrupted. You can use download=True to download it")
  else
  ls <- os_listdir (os_path_join root ["101_ObjectCategories"]) ;;
  categories <- lift (list_remove "BACKGROUND_Google" (sorted ls)) ;;
  let annotation_categories := map annotation_name categories in
  built <- index_loop (count_files root) (enumerate categories) [] [] ;;
  let '(index, y) := built in
  ret {| root := root; transform := vd_transform base;
         target_transform := vd_target_transform base;
         target_type := target_type; categories := categories;
         annotation_categories := annotation_categories;
         index := index; y := y |}.

End WithUtils.

Definition image_path (self : t) (category : string) (ordinal : Z) : string :=
  os_path_join (root self)
    ["101_ObjectCategories"; category; "image_" +:+ format_0d 4 ordinal +:+ ".jpg"].

Definition annotation_path (self : t) (category : string) (ordinal : Z) : string :=
  os_path_join (root self)
    ["Annotations"; category; "annotation_" +:+ format_0d 4 ordinal +:+ ".mat"].

(** The body of [for t in self.target_type:], appending to [target]. *)
Definition target_step (self : t) (index_arg : Z) (target : list pyobj) (t : string)
    : M (list pyobj) :=
  if String.eqb t "category" then
    yi <- lift (py_index (y self) index_arg) ;;
    ret (target ++ [PInt yi])
  else if String.eqb t "annotation" then
    yi <- lift (py_index (y self) index_arg) ;;
    c <- lift (py_index (annotation_categories self) yi) ;;
    k <- lift (py_index (index self) index_arg) ;;
    data <- scipy_io_loadmat (annotation_path self c k) ;;
    contour <- lift (dict_getitem data "obj_contour") ;;
    ret (target ++ [PArray contour])
  else ret target.

Fixpoint target_loop (self : t) (index_arg : Z) (ts : list string) (target : list pyobj)
    : M (list pyobj) :=
  match ts with
  | [] => ret target
  | t :: ts' =>
      target' <- target_step self index_arg target t ;;
      target_loop self index_arg ts' target'
  end.

(** [tuple(target) if len(target) > 1 else target[0]] *)
Definition pack_target (target : list pyobj) : result pyobj :=
  if 1 <? Z.of_nat (length target) then Ok (PTuple target)
  else py_index target 0.

Definition __getitem__ (self : t) (index_arg : Z) : M (pyobj * pyobj) :=
  import_scipy_io ;;;
  yi <- lift (py_index (y self) index_arg) ;;
  c <- lift (py_index (categories self) yi) ;;
  k <- lift (py_index (index self) index_arg) ;;
  img <- Image_open (image_path self c k) ;;
  target <- target_loop self index_arg (target_type self) [] ;;
  target <- lift (pack_target target) ;;
  img <- apply_opt (transform self) (PImage img) ;;
  target <- apply_opt (target_transform self) target ;;
  ret (img, target).

Definition __len__ (self : t) : Z := Z.of_nat (length (index self)).

End Caltech101.

(** ** class Caltech256 *)

Module Caltech256.

Record t : Type := {
  root : string;
  transform : option callable;
  target_transform : option callable;
  categories : list string;
  index : list Z;
  y : list Z
}.

Definition _check_integrity (root : string) : M bool :=
  os_path_exists (os_path_join root ["256_ObjectCategories"]).

Section WithUtils.
Context `{ArchiveUtils}.

Definition download (root : string) : M unit :=
  ok <- _check_integrity root ;;
  if ok then ret tt else
  download_and_extract_archive
    "https://data.caltech.edu/records/nyy15-4j048/files/256_ObjectCategories.tar"
    root "256_ObjectCategories.tar" "67b4f42ca05d46448c6bb8ecd2220f6d".

(** [n = len([item for item in os.listdir(...) if item.endswith(".jpg")])] *)
Definition count_files (root c : string) : M Z :=
  ls <- os_listdir (os_path_join root ["256_ObjectCategories"; c]) ;;
  ret (Z.of_nat (length (List.filter (fun item => endswith item ".jpg") ls))).

Definition __init__ (root_arg : string)
    (transform target_transform : option callable) (download_flag : bool) : M t :=
  base <- VisionDataset_init (os_path_join root_arg ["caltech256"])
            transform target_transform ;;
  let root := vd_root base in
  os_makedirs root ;;;
  (if download_flag then download root else ret tt) ;;;
  ok <- _check_integrity root ;;
  if negb ok then
    raise (RuntimeError
             "Dataset not found or corrupted. You can use download=True to download it")
  else
  ls <- os_listdir (os_path_join root ["256_ObjectCategories"]) ;;
  let categories := sorted ls in
  built <- index_loop (count_files root) (enumerate categories) [] [] ;;
  let '(index, y) := built in
  ret {| root := root; transform := vd_transform base;
         target_transform := vd_target_transform base;
         categories := categories; index := index; y := y |}.

End WithUtils.

Definition image_path (self : t) (category : string) (category_id ordinal : Z) : string :=
  os_path_join (root self)
    ["256_ObjectCategories"; category;
     format_0d 3 (category_id + 1) +:+ "_" +:+ format_0d 4 ordinal +:+ ".jpg"].

Definition __getitem__ (self : t) (index_arg : Z) : M (pyobj * pyobj) :=
  yi <- lift (py_index (y self) index_arg) ;;
  c <- lift (py_index (categories self) yi) ;;
  yi' <- lift (py_index (y self) index_arg) ;;
  k <- lift (py_index (index self) index_arg) ;;
  img <- Image_open (image_path self c yi' k) ;;
  target <- lift (py_index (y self) index_arg) ;;
  img <- apply_opt (transform self) (PImage img) ;;
  target <- apply_opt (target_transform self) (PInt target) ;;
  ret (img, target).

Definition __len__ (self : t) : Z := Z.of_nat (length (index self)).

End Caltech256.

(** ** Pure descriptions used in the statements *)

(** The same world after further calls were logged. *)
Definition add_log (w : world) (es : list event) : world :=
  World (fs w) (scipy_installed w) (log w ++ es).

(** Category ids and ordinals laid out block by block: the counts
    [n_0, n_1, ...] give [n_0] entries of category [s], then [n_1] of
    category [s + 1], ...; inside a block the ordinals run [1..n]. *)
Fixpoint ids_from (s : Z) (counts : list Z) : list Z :=
  match counts with
  | [] => []
  | n :: rest => repeat_int n s ++ ids_from (s + 1) rest
  end.

Fixpoint ordinals (counts : list Z) : list Z :=
  match counts with
  | [] => []
  | n :: rest => range1 n ++ ordinals rest
  end.

Definition sum_Z (l : list Z) : Z := foldr Z.add 0 l.

(** Where the block of the category at position [k] starts. *)
Definition offset (counts : list Z) (k : nat) : Z := sum_Z (take k counts).

(** What the per-category count reads off a tree, for each class. *)
Definition count_101 (n : node) (root c : string) : result Z :=
  match listdir_of (os_path_join root ["101_ObjectCategories"; c]) n with
  | Ok ls => Ok (Z.of_nat (length ls))
  | Err e => Err e
  end.

Definition count_256 (n : node) (root c : string) : result Z :=
  match listdir_of (os_path_join root ["256_ObjectCategories"; c]) n with
  | Ok ls => Ok (Z.of_nat (length (List.filter (fun item => endswith item ".jpg") ls)))
  | Err e => Err e
  end.

Definition valid_target_types : list string := ["category"; "annotation"].

(** Reading a run of decimal digits back ([int(s)] on digits only). *)
Definition read_decimal (s : string) : option N :=
  option_map N.of_uint (NilZero.uint_of_string s).

(** The invariant of the sample index, for categories [cats] whose
    per-category counts are read by [cnt]: the category at position [k]
    with [n] files owns the [n] consecutive entries starting at
    [offset counts k]; they carry category id [k] and ordinals [1..n], no
    other entry carries id [k]; every id is a position in [cats], and
    ids never decrease along the index. *)
Definition block_layout (cnt : string -> result Z) (cats : list string)
    (index y : list Z) : Prop :=
  exists counts,
    map cnt cats = map Ok counts /\
    length y = length index /\
    (forall k c, cats !! k = Some c ->
       exists n, cnt c = Ok n /\ counts !! k = Some n /\
         (forall j, 0 <= j < n ->
            y !! Z.to_nat (offset counts k + j) = Some (Z.of_nat k) /\
            index !! Z.to_nat (offset counts k + j) = Some (j + 1)) /\
         Z.of_nat (length (List.filter (Z.eqb (Z.of_nat k)) y)) = n) /\
    (forall i, 0 <= i < Z.of_nat (length index) ->
       exists yi, y !! Z.to_nat i = Some yi /\ 0 <= yi < Z.of_nat (length cats)) /\
    (forall i j a b, y !! i = Some a -> y !! j = Some b -> (i <= j)%nat -> a <= b).

(** The tail of both [__getitem__]s:
    [if self.transform is not None: img = self.transform(img)], the same
    for the target, then [return img, target]. *)
Definition apply_transforms (tr ttr : option callable) (img target : pyobj)
    : result (pyobj * pyobj) :=
  match (match tr with Some f => f img | None => Ok img end) with
  | Err e => Err e
  | Ok img' =>
      match (match ttr with Some g => g target | None => Ok target end) with
      | Err e => Err e
      | Ok target' => Ok (img', target')
      end
  end.

(** The value one requested target kind contributes. *)
Definition target_item (yi : Z) (contour : ndarray) (t : string) : pyobj :=
  if String.eqb t "category" then PInt yi else PArray contour.

(** ** A sample installation

    A small disk holding both datasets, and archive utilities without a
    network. *)

Definition offline : ArchiveUtils := {|
  download_and_extract_archive_fs := fun _ _ _ _ n => (Err (OtherError "network unreachable"), n);
  extract_archive_fs := fun _ _ _ n => (Err (OtherError "no such archive"), n)
|}.

Definition jpg (k : Z) : node := File (ImageData [k]).
Definition mat (k : Z) : node := File (MatData {[ "obj_contour" := [k] ]}).

Definition sample_101 : node :=
  Dir [("101_ObjectCategories",
        Dir [("b", Dir [("image_0001.jpg", jpg 11); ("image_0002.jpg", jpg 12);
                        ("image_0003.jpg", jpg 13)]);
             ("BACKGROUND_Google", Dir [("image_0001.jpg", jpg 0)]);
             ("Faces", Dir [("image_0001.jpg", jpg 1); ("image_0002.jpg", jpg 2)])]);
       ("Annotations",
        Dir [("b", Dir [("annotation_0001.mat", mat 11); ("annotation_0002.mat", mat 12);
                        ("annotation_0003.mat", mat 13)]);
             ("Faces_2", Dir [("annotation_0001.mat", mat 1);
                              ("annotation_0002.mat", mat 2)])])].

Definition sample_256 : node :=
  Dir [("256_ObjectCategories",
        Dir [("002.b", Dir [("002_0001.jpg", jpg 21); ("002_0002.jpg", jpg 22);
                            ("002_0003.jpg", jpg 23); ("notes.txt", File (RawData "x"))]);
             ("001.a", Dir [("001_0001.jpg", jpg 11); ("001_0002.jpg", jpg 12)])])].

(** An image root with two class folders and no [BACKGROUND_Google]. *)
Definition sample_no_sentinel : node :=
  Dir [("101_ObjectCategories",
        Dir [("b", Dir [("image_0001.jpg", jpg 11)]);
             ("a", Dir [("image_0001.jpg", jpg 1); ("image_0002.jpg", jpg 2)])])].

Definition sample_disk : node :=
  Dir [("data", Dir [("caltech101", sample_101); ("caltech256", sample_256)])].

Definition sample_world : world := World sample_disk true [].

Definition empty_world : world := World (Dir []) true [].

Definition no_sentinel_world : world :=
  World (Dir [("data", Dir [("caltech101", sample_no_sentinel)])]) true [].

Definition sample_ds_101 (tys : list string) : Caltech101.t := {|
  Caltech101.root := "data/caltech101";
  Caltech101.transform := None;
  Caltech101.target_transform := None;
  Caltech101.target_type := tys;
  Caltech101.categories := ["Faces"; "b"];
  Caltech101.annotation_categories := ["Faces_2"; "b"];
  Caltech101.index := [1; 2; 1; 2; 3];
  Caltech101.y := [0; 0; 1; 1; 1]
|}.

Definition sample_ds_256 : Caltech256.t := {|
  Caltech256.root := "data/caltech256";
  Caltech256.transform := None;
  Caltech256.target_transform := None;
  Caltech256.categories := ["001.a"; "002.b"];
  Caltech256.index := [1; 2; 1; 2; 3];
  Caltech256.y := [0; 0; 1; 1; 1]
|}.

Definition sample_world_101 : world :=
  add_log sample_world
    [EvMakedirs "data/caltech101";
     EvExists "data/caltech101/101_ObjectCategories";
     EvListdir "data/caltech101/101_ObjectCategories";
     EvListdir "data/caltech101/101_ObjectCategories/Faces";
     EvListdir "data/caltech101/101_ObjectCategories/b"].

Definition sample_world_256 : world :=
  add_log sample_world
    [EvMakedirs "data/caltech256";
     EvExists "data/caltech256/256_ObjectCategories";
     EvListdir "data/caltech256/256_ObjectCategories";
     EvListdir "data/caltech256/256_ObjectCategories/001.a";
     EvListdir "data/caltech256/256_ObjectCategories/002.b"].

(** The same dataset object with another validated [target_type]. *)
Definition with_target_type (tys : list string) (ds : Caltech101.t) : Caltech101.t := {|
  Caltech101.root := Caltech101.root ds;
  Caltech101.transform := Caltech101.transform ds;
  Caltech101.target_transform := Caltech101.target_transform ds;
  Caltech101.target_type := tys;
  Caltech101.categories := Caltech101.categories ds;
  Caltech101.annotation_categories := Caltech101.annotation_categories ds;
  Caltech101.index := Caltech101.index ds;
  Caltech101.y := Caltech101.y ds
|}.

(** ** Descriptions used for the properties beyond the sample index *)

(** A call that neither writes to the disk nor uses the network. *)
Definition reads (e : event) : Prop :=
  writes_disk e = false /\ uses_network e = false.

(** A computation that, on the disk [n] with scipy importable or not
    ([s]), only reads: whatever was logged before, it returns the same
    result, leaves disk and interpreter alone and logs the same reading
    calls. *)
Definition read_only_at {A} (n : node) (s : bool) (m : M A) : Prop :=
  exists r es,
    Forall reads es /\
    forall l, m (World n s l) = (r, World n s (l ++ es)).

(** The same, naming the result. *)
Definition reads_to {A} (n : node) (s : bool) (m : M A) (r : result A) : Prop :=
  exists es,
    Forall reads es /\
    forall l, m (World n s l) = (r, World n s (l ++ es)).

(** What the constructor of Caltech101 makes of the disk [n] it finds
    once the root exists and nothing is left to fetch: the first failing
    step decides the error. *)
Definition outcome_101 (root_arg : string) (tt : target_type_arg)
    (tr ttr : option callable) (n : node) : result Caltech101.t :=
  let root := os_path_join root_arg ["caltech101"] in
  match map_result (fun t => verify_str_arg t "target_type" ["category"; "annotation"])
          (match tt with TStr s => [s] | TList l => l end) with
  | Err e => Err e
  | Ok tys =>
      if bool_decide (is_Some (lookup_path (Caltech101.images_dir root) n)) then
        match listdir_of (Caltech101.images_dir root) n with
        | Err e => Err e
        | Ok ls =>
            match list_remove "BACKGROUND_Google" (sorted ls) with
            | Err e => Err e
            | Ok cats =>
                match map_result (count_101 n root) cats with
                | Err e => Err e
                | Ok counts =>
                    Ok {| Caltech101.root := root;
                          Caltech101.transform := tr;
                          Caltech101.target_transform := ttr;
                          Caltech101.target_type := tys;
                          Caltech101.categories := cats;
                          Caltech101.annotation_categories :=
                            map Caltech101.annotation_name cats;
                          Caltech101.index := ordinals counts;
                          Caltech101.y := ids_from 0 counts |}
                end
            end
        end
      else Err (RuntimeError
                  "Dataset not found or corrupted. You can use download=True to download it")
  end.

Definition outcome_256 (root_arg : string) (tr ttr : option callable) (n : node)
    : result Caltech256.t :=
  let root := os_path_join root_arg ["caltech256"] in
  if bool_decide (is_Some (lookup_path (os_path_join root ["256_ObjectCategories"]) n)) then
    match listdir_of (os_path_join root ["256_ObjectCategories"]) n with
    | Err e => Err e
    | Ok ls =>
        match map_result (count_256 n root) (sorted ls) with
        | Err e => Err e
        | Ok counts =>
            Ok {| Caltech256.root := root;
                  Caltech256.transform := tr;
                  Caltech256.target_transform := ttr;
                  Caltech256.categories := sorted ls;
                  Caltech256.index := ordinals counts;
                  Caltech256.y := ids_from 0 counts |}
        end
    end
  else Err (RuntimeError
              "Dataset not found or corrupted. You can use download=True to download it").

(** A Caltech101 installation whose files do not follow the numbering:
    class [a] holds one file under another name, and the annotation of
    class [b] has no [obj_contour]. *)
Definition odd_101 : node :=
  Dir [("101_ObjectCategories",
        Dir [("BACKGROUND_Google", File (RawData "not a folder"));
             ("a", Dir [("cat.jpg", jpg 1)]);
             ("b", Dir [("image_0001.jpg", jpg 2)])]);
       ("Annotations",
        Dir [("b", Dir [("annotation_0001.mat", File (MatData {[ "box_coord" := [0] ]}))])])].

Definition odd_world : world :=
  World (Dir [("data", Dir [("caltech101", odd_101)])]) true [].

Definition odd_ds (tys : list string) : Caltech101.t := {|
  Caltech101.root := "data/caltech101";
  Caltech101.transform := None;
  Caltech101.target_transform := None;
  Caltech101.target_type := tys;
  Caltech101.categories := ["a"; "b"];
  Caltech101.annotation_categories := ["a"; "b"];
  Caltech101.index := [1; 1];
  Caltech101.y := [0; 1]
|}.

(** An image root with a stray regular file next to the class folders. *)
Definition stray_256 : node :=
  Dir [("256_ObjectCategories",
        Dir [("001.a", Dir [("001_0001.jpg", jpg 1)]);
             ("README", File (RawData "x"))])].

Definition stray_world : world :=
  World (Dir [("data", Dir [("caltech256", stray_256)])]) true [].

(** What reading the contour of an annotation file yields:
    [scipy.io.loadmat(path)["obj_contour"]]. *)
Definition contour_of (path : string) (n : node) : result ndarray :=
  match mat_of path n with
  | Ok data => dict_getitem data "obj_contour"
  | Err e => Err e
  end.

Definition stray_101 : node :=
  Dir [("101_ObjectCategories",
        Dir [("BACKGROUND_Google", Dir []);
             ("a", Dir [("image_0001.jpg", jpg 1)]);
             ("README", File (RawData "x"))])].

Definition stray_world_101 : world :=
  World (Dir [("data", Dir [("caltech101", stray_101)])]) true [].

(** Archive utilities standing in for a working mirror: the fetch leaves
    the zip and its unpacked folder under [data/caltech101], and an
    extraction succeeds. *)
Definition fetched_101 : node :=
  Dir [("data",
        Dir [("caltech101",
              Dir [("caltech-101.zip", File (RawData "zip"));
                   ("caltech-101",
                    Dir [("101_ObjectCategories.tar.gz", File (RawData "tgz"));
                         ("Annotations.tar", File (RawData "tar"));
                         ("__MACOSX", Dir [])])])])].

Definition mirror : ArchiveUtils := {|
  download_and_extract_archive_fs := fun _ _ _ _ _ => (Ok tt, fetched_101);
  extract_archive_fs := fun _ _ _ n => (Ok tt, n)
|}.

Definition bare_world : world :=
  World (Dir [("data", Dir [("caltech101", Dir [])])]) true [].

(** * Properties *)

Local Open Scope py_scope.

(** ** The monad *)

Lemma bind_ok_inv {A B} (m : M A) (k : A -> M B) w b w' :
  bind m k w = (Ok b, w') ->
  exists a w1, m w = (Ok a, w1) /\ k a w1 = (Ok b, w').
Proof.
  unfold bind. destruct (m w) as [[a|e] w1]; [eauto | discriminate].
Qed.

Lemma bind_run {A B} (m : M A) (k : A -> M B) w a w1 :
  m w = (Ok a, w1) -> bind m k w = k a w1.
Proof. unfold bind. now intros ->. Qed.

Lemma bind_err {A B} (m : M A) (k : A -> M B) w e w1 :
  m w = (Err e, w1) -> bind m k w = (Err e, w1).
Proof. unfold bind. now intros ->. Qed.

Lemma add_log_nil w : add_log w [] = w.
Proof. destruct w. unfold add_log. simpl. now rewrite app_nil_r. Qed.

Lemma add_log_app w es es' : add_log (add_log w es) es' = add_log w (es ++ es').
Proof. unfold add_log. simpl. now rewrite app_assoc. Qed.

(** ** What the calls do to the world *)

Lemma os_listdir_run path w :
  os_listdir path w = (listdir_of path (fs w), add_log w [EvListdir path]).
Proof. reflexivity. Qed.

Lemma os_path_exists_run path w :
  os_path_exists path w =
  (Ok (bool_decide (is_Some (lookup_path path (fs w)))), add_log w [EvExists path]).
Proof. reflexivity. Qed.

Lemma Image_open_run path w :
  Image_open path w = (image_of path (fs w), add_log w [EvImageOpen path]).
Proof. reflexivity. Qed.

Lemma scipy_io_loadmat_run path w :
  scipy_io_loadmat path w = (mat_of path (fs w), add_log w [EvLoadmat path]).
Proof. reflexivity. Qed.

Lemma import_scipy_io_run w :
  import_scipy_io w =
  ((if scipy_installed w then Ok tt else Err (ModuleNotFoundError "scipy")),
   add_log w [EvImport "scipy.io"]).
Proof. unfold import_scipy_io, bind, emit, add_log. simpl. now destruct (scipy_installed w). Qed.

Lemma os_makedirs_run path w :
  os_makedirs path w =
  match makedirs_at path (components path) (fs w) with
  | Ok n => (Ok tt, World n (scipy_installed w) (log w ++ [EvMakedirs path]))
  | Err e => (Err e, add_log w [EvMakedirs path])
  end.
Proof.
  unfold os_makedirs, bind, emit, add_log, set_fs. simpl.
  now destruct (makedirs_at _ _ _).
Qed.

Lemma count_files_101_run root c w :
  Caltech101.count_files root c w =
  (count_101 (fs w) root c,
   add_log w [EvListdir (os_path_join root ["101_ObjectCategories"; c])]).
Proof.
  unfold Caltech101.count_files, count_101. unfold bind at 1. rewrite os_listdir_run.
  now destruct (listdir_of _ _).
Qed.

Lemma count_files_256_run root c w :
  Caltech256.count_files root c w =
  (count_256 (fs w) root c,
   add_log w [EvListdir (os_path_join root ["256_ObjectCategories"; c])]).
Proof.
  unfold Caltech256.count_files, count_256. unfold bind at 1. rewrite os_listdir_run.
  now destruct (listdir_of _ _).
Qed.

(** ** The constructor's loop *)

Section IndexLoop.
Variable count : string -> M Z.
Variable cnt : node -> string -> result Z.
Hypothesis count_reads :
  forall c w, exists es, count c w = (cnt (fs w) c, add_log w es).

Lemma index_loop_run l : forall s idx ys w r w',
  index_loop count (zip (seqZ s (Z.of_nat (length l))) l) idx ys w = (r, w') ->
  (exists es, w' = add_log w es) /\
  match r with
  | Ok (idx', ys') =>
      exists counts, map (cnt (fs w)) l = map Ok counts /\
                     idx' = idx ++ ordinals counts /\
                     ys' = ys ++ ids_from s counts
  | Err e => exists c, c ∈ l /\ cnt (fs w) c = Err e
  end.
Proof.
  induction l as [|c l IH]; intros s idx ys w r w' Hrun.
  - cbn in Hrun. injection Hrun as <- <-. split.
    + exists []. now rewrite add_log_nil.
    + exists []. now rewrite !app_nil_r.
  - rewrite seqZ_cons in Hrun by (simpl length; lia).
    cbn [zip zip_with index_loop] in Hrun.
    destruct (count_reads c w) as [es Hc].
    unfold bind in Hrun. rewrite Hc in Hrun.
    destruct (cnt (fs w) c) as [n|e] eqn:Hn.
    + replace (Z.pred (Z.of_nat (length (c :: l)))) with (Z.of_nat (length l)) in Hrun
        by (simpl length; lia).
      apply IH in Hrun as [[es' ->] Hr]. split.
      * exists (es ++ es'). apply add_log_app.
      * destruct r as [[idx' ys']|e].
        -- destruct Hr as (counts & Hcs & -> & ->). exists (n :: counts).
           cbn [map ordinals ids_from]. rewrite Hn.
           change (fs (add_log w es)) with (fs w) in Hcs. rewrite Hcs.
           rewrite <- !app_assoc. replace (Z.succ s) with (s + 1) by lia. auto.
        -- destruct Hr as (c' & Hin & Hc'). exists c'. split; [now right|exact Hc'].
    + injection Hrun as <- <-. split; [eauto|].
      exists c. split; [now left|exact Hn].
Qed.
End IndexLoop.

Lemma enumerate_zip {A} (l : list A) :
  enumerate l = zip (seqZ 0 (Z.of_nat (length l))) l.
Proof. reflexivity. Qed.

Lemma count_101_nonneg n root c z : count_101 n root c = Ok z -> 0 <= z.
Proof.
  unfold count_101. destruct (listdir_of _ _); [|discriminate].
  intros [= <-]. lia.
Qed.

Lemma count_256_nonneg n root c z : count_256 n root c = Ok z -> 0 <= z.
Proof.
  unfold count_256. destruct (listdir_of _ _); [|discriminate].
  intros [= <-]. lia.
Qed.

Lemma counts_nonneg (cnt : string -> result Z) (l : list string) (counts : list Z) :
  (forall c z, cnt c = Ok z -> 0 <= z) ->
  map cnt l = map Ok counts -> Forall (fun n => 0 <= n) counts.
Proof.
  intros Hnn. revert counts. induction l as [|c l IH]; intros [|n counts] Heq;
    try discriminate; [constructor|].
  cbn in Heq. injection Heq as Hc Hrest. constructor; eauto.
Qed.

(** ** What a successful construction establishes *)

Tactic Notation "bind_inv" hyp(H) "as" ident(a) ident(w) ident(E) :=
  apply bind_ok_inv in H as (a & w & E & H).

Lemma check_integrity_101_run root w :
  Caltech101._check_integrity root w =
  (Ok (bool_decide (is_Some (lookup_path (Caltech101.images_dir root) (fs w)))),
   add_log w [EvExists (Caltech101.images_dir root)]).
Proof. reflexivity. Qed.

Lemma check_integrity_256_run root w :
  Caltech256._check_integrity root w =
  (Ok (bool_decide (is_Some
         (lookup_path (os_path_join root ["256_ObjectCategories"]) (fs w)))),
   add_log w [EvExists (os_path_join root ["256_ObjectCategories"])]).
Proof. reflexivity. Qed.

Lemma init_101_ok `{ArchiveUtils} root_arg tt tr ttr dl w ds w' :
  Caltech101.__init__ root_arg tt tr ttr dl w = (Ok ds, w') ->
  Caltech101.root ds = os_path_join root_arg ["caltech101"] /\
  Caltech101.transform ds = tr /\
  Caltech101.target_transform ds = ttr /\
  map_result (fun t => verify_str_arg t "target_type" ["category"; "annotation"])
    (match tt with TStr s => [s] | TList l => l end) = Ok (Caltech101.target_type ds) /\
  Caltech101.annotation_categories ds =
    map Caltech101.annotation_name (Caltech101.categories ds) /\
  exists ls counts,
    listdir_of (Caltech101.images_dir (Caltech101.root ds)) (fs w') = Ok ls /\
    list_remove "BACKGROUND_Google" (sorted ls) = Ok (Caltech101.categories ds) /\
    map (count_101 (fs w') (Caltech101.root ds)) (Caltech101.categories ds) = map Ok counts /\
    Caltech101.index ds = ordinals counts /\
    Caltech101.y ds = ids_from 0 counts.
Proof.
  unfold Caltech101.__init__. intros Hrun.
  bind_inv Hrun as base wb Eb. injection Eb as <- <-.
  cbn [vd_root vd_transform vd_target_transform] in Hrun.
  bind_inv Hrun as u1 w1 E1. clear E1.
  bind_inv Hrun as tys w2 Ett. unfold lift in Ett. injection Ett as Ett <-.
  bind_inv Hrun as u2 w2 E2. clear E2.
  bind_inv Hrun as ok w3 E3.
  rewrite check_integrity_101_run in E3. injection E3 as <- <-.
  destruct (negb _); [discriminate|].
  bind_inv Hrun as ls w4 Els. rewrite os_listdir_run in Els. injection Els as Els <-.
  bind_inv Hrun as cats w5 Erm. unfold lift in Erm. injection Erm as Erm <-.
  bind_inv Hrun as built w6 E. destruct built as [idx ys].
  unfold ret in Hrun. injection Hrun as <- <-.
  rewrite enumerate_zip in E.
  apply (index_loop_run _ (fun n c => count_101 n (os_path_join root_arg ["caltech101"]) c))
    in E as [[es ->] (counts & Hc & -> & ->)].
  - cbn [Caltech101.root Caltech101.transform Caltech101.target_transform
         Caltech101.target_type Caltech101.annotation_categories Caltech101.categories
         Caltech101.index Caltech101.y].
    repeat (split; [done|]).
    exists ls, counts. unfold add_log in *. cbn [fs] in *. auto.
  - intros c w0. eexists. apply count_files_101_run.
Qed.

Lemma init_256_ok `{ArchiveUtils} root_arg tr ttr dl w ds w' :
  Caltech256.__init__ root_arg tr ttr dl w = (Ok ds, w') ->
  Caltech256.root ds = os_path_join root_arg ["caltech256"] /\
  Caltech256.transform ds = tr /\
  Caltech256.target_transform ds = ttr /\
  exists ls counts,
    listdir_of (os_path_join (Caltech256.root ds) ["256_ObjectCategories"]) (fs w') = Ok ls /\
    Caltech256.categories ds = sorted ls /\
    map (count_256 (fs w') (Caltech256.root ds)) (Caltech256.categories ds) = map Ok counts /\
    Caltech256.index ds = ordinals counts /\
    Caltech256.y ds = ids_from 0 counts.
Proof.
  unfold Caltech256.__init__. intros Hrun.
  bind_inv Hrun as base wb Eb. injection Eb as <- <-.
  cbn [vd_root vd_transform vd_target_transform] in Hrun.
  bind_inv Hrun as u1 w1 E1. clear E1.
  bind_inv Hrun as u2 w2 E2. clear E2.
  bind_inv Hrun as ok w3 E3.
  rewrite check_integrity_256_run in E3. injection E3 as <- <-.
  destruct (negb _); [discriminate|].
  bind_inv Hrun as ls w4 Els. rewrite os_listdir_run in Els. injection Els as Els <-.
  bind_inv Hrun as built w6 E. destruct built as [idx ys].
  unfold ret in Hrun. injection Hrun as <- <-.
  rewrite enumerate_zip in E.
  apply (index_loop_run _ (fun n c => count_256 n (os_path_join root_arg ["caltech256"]) c))
    in E as [[es ->] (counts & Hc & -> & ->)].
  - cbn [Caltech256.root Caltech256.transform Caltech256.target_transform
         Caltech256.categories Caltech256.index Caltech256.y].
    repeat (split; [done|]).
    exists ls, counts. unfold add_log in *. cbn [fs] in *. auto.
  - intros c w0. eexists. apply count_files_256_run.
Qed.

(** ** The block layout of the sample index *)

Lemma length_repeat_int n i : length (repeat_int n i) = Z.to_nat n.
Proof. apply length_replicate. Qed.

Lemma length_range1 n : length (range1 n) = Z.to_nat n.
Proof. apply length_seqZ. Qed.

Lemma length_ids_from counts : forall s,
  Forall (fun n => 0 <= n) counts ->
  Z.of_nat (length (ids_from s counts)) = sum_Z counts.
Proof.
  induction counts as [|n counts IH]; intros s Hnn; [reflexivity|].
  inversion Hnn; subst. cbn [ids_from sum_Z foldr].
  rewrite length_app, length_repeat_int, Nat2Z.inj_add, IH by assumption.
  unfold sum_Z. lia.
Qed.

Lemma length_ordinals counts :
  Forall (fun n => 0 <= n) counts ->
  Z.of_nat (length (ordinals counts)) = sum_Z counts.
Proof.
  induction counts as [|n counts IH]; intros Hnn; [reflexivity|].
  inversion Hnn; subst. cbn [ordinals sum_Z foldr].
  rewrite length_app, length_range1, Nat2Z.inj_add, IH by assumption.
  unfold sum_Z. lia.
Qed.

Lemma sum_Z_nonneg counts : Forall (fun n => 0 <= n) counts -> 0 <= sum_Z counts.
Proof.
  induction 1 as [|n counts Hn _ IH]; cbn; [lia|]. unfold sum_Z in IH. lia.
Qed.

Lemma offset_nonneg counts k : Forall (fun n => 0 <= n) counts -> 0 <= offset counts k.
Proof. intros Hnn. apply sum_Z_nonneg. now apply Forall_take. Qed.

(** The block of the category at position [k]: entry [offset + j] holds
    category [s + k] and ordinal [j + 1]. *)
Lemma block_lookup counts : forall s k n j,
  Forall (fun n => 0 <= n) counts ->
  counts !! k = Some n -> 0 <= j < n ->
  ids_from s counts !! Z.to_nat (offset counts k + j) = Some (s + Z.of_nat k) /\
  ordinals counts !! Z.to_nat (offset counts k + j) = Some (j + 1).
Proof.
  induction counts as [|m counts IH]; intros s k n j Hnn Hk Hj; [discriminate|].
  inversion Hnn as [|? ? Hm Hnn']; subst. destruct k as [|k].
  - injection Hk as ->. unfold offset. cbn [take sum_Z foldr ids_from ordinals].
    replace (0 + j) with j by lia. split.
    + rewrite lookup_app_l by (rewrite length_repeat_int; lia).
      unfold repeat_int. rewrite lookup_replicate_2 by lia. f_equal. lia.
    + rewrite lookup_app_l by (rewrite length_range1; lia).
      unfold range1. rewrite lookup_seqZ_lt by lia. f_equal. lia.
  - cbn in Hk. destruct (IH (s + 1) k n j Hnn' Hk Hj) as [Hy Hi].
    pose proof (offset_nonneg counts k Hnn') as Hoff.
    unfold offset in *. cbn [take sum_Z foldr ids_from ordinals].
    fold (sum_Z (take k counts)).
    replace (Z.to_nat (m + sum_Z (take k counts) + j))
      with (Z.to_nat m + Z.to_nat (sum_Z (take k counts) + j))%nat by lia.
    split.
    + rewrite lookup_app_r by (rewrite length_repeat_int; lia).
      rewrite length_repeat_int.
      replace (Z.to_nat m + Z.to_nat (sum_Z (take k counts) + j) - Z.to_nat m)%nat
        with (Z.to_nat (sum_Z (take k counts) + j)) by lia.
      rewrite Hy. f_equal. lia.
    + rewrite lookup_app_r by (rewrite length_range1; lia).
      rewrite length_range1.
      replace (Z.to_nat m + Z.to_nat (sum_Z (take k counts) + j) - Z.to_nat m)%nat
        with (Z.to_nat (sum_Z (take k counts) + j)) by lia.
      exact Hi.
Qed.

Lemma ids_from_range counts : forall s x,
  x ∈ ids_from s counts -> s <= x < s + Z.of_nat (length counts).
Proof.
  induction counts as [|m counts IH]; intros s x Hx; cbn [ids_from] in Hx.
  - now apply elem_of_nil in Hx.
  - apply elem_of_app in Hx as [Hx|Hx].
    + unfold repeat_int in Hx. apply elem_of_replicate in Hx as [-> _].
      cbn [length]. lia.
    + apply IH in Hx. cbn [length]. lia.
Qed.

Lemma ids_from_monotone counts : forall s i j a b,
  ids_from s counts !! i = Some a -> ids_from s counts !! j = Some b ->
  (i <= j)%nat -> a <= b.
Proof.
  induction counts as [|m counts IH]; intros s i j a b Ha Hb Hij; [discriminate|].
  cbn [ids_from] in Ha, Hb.
  apply lookup_app_Some in Ha as [Ha|[Hli Ha]];
    apply lookup_app_Some in Hb as [Hb|[Hlj Hb]].
  - unfold repeat_int in *. apply lookup_replicate in Ha as [-> _].
    apply lookup_replicate in Hb as [-> _]. lia.
  - unfold repeat_int in Ha. apply lookup_replicate in Ha as [-> _].
    apply list_elem_of_lookup_2, ids_from_range in Hb. lia.
  - apply lookup_lt_Some in Hb. lia.
  - eapply IH; [exact Ha|exact Hb|lia].
Qed.

Lemma ordinals_positive counts x : x ∈ ordinals counts -> 1 <= x.
Proof.
  induction counts as [|m counts IH]; cbn [ordinals]; intros Hx.
  - now apply elem_of_nil in Hx.
  - apply elem_of_app in Hx as [Hx|Hx]; [|auto].
    unfold range1 in Hx. apply elem_of_seqZ in Hx. lia.
Qed.

(** Exactly [n] entries carry the id of the category at position [k]. *)
Lemma ids_from_count counts : forall s k n,
  Forall (fun n => 0 <= n) counts ->
  counts !! k = Some n ->
  Z.of_nat (length (List.filter (Z.eqb (s + Z.of_nat k)) (ids_from s counts))) = n.
Proof.
  assert (Hrep : forall m a b, a <> b -> List.filter (Z.eqb a) (repeat_int m b) = []).
  { intros m a b Hab. unfold repeat_int. induction (Z.to_nat m) as [|q IHq]; [reflexivity|].
    cbn. destruct (Z.eqb_spec a b); [contradiction|exact IHq]. }
  assert (Hsame : forall m a, List.filter (Z.eqb a) (repeat_int m a) = repeat_int m a).
  { intros m a. unfold repeat_int. induction (Z.to_nat m) as [|q IHq]; [reflexivity|].
    cbn. rewrite Z.eqb_refl. now f_equal. }
  assert (Hnone : forall counts s a, a < s -> List.filter (Z.eqb a) (ids_from s counts) = []).
  { clear -Hrep. induction counts as [|m counts IH]; intros s a Has; [reflexivity|].
    cbn [ids_from]. rewrite List.filter_app, Hrep by lia. rewrite IH by lia. reflexivity. }
  induction counts as [|m counts IH]; intros s k n Hnn Hk; [discriminate|].
  inversion Hnn as [|? ? Hm Hnn']; subst. cbn [ids_from]. rewrite List.filter_app.
  destruct k as [|k].
  - injection Hk as ->. replace (s + Z.of_nat 0) with s by lia.
    rewrite Hsame, Hnone by lia. rewrite app_nil_r, length_repeat_int. lia.
  - cbn in Hk. rewrite Hrep by lia. cbn [app].
    replace (s + Z.of_nat (S k)) with (s + 1 + Z.of_nat k) by lia. now apply IH.
Qed.

(** ** Python indexing *)

Lemma py_index_in_range {A} (l : list A) i x :
  0 <= i -> l !! Z.to_nat i = Some x -> py_index l i = Ok x.
Proof.
  intros Hi Hx. pose proof (lookup_lt_Some _ _ _ Hx) as Hlt. unfold py_index.
  destruct (Z.ltb_spec i 0); [lia|].
  destruct (Z.ltb_spec i 0); [lia|].
  destruct (Z.leb_spec (Z.of_nat (length l)) i); [lia|]. cbn. now rewrite Hx.
Qed.

Lemma py_index_out_of_range {A} (l : list A) i :
  Z.of_nat (length l) <= i \/ i < - Z.of_nat (length l) -> py_index l i = Err IndexError.
Proof.
  intros Hi. unfold py_index. destruct (Z.ltb_spec i 0).
  - destruct (Z.ltb_spec (i + Z.of_nat (length l)) 0); [reflexivity|lia].
  - destruct (Z.ltb_spec i 0); [lia|].
    destruct (Z.leb_spec (Z.of_nat (length l)) i); [reflexivity|lia].
Qed.

Lemma py_index_negative {A} (l : list A) i :
  - Z.of_nat (length l) <= i < 0 -> py_index l i = py_index l (i + Z.of_nat (length l)).
Proof.
  intros Hi. unfold py_index. cbv zeta.
  assert (H1 : (i <? 0) = true) by (apply Z.ltb_lt; lia).
  assert (H2 : (i + Z.of_nat (length l) <? 0) = false) by (apply Z.ltb_ge; lia).
  rewrite H1. cbv iota. now rewrite !H2.
Qed.

Lemma in_range_lookups (cats : list string) counts i :
  length counts = length cats ->
  Forall (fun n => 0 <= n) counts ->
  0 <= i < sum_Z counts ->
  exists yi c k,
    ids_from 0 counts !! Z.to_nat i = Some yi /\ 0 <= yi /\
    cats !! Z.to_nat yi = Some c /\
    ordinals counts !! Z.to_nat i = Some k /\ 1 <= k.
Proof.
  intros Hlen Hnn Hi.
  destruct (lookup_lt_is_Some_2 (ids_from 0 counts) (Z.to_nat i)) as [yi Hyi].
  { pose proof (length_ids_from counts 0 Hnn). lia. }
  destruct (lookup_lt_is_Some_2 (ordinals counts) (Z.to_nat i)) as [k Hk].
  { pose proof (length_ordinals counts Hnn). lia. }
  pose proof (ids_from_range _ _ _ (list_elem_of_lookup_2 _ _ _ Hyi)) as Hr.
  pose proof (ordinals_positive _ _ (list_elem_of_lookup_2 _ _ _ Hk)) as Hpos.
  destruct (lookup_lt_is_Some_2 cats (Z.to_nat yi)) as [c Hc]; [lia|].
  exists yi, c, k. repeat split; auto. lia.
Qed.

Lemma map_Ok_length {A} (cnt : A -> result Z) l counts :
  map cnt l = map Ok counts -> length counts = length l.
Proof. intros Heq. apply (f_equal length) in Heq. rewrite !length_map in Heq. lia. Qed.

Lemma map_Ok_lookup {A} (cnt : A -> result Z) l counts k c :
  map cnt l = map Ok counts -> l !! k = Some c ->
  exists n, cnt c = Ok n /\ counts !! k = Some n.
Proof.
  intros Heq Hc.
  assert (Hk : map cnt l !! k = Some (cnt c)).
  { change (map cnt l) with (cnt <$> l). now rewrite list_lookup_fmap, Hc. }
  rewrite Heq in Hk. change (map Ok counts) with (Ok <$> counts) in Hk.
  rewrite list_lookup_fmap in Hk. destruct (counts !! k) as [n|]; [|discriminate].
  injection Hk as Hk. eauto.
Qed.

(** ** The sample installation constructs *)

Lemma sample_init_101 tys :
  map_result (fun t => verify_str_arg t "target_type" ["category"; "annotation"]) tys = Ok tys ->
  @Caltech101.__init__ offline "data" (TList tys) None None false sample_world =
  (Ok (sample_ds_101 tys), sample_world_101).
Proof.
  intros Hv. unfold Caltech101.__init__.
  unfold bind at 1, VisionDataset_init at 1, ret at 1.
  cbn [vd_root vd_transform vd_target_transform].
  rewrite (bind_run _ _ _ tt
             (add_log sample_world [EvMakedirs "data/caltech101"])) by reflexivity.
  unfold bind at 1, lift at 1. rewrite Hv. reflexivity.
Qed.

Lemma sample_init_256 :
  @Caltech256.__init__ offline "data" None None false sample_world =
  (Ok sample_ds_256, sample_world_256).
Proof. reflexivity. Qed.

Lemma block_layout_intro (cnt : string -> result Z) cats counts :
  (forall c z, cnt c = Ok z -> 0 <= z) ->
  map cnt cats = map Ok counts ->
  block_layout cnt cats (ordinals counts) (ids_from 0 counts).
Proof.
  intros Hpos Hmap.
  pose proof (counts_nonneg cnt cats counts Hpos Hmap) as Hnn.
  pose proof (map_Ok_length _ _ _ Hmap) as Hlen.
  exists counts. split; [exact Hmap|]. split.
  { apply Nat2Z.inj. now rewrite length_ids_from, length_ordinals. }
  split; [|split].
  - intros k c Hc. destruct (map_Ok_lookup _ _ _ _ _ Hmap Hc) as (n & Hn & Hk).
    exists n. repeat split; auto.
    + now apply (block_lookup counts 0 k n j).
    + now apply (block_lookup counts 0 k n j).
    + now apply (ids_from_count counts 0 k n).
  - intros i Hi. rewrite length_ordinals in Hi by assumption.
    destruct (in_range_lookups cats counts i Hlen Hnn Hi) as (yi & c & k & Hy & _ & Hc & _).
    exists yi. split; [exact Hy|].
    apply list_elem_of_lookup_2, ids_from_range in Hy. lia.
  - intros i j a b. apply ids_from_monotone.
Qed.

(** ** Sorting and removal *)

(** [sorted] returns the one ordered rearrangement of its argument. *)
Lemma sorted_spec l : StronglySorted String.le (sorted l) /\ sorted l ≡ₚ l.
Proof.
  split.
  - apply StronglySorted_merge_sort; apply _.
  - apply merge_sort_Permutation.
Qed.

Lemma list_remove_ok x l r :
  list_remove x l = Ok r -> x ∈ l /\ l ≡ₚ x :: r.
Proof.
  revert r. induction l as [|a l IH]; intros r Hr; cbn in Hr; [discriminate|].
  destruct (String.eqb_spec a x) as [->|Hne].
  - injection Hr as <-. split; [now left|reflexivity].
  - destruct (list_remove x l) as [r'|e]; [|discriminate]. injection Hr as <-.
    destruct (IH r' eq_refl) as [Hin Hperm]. split; [now right|].
    rewrite Hperm. apply Permutation_swap.
Qed.

Lemma list_remove_absent x l :
  x ∉ l -> list_remove x l = Err (ValueError_remove x).
Proof.
  induction l as [|a l IH]; intros Hx; [reflexivity|].
  apply not_elem_of_cons in Hx as [Hne Hx]. cbn.
  destruct (String.eqb_spec a x) as [->|_]; [contradiction|]. now rewrite IH.
Qed.

Lemma list_remove_sorted x l r :
  StronglySorted String.le l -> list_remove x l = Ok r -> StronglySorted String.le r.
Proof.
  intros Hs. revert r. induction Hs as [|a l Hs IH Ha]; intros r Hr; cbn in Hr; [discriminate|].
  destruct (String.eqb_spec a x) as [->|Hne].
  - now injection Hr as <-.
  - destruct (list_remove x l) as [r'|e] eqn:Hrem; [|discriminate]. injection Hr as <-.
    constructor; [now apply IH|].
    apply list_remove_ok in Hrem as [_ Hperm].
    rewrite Hperm in Ha. now inversion Ha.
Qed.

(** In a list in order, an earlier position holds the smaller element. *)
Lemma StronglySorted_lookup_le {A} (R : relation A) `{!Reflexive R} l :
  StronglySorted R l ->
  forall i j x y, l !! i = Some x -> l !! j = Some y -> (i <= j)%nat -> R x y.
Proof.
  induction 1 as [|a l Hs IH Ha]; intros i j x y Hi Hj Hij.
  - now rewrite lookup_nil in Hi.
  - destruct i as [|i], j as [|j]; cbn in Hi, Hj.
    + injection Hi as <-. injection Hj as <-. reflexivity.
    + injection Hi as <-. rewrite Forall_forall in Ha.
      apply Ha. eapply list_elem_of_lookup_2. exact Hj.
    + lia.
    + apply (IH i j); [assumption..|lia].
Qed.

(** ** Size and layout of a constructed dataset *)

(** C4. For every constructed dataset of either class, [__len__] is the
    sum over the categories of the per-category file count the
    constructor read (all entries of the category folder for Caltech101,
    the entries ending in [.jpg] for Caltech256), and it is the length of
    the sample index [index] (and of [y]). *)
Theorem len_is_sum_of_category_counts `{ArchiveUtils} :
  (forall root_arg tt tr ttr dl w ds w',
     Caltech101.__init__ root_arg tt tr ttr dl w = (Ok ds, w') ->
     exists counts,
       map (count_101 (fs w') (Caltech101.root ds)) (Caltech101.categories ds)
         = map Ok counts /\
       Caltech101.__len__ ds = sum_Z counts /\
       Caltech101.__len__ ds = Z.of_nat (length (Caltech101.index ds)) /\
       length (Caltech101.y ds) = length (Caltech101.index ds)) /\
  (forall root_arg tr ttr dl w ds w',
     Caltech256.__init__ root_arg tr ttr dl w = (Ok ds, w') ->
     exists counts,
       map (count_256 (fs w') (Caltech256.root ds)) (Caltech256.categories ds)
         = map Ok counts /\
       Caltech256.__len__ ds = sum_Z counts /\
       Caltech256.__len__ ds = Z.of_nat (length (Caltech256.index ds)) /\
       length (Caltech256.y ds) = length (Caltech256.index ds)).
Proof.
  split.
  - intros root_arg tt tr ttr dl w ds w' Hinit.
    apply init_101_ok in Hinit as (_ & _ & _ & _ & _ & ls & counts & _ & _ & Hc & Hi & Hy).
    pose proof (counts_nonneg _ _ _ (count_101_nonneg _ _) Hc) as Hnn.
    exists counts. unfold Caltech101.__len__. rewrite Hi, Hy.
    repeat split; auto using length_ordinals.
    apply Nat2Z.inj. now rewrite length_ids_from, length_ordinals.
  - intros root_arg tr ttr dl w ds w' Hinit.
    apply init_256_ok in Hinit as (_ & _ & _ & ls & counts & _ & _ & Hc & Hi & Hy).
    pose proof (counts_nonneg _ _ _ (count_256_nonneg _ _) Hc) as Hnn.
    exists counts. unfold Caltech256.__len__. rewrite Hi, Hy.
    repeat split; auto using length_ordinals.
    apply Nat2Z.inj. now rewrite length_ids_from, length_ordinals.
Qed.

Lemma len_is_sum_of_category_counts_witness :
  (exists counts,
     map (count_101 (fs sample_world_101) "data/caltech101") ["Faces"; "b"] = map Ok counts /\
     Caltech101.__len__ (sample_ds_101 ["category"]) = sum_Z counts /\
     Caltech101.__len__ (sample_ds_101 ["category"]) = 5 /\
     length [0; 0; 1; 1; 1] = length [1; 2; 1; 2; 3]) /\
  (exists counts,
     map (count_256 (fs sample_world_256) "data/caltech256") ["001.a"; "002.b"] = map Ok counts /\
     Caltech256.__len__ sample_ds_256 = sum_Z counts /\
     Caltech256.__len__ sample_ds_256 = 5 /\
     length [0; 0; 1; 1; 1] = length [1; 2; 1; 2; 3]).
Proof.
  split.
  - apply (proj1 (@len_is_sum_of_category_counts offline)
             "data" (TList ["category"]) None None false sample_world
             (sample_ds_101 ["category"]) sample_world_101).
    reflexivity.
  - apply (proj2 (@len_is_sum_of_category_counts offline)
             "data" None None false sample_world sample_ds_256 sample_world_256).
    reflexivity.
Defined.

(** C5. For every constructed dataset of either class the category
    list is in sorted order: it is the sorted listing of the image root
    (for Caltech101 without [BACKGROUND_Google]).  Every category [c] at
    position [k] of this sorted list with [n] counted files owns exactly
    [n] entries of the sample index, with category id [k]; they are
    consecutive and their ordinals run from 1 to [n].  Hence every id in
    the index is a position in the category list, ids never decrease
    along the index, and the category names met along the index follow
    the sorted order. *)
Theorem index_is_laid_out_in_blocks `{ArchiveUtils} :
  (forall root_arg tt tr ttr dl w ds w',
     Caltech101.__init__ root_arg tt tr ttr dl w = (Ok ds, w') ->
     (exists ls,
        listdir_of (Caltech101.images_dir (Caltech101.root ds)) (fs w') = Ok ls /\
        list_remove "BACKGROUND_Google" (sorted ls) = Ok (Caltech101.categories ds)) /\
     StronglySorted String.le (Caltech101.categories ds) /\
     block_layout (count_101 (fs w') (Caltech101.root ds))
       (Caltech101.categories ds) (Caltech101.index ds) (Caltech101.y ds) /\
     (forall i j a b ca cb,
        Caltech101.y ds !! i = Some a -> Caltech101.y ds !! j = Some b -> (i <= j)%nat ->
        Caltech101.categories ds !! Z.to_nat a = Some ca ->
        Caltech101.categories ds !! Z.to_nat b = Some cb ->
        String.le ca cb)) /\
  (forall root_arg tr ttr dl w ds w',
     Caltech256.__init__ root_arg tr ttr dl w = (Ok ds, w') ->
     (exists ls,
        listdir_of (os_path_join (Caltech256.root ds) ["256_ObjectCategories"]) (fs w') = Ok ls /\
        Caltech256.categories ds = sorted ls) /\
     StronglySorted String.le (Caltech256.categories ds) /\
     block_layout (count_256 (fs w') (Caltech256.root ds))
       (Caltech256.categories ds) (Caltech256.index ds) (Caltech256.y ds) /\
     (forall i j a b ca cb,
        Caltech256.y ds !! i = Some a -> Caltech256.y ds !! j = Some b -> (i <= j)%nat ->
        Caltech256.categories ds !! Z.to_nat a = Some ca ->
        Caltech256.categories ds !! Z.to_nat b = Some cb ->
        String.le ca cb)).
Proof.
  split.
  - intros root_arg tt tr ttr dl w ds w' Hinit.
    apply init_101_ok in Hinit
      as (_ & _ & _ & _ & _ & ls & counts & Hls & Hrm & Hc & Hidx & Hy).
    assert (Hs : StronglySorted String.le (Caltech101.categories ds)).
    { eapply list_remove_sorted; [|exact Hrm]. apply sorted_spec. }
    assert (Hb : block_layout (count_101 (fs w') (Caltech101.root ds))
                   (Caltech101.categories ds) (Caltech101.index ds) (Caltech101.y ds)).
    { rewrite Hidx, Hy. apply block_layout_intro; [apply count_101_nonneg|exact Hc]. }
    split; [now exists ls|]. split; [exact Hs|]. split; [exact Hb|].
    intros i j a b ca cb Ha Hb' Hij Hca Hcb.
    destruct Hb as (cs & _ & _ & _ & _ & Hmono).
    pose proof (Hmono i j a b Ha Hb' Hij) as Hab.
    rewrite Hy in Ha. apply list_elem_of_lookup_2, ids_from_range in Ha.
    apply (StronglySorted_lookup_le String.le _ Hs (Z.to_nat a) (Z.to_nat b)); [assumption..|lia].
  - intros root_arg tr ttr dl w ds w' Hinit.
    apply init_256_ok in Hinit as (_ & _ & _ & ls & counts & Hls & Hcats & Hc & Hidx & Hy).
    assert (Hs : StronglySorted String.le (Caltech256.categories ds)).
    { rewrite Hcats. apply sorted_spec. }
    assert (Hb : block_layout (count_256 (fs w') (Caltech256.root ds))
                   (Caltech256.categories ds) (Caltech256.index ds) (Caltech256.y ds)).
    { rewrite Hidx, Hy. apply block_layout_intro; [apply count_256_nonneg|exact Hc]. }
    split; [now exists ls|]. split; [exact Hs|]. split; [exact Hb|].
    intros i j a b ca cb Ha Hb' Hij Hca Hcb.
    destruct Hb as (cs & _ & _ & _ & _ & Hmono).
    pose proof (Hmono i j a b Ha Hb' Hij) as Hab.
    rewrite Hy in Ha. apply list_elem_of_lookup_2, ids_from_range in Ha.
    apply (StronglySorted_lookup_le String.le _ Hs (Z.to_nat a) (Z.to_nat b)); [assumption..|lia].
Qed.

Lemma index_is_laid_out_in_blocks_witness :
  (StronglySorted String.le ["Faces"; "b"] /\
   block_layout (count_101 (fs sample_world_101) "data/caltech101")
     ["Faces"; "b"] [1; 2; 1; 2; 3] [0; 0; 1; 1; 1]) /\
  (StronglySorted String.le ["001.a"; "002.b"] /\
   block_layout (count_256 (fs sample_world_256) "data/caltech256")
     ["001.a"; "002.b"] [1; 2; 1; 2; 3] [0; 0; 1; 1; 1]).
Proof.
  split.
  - pose proof (proj1 (@index_is_laid_out_in_blocks offline)
                  "data" (TList ["category"]) None None false sample_world
                  (sample_ds_101 ["category"]) sample_world_101 eq_refl) as Hc.
    exact (conj (proj1 (proj2 Hc)) (proj1 (proj2 (proj2 Hc)))).
  - pose proof (proj2 (@index_is_laid_out_in_blocks offline)
                  "data" None None false sample_world sample_ds_256 sample_world_256
                  eq_refl) as Hc.
    exact (conj (proj1 (proj2 Hc)) (proj1 (proj2 (proj2 Hc)))).
Defined.

(** ** Lookup *)

Lemma map_result_verify_ok tys tys' :
  map_result (fun t => verify_str_arg t "target_type" ["category"; "annotation"]) tys = Ok tys' ->
  tys' = tys /\ Forall (fun t => t = "category" \/ t = "annotation") tys.
Proof.
  revert tys'. induction tys as [|t tys IH]; intros tys' Hv; cbn in Hv.
  - injection Hv as <-. auto.
  - unfold verify_str_arg in Hv. case_bool_decide as Hin; [|discriminate].
    destruct (map_result _ tys) as [r|e]; [|discriminate]. injection Hv as <-.
    destruct (IH r eq_refl) as [-> Hall]. split; [reflexivity|].
    constructor; [|exact Hall].
    apply elem_of_cons in Hin as [->|Hin]; [now left|].
    apply elem_of_cons in Hin as [->|Hin]; [now right|].
    now apply elem_of_nil in Hin.
Qed.

(** An in-range index of a constructed Caltech101 finds its category id,
    category name and ordinal. *)
Lemma constructed_101_lookups `{ArchiveUtils} root_arg tt tr ttr dl w ds w' i :
  Caltech101.__init__ root_arg tt tr ttr dl w = (Ok ds, w') ->
  0 <= i < Caltech101.__len__ ds ->
  exists yi c k,
    Caltech101.y ds !! Z.to_nat i = Some yi /\ 0 <= yi /\
    Caltech101.categories ds !! Z.to_nat yi = Some c /\
    Caltech101.annotation_categories ds !! Z.to_nat yi = Some (Caltech101.annotation_name c) /\
    Caltech101.index ds !! Z.to_nat i = Some k /\ 1 <= k.
Proof.
  intros Hinit Hi. unfold Caltech101.__len__ in Hi.
  apply init_101_ok in Hinit as (_ & _ & _ & _ & Hann & ls & counts & _ & _ & Hc & Hidx & Hy).
  pose proof (counts_nonneg _ _ _ (count_101_nonneg _ _) Hc) as Hnn.
  rewrite Hidx, length_ordinals in Hi by assumption.
  destruct (in_range_lookups (Caltech101.categories ds) counts i
              (map_Ok_length _ _ _ Hc) Hnn Hi) as (yi & c & k & H1 & H2 & H3 & H4 & H5).
  exists yi, c, k. rewrite Hy, Hidx, Hann. repeat split; auto.
  change (map Caltech101.annotation_name (Caltech101.categories ds))
    with (Caltech101.annotation_name <$> Caltech101.categories ds).
  now rewrite list_lookup_fmap, H3.
Qed.

Lemma constructed_256_lookups `{ArchiveUtils} root_arg tr ttr dl w ds w' i :
  Caltech256.__init__ root_arg tr ttr dl w = (Ok ds, w') ->
  0 <= i < Caltech256.__len__ ds ->
  exists yi c k,
    Caltech256.y ds !! Z.to_nat i = Some yi /\ 0 <= yi /\
    Caltech256.categories ds !! Z.to_nat yi = Some c /\
    Caltech256.index ds !! Z.to_nat i = Some k /\ 1 <= k.
Proof.
  intros Hinit Hi. unfold Caltech256.__len__ in Hi.
  apply init_256_ok in Hinit as (_ & _ & _ & ls & counts & _ & _ & Hc & Hidx & Hy).
  pose proof (counts_nonneg _ _ _ (count_256_nonneg _ _) Hc) as Hnn.
  rewrite Hidx, length_ordinals in Hi by assumption.
  destruct (in_range_lookups (Caltech256.categories ds) counts i
              (map_Ok_length _ _ _ Hc) Hnn Hi) as (yi & c & k & H1 & H2 & H3 & H4 & H5).
  exists yi, c, k. rewrite Hy, Hidx. repeat split; auto.
Qed.

Lemma pack_target_nil : Caltech101.pack_target [] = Err IndexError.
Proof. reflexivity. Qed.

Lemma pack_target_one x : Caltech101.pack_target [x] = Ok x.
Proof. reflexivity. Qed.

Lemma pack_target_many x x' l :
  Caltech101.pack_target (x :: x' :: l) = Ok (PTuple (x :: x' :: l)).
Proof.
  unfold Caltech101.pack_target. cbn [length].
  destruct (Z.ltb_spec 1 (Z.of_nat (S (S (length l))))); [reflexivity|lia].
Qed.

(** What follows the target loop leaves the world alone. *)
Lemma finish_101_run tr ttr im items w :
  (target <- lift (Caltech101.pack_target items) ;;
   img <- apply_opt tr (PImage im) ;;
   target <- apply_opt ttr target ;;
   ret (img, target)) w =
  (match Caltech101.pack_target items with
   | Ok t => apply_transforms tr ttr (PImage im) t
   | Err e => Err e
   end, w).
Proof.
  unfold bind, lift, ret, apply_opt, apply_transforms.
  destruct (Caltech101.pack_target items) as [t|e]; [|reflexivity].
  destruct tr as [f|]; [destruct (f (PImage im))|]; try reflexivity;
    destruct ttr as [g|]; try reflexivity; now destruct (g t).
Qed.

Section Lookup101.
Variables (self : Caltech101.t) (i yi k : Z) (c : string).
Hypothesis Hi : 0 <= i.
Hypothesis Hyi : Caltech101.y self !! Z.to_nat i = Some yi.
Hypothesis Hyi0 : 0 <= yi.
Hypothesis Hc : Caltech101.categories self !! Z.to_nat yi = Some c.
Hypothesis Hac :
  Caltech101.annotation_categories self !! Z.to_nat yi = Some (Caltech101.annotation_name c).
Hypothesis Hk : Caltech101.index self !! Z.to_nat i = Some k.

Let img_path := Caltech101.image_path self c k.
Let ann_path := Caltech101.annotation_path self (Caltech101.annotation_name c) k.

Lemma target_step_category acc w :
  Caltech101.target_step self i acc "category" w = (Ok (acc ++ [PInt yi]), w).
Proof.
  unfold Caltech101.target_step. cbn [String.eqb Ascii.eqb Bool.eqb].
  unfold bind, lift. now rewrite (py_index_in_range _ _ _ Hi Hyi).
Qed.

Lemma target_step_annotation acc w :
  Caltech101.target_step self i acc "annotation" w =
  (match mat_of ann_path (fs w) with
   | Ok data => match data !! "obj_contour" with
                | Some contour => Ok (acc ++ [PArray contour])
                | None => Err (KeyError "obj_contour")
                end
   | Err e => Err e
   end, add_log w [EvLoadmat ann_path]).
Proof.
  unfold Caltech101.target_step. cbn [String.eqb Ascii.eqb Bool.eqb].
  unfold bind at 1, lift at 1. rewrite (py_index_in_range _ _ _ Hi Hyi).
  unfold bind at 1, lift at 1. rewrite (py_index_in_range _ _ _ Hyi0 Hac).
  unfold bind at 1, lift at 1. rewrite (py_index_in_range _ _ _ Hi Hk).
  unfold bind at 1. rewrite scipy_io_loadmat_run. fold ann_path.
  destruct (mat_of ann_path (fs w)) as [data|e]; [|reflexivity].
  unfold bind, lift, dict_getitem, ret.
  now destruct (data !! "obj_contour").
Qed.

(** The target loop only ever reads the one annotation file; it reads
    it when an annotation is requested; and when that file holds a
    contour, the loop appends one value per requested kind, in order. *)
Lemma target_loop_run ts :
  Forall (fun t => t = "category" \/ t = "annotation") ts ->
  forall acc w,
  exists es,
    snd (Caltech101.target_loop self i ts acc w) = add_log w es /\
    Forall (fun e => e = EvLoadmat ann_path) es /\
    ("annotation" ∈ ts -> EvLoadmat ann_path ∈ es) /\
    (forall contour,
       ("annotation" ∈ ts ->
        exists data, mat_of ann_path (fs w) = Ok data /\
                     data !! "obj_contour" = Some contour) ->
       fst (Caltech101.target_loop self i ts acc w) =
       Ok (acc ++ map (target_item yi contour) ts)).
Proof.
  induction 1 as [|t ts Ht Hts IH]; intros acc w.
  - exists []. cbn. rewrite add_log_nil, app_nil_r. repeat split; auto.
    intros Hin. now apply elem_of_nil in Hin.
  - assert (Hcons : forall t', Caltech101.target_loop self i (t' :: ts) acc w =
              match Caltech101.target_step self i acc t' w with
              | (Ok a, w1) => Caltech101.target_loop self i ts a w1
              | (Err e, w1) => (Err e, w1)
              end) by reflexivity.
    rewrite Hcons. clear Hcons. destruct Ht as [-> | ->].
    + rewrite target_step_category. cbv beta iota.
      destruct (IH (acc ++ [PInt yi]) w) as (es & Hw & Hes & Hin & Hr).
      exists es. split; [exact Hw|]. split; [exact Hes|]. split.
      * intros Ha. apply Hin. apply elem_of_cons in Ha as [Ha|Ha]; [discriminate|exact Ha].
      * intros contour Hfile. rewrite (Hr contour).
        -- cbn [map]. now rewrite <- app_assoc.
        -- intros Ha. apply Hfile. now right.
    + rewrite target_step_annotation.
      destruct (mat_of ann_path (fs w)) as [data|e] eqn:Hmat.
      * destruct (data !! "obj_contour") as [a|] eqn:Hkey; cbv beta iota.
        -- destruct (IH (acc ++ [PArray a]) (add_log w [EvLoadmat ann_path]))
             as (es & Hw & Hes & Hin & Hr).
           exists (EvLoadmat ann_path :: es). rewrite Hw, add_log_app.
           split; [reflexivity|]. split; [now constructor|]. split; [intros _; now left|].
           intros contour Hfile.
           destruct Hfile as (data' & Hd & Hk'); [now left|].
           assert (data' = data) as -> by congruence.
           assert (contour = a) as -> by congruence.
           rewrite (Hr a).
           ++ cbn [map]. now rewrite <- app_assoc.
           ++ intros _. exists data. split; [exact Hmat|exact Hkey].
        -- exists [EvLoadmat ann_path]. cbn [snd fst].
           split; [reflexivity|]. split; [now repeat constructor|].
           split; [intros _; now left|].
           intros contour Hfile. destruct Hfile as (data' & Hd & Hk'); [now left|].
           congruence.
      * exists [EvLoadmat ann_path]. cbn [snd fst].
        split; [reflexivity|]. split; [now repeat constructor|].
        split; [intros _; now left|].
        intros contour Hfile. destruct Hfile as (data' & Hd & Hk'); [now left|].
        congruence.
Qed.

(** [__getitem__] up to the point where the image has been opened. *)
Lemma getitem_101_run w :
  Caltech101.__getitem__ self i w =
  if scipy_installed w then
    match image_of img_path (fs w) with
    | Ok im =>
        (target <- Caltech101.target_loop self i (Caltech101.target_type self) [] ;;
         target <- lift (Caltech101.pack_target target) ;;
         img <- apply_opt (Caltech101.transform self) (PImage im) ;;
         target <- apply_opt (Caltech101.target_transform self) target ;;
         ret (img, target))
          (add_log w [EvImport "scipy.io"; EvImageOpen img_path])
    | Err e => (Err e, add_log w [EvImport "scipy.io"; EvImageOpen img_path])
    end
  else (Err (ModuleNotFoundError "scipy"), add_log w [EvImport "scipy.io"]).
Proof.
  unfold Caltech101.__getitem__. unfold bind at 1. rewrite import_scipy_io_run.
  destruct (scipy_installed w); [|reflexivity].
  unfold bind at 1, lift at 1. rewrite (py_index_in_range _ _ _ Hi Hyi).
  unfold bind at 1, lift at 1. rewrite (py_index_in_range _ _ _ Hyi0 Hc).
  unfold bind at 1, lift at 1. rewrite (py_index_in_range _ _ _ Hi Hk).
  unfold bind at 1. rewrite Image_open_run. fold img_path.
  change (fs (add_log w [EvImport "scipy.io"])) with (fs w).
  rewrite add_log_app. cbn [app].
  now destruct (image_of img_path (fs w)).
Qed.

(** The calls one lookup makes: the import, then the image, then
    nothing but reads of the one annotation file. *)
Lemma getitem_101_log w :
  Forall (fun t => t = "category" \/ t = "annotation") (Caltech101.target_type self) ->
  exists es,
    snd (Caltech101.__getitem__ self i w) = add_log w (EvImport "scipy.io" :: es) /\
    Forall (fun e => e = EvImageOpen img_path \/ e = EvLoadmat ann_path) es /\
    (scipy_installed w = true ->
     EvImageOpen img_path ∈ es /\
     (is_ok (image_of img_path (fs w)) = true ->
      "annotation" ∈ Caltech101.target_type self -> EvLoadmat ann_path ∈ es)).
Proof.
  intros Hvalid. rewrite getitem_101_run.
  destruct (scipy_installed w).
  - destruct (image_of img_path (fs w)) as [im|e].
    + set (w1 := add_log w [EvImport "scipy.io"; EvImageOpen img_path]).
      destruct (target_loop_run _ Hvalid [] w1) as (es & Hw & Hes & Hin & _).
      exists (EvImageOpen img_path :: es). unfold bind at 1.
      assert (Hall : Forall (fun e => e = EvImageOpen img_path \/ e = EvLoadmat ann_path)
                       (EvImageOpen img_path :: es)).
      { constructor; [now left|]. eapply Forall_impl; [exact Hes|]. intros e0 ->. now right. }
      destruct (Caltech101.target_loop self i (Caltech101.target_type self) [] w1)
        as [[items|e] w2]; cbn [snd] in Hw; subst w2.
      * rewrite finish_101_run. cbn [snd]. unfold w1. rewrite add_log_app.
        split; [reflexivity|]. split; [exact Hall|]. intros _.
        split; [now left|]. intros _ Ha. right. now apply Hin.
      * cbn [snd]. unfold w1. rewrite add_log_app.
        split; [reflexivity|]. split; [exact Hall|]. intros _.
        split; [now left|]. intros _ Ha. right. now apply Hin.
    + exists [EvImageOpen img_path]. cbn [snd is_ok].
      split; [reflexivity|]. split; [repeat constructor; now left|]. intros _.
      split; [now left|discriminate].
  - exists []. cbn [snd]. split; [reflexivity|]. split; [constructor|discriminate].
Qed.

(** The lookup's value when its files are readable. *)
Lemma getitem_101_value w im contour :
  Forall (fun t => t = "category" \/ t = "annotation") (Caltech101.target_type self) ->
  scipy_installed w = true ->
  image_of img_path (fs w) = Ok im ->
  ("annotation" ∈ Caltech101.target_type self ->
   exists data, mat_of ann_path (fs w) = Ok data /\ data !! "obj_contour" = Some contour) ->
  fst (Caltech101.__getitem__ self i w) =
  match Caltech101.pack_target (map (target_item yi contour) (Caltech101.target_type self)) with
  | Ok t => apply_transforms (Caltech101.transform self) (Caltech101.target_transform self)
              (PImage im) t
  | Err e => Err e
  end.
Proof.
  intros Hvalid Hscipy Him Hfile. rewrite getitem_101_run, Hscipy, Him.
  set (w1 := add_log w [EvImport "scipy.io"; EvImageOpen img_path]).
  destruct (target_loop_run _ Hvalid [] w1) as (es & _ & _ & _ & Hr).
  specialize (Hr contour Hfile). unfold bind at 1.
  destruct (Caltech101.target_loop self i (Caltech101.target_type self) [] w1)
    as [[items|e] w2]; cbn [fst] in Hr; [|discriminate].
  injection Hr as ->. rewrite finish_101_run. reflexivity.
Qed.
End Lookup101.

Section Lookup256.
Variables (self : Caltech256.t) (i yi k : Z) (c : string).
Hypothesis Hi : 0 <= i.
Hypothesis Hyi : Caltech256.y self !! Z.to_nat i = Some yi.
Hypothesis Hyi0 : 0 <= yi.
Hypothesis Hc : Caltech256.categories self !! Z.to_nat yi = Some c.
Hypothesis Hk : Caltech256.index self !! Z.to_nat i = Some k.

Lemma getitem_256_run w :
  Caltech256.__getitem__ self i w =
  (match image_of (Caltech256.image_path self c yi k) (fs w) with
   | Ok im => apply_transforms (Caltech256.transform self) (Caltech256.target_transform self)
                (PImage im) (PInt yi)
   | Err e => Err e
   end, add_log w [EvImageOpen (Caltech256.image_path self c yi k)]).
Proof.
  unfold Caltech256.__getitem__.
  rewrite !(py_index_in_range _ _ _ Hi Hyi), (py_index_in_range _ _ _ Hi Hk).
  unfold bind at 1, lift at 1.
  unfold bind at 1, lift at 1. rewrite (py_index_in_range _ _ _ Hyi0 Hc).
  unfold bind at 1, lift at 1.
  unfold bind at 1, lift at 1.
  unfold bind at 1. rewrite Image_open_run.
  destruct (image_of _ (fs w)) as [im|e]; [|reflexivity].
  unfold bind, lift, ret, apply_opt, apply_transforms.
  destruct (Caltech256.transform self) as [f|]; [destruct (f (PImage im))|]; try reflexivity;
    destruct (Caltech256.target_transform self) as [g|]; try reflexivity;
    now destruct (g (PInt yi)).
Qed.
End Lookup256.

(** ** Indices outside the sample index *)

Lemma target_loop_shift self i n ts : forall acc w,
  Z.of_nat (length (Caltech101.y self)) = n ->
  Z.of_nat (length (Caltech101.index self)) = n ->
  - n <= i < 0 ->
  Caltech101.target_loop self i ts acc w = Caltech101.target_loop self (i + n) ts acc w.
Proof.
  intros acc w Hy Hx Hi. revert acc w.
  induction ts as [|t ts IH]; intros acc w; [reflexivity|].
  cbn [Caltech101.target_loop]. unfold bind.
  unfold Caltech101.target_step.
  rewrite (py_index_negative (Caltech101.y self) i) by lia.
  rewrite (py_index_negative (Caltech101.index self) i) by lia.
  rewrite Hy, Hx.
  match goal with |- match ?m w with _ => _ end = _ => destruct (m w) as [[a|e] w1] end;
    [apply IH|reflexivity].
Qed.

Lemma getitem_101_shift self i n w :
  Z.of_nat (length (Caltech101.y self)) = n ->
  Z.of_nat (length (Caltech101.index self)) = n ->
  - n <= i < 0 ->
  Caltech101.__getitem__ self i w = Caltech101.__getitem__ self (i + n) w.
Proof.
  intros Hy Hx Hi. unfold Caltech101.__getitem__.
  rewrite (py_index_negative (Caltech101.y self) i) by lia.
  rewrite (py_index_negative (Caltech101.index self) i) by lia.
  rewrite Hy, Hx.
  assert (Hloop : forall ts acc w0,
            Caltech101.target_loop self i ts acc w0 =
            Caltech101.target_loop self (i + n) ts acc w0)
    by (intros; now apply target_loop_shift).
  unfold bind.
  repeat first
    [ rewrite Hloop
    | match goal with
      | |- match ?m ?w0 with _ => _ end = _ =>
          destruct (m w0) as [[?|?] ?]; try reflexivity
      end ].
Qed.

Lemma getitem_256_shift self i n w :
  Z.of_nat (length (Caltech256.y self)) = n ->
  Z.of_nat (length (Caltech256.index self)) = n ->
  - n <= i < 0 ->
  Caltech256.__getitem__ self i w = Caltech256.__getitem__ self (i + n) w.
Proof.
  intros Hy Hx Hi. unfold Caltech256.__getitem__.
  rewrite (py_index_negative (Caltech256.y self) i) by lia.
  rewrite (py_index_negative (Caltech256.index self) i) by lia.
  now rewrite Hy, Hx.
Qed.

Lemma getitem_101_out_of_range self i w :
  py_index (Caltech101.y self) i = Err IndexError ->
  Caltech101.__getitem__ self i w =
  ((if scipy_installed w then Err IndexError else Err (ModuleNotFoundError "scipy")),
   add_log w [EvImport "scipy.io"]).
Proof.
  intros Hy. unfold Caltech101.__getitem__. unfold bind at 1.
  rewrite import_scipy_io_run. destruct (scipy_installed w); [|reflexivity].
  unfold bind at 1, lift at 1. now rewrite Hy.
Qed.

Lemma getitem_256_out_of_range self i w :
  py_index (Caltech256.y self) i = Err IndexError ->
  Caltech256.__getitem__ self i w = (Err IndexError, w).
Proof.
  intros Hy. unfold Caltech256.__getitem__. unfold bind at 1, lift at 1. now rewrite Hy.
Qed.

(** C1 (as amended). For a constructed dataset of size [n], [__getitem__]
    raises the index error for every [i >= n] and every [i < -n], before
    any file is opened (in Caltech101 after [import scipy.io], whose own
    failure comes first when scipy is missing).  An index with
    [-n <= i < 0] is not rejected: it is served as [i + n]. *)
Theorem getitem_index_error_beyond_both_ends `{ArchiveUtils} :
  (forall root_arg tt tr ttr dl w0 ds w1 i w,
     Caltech101.__init__ root_arg tt tr ttr dl w0 = (Ok ds, w1) ->
     (Caltech101.__len__ ds <= i \/ i < - Caltech101.__len__ ds ->
      Caltech101.__getitem__ ds i w =
      ((if scipy_installed w then Err IndexError else Err (ModuleNotFoundError "scipy")),
       add_log w [EvImport "scipy.io"])) /\
     (- Caltech101.__len__ ds <= i < 0 ->
      Caltech101.__getitem__ ds i w =
      Caltech101.__getitem__ ds (i + Caltech101.__len__ ds) w)) /\
  (forall root_arg tr ttr dl w0 ds w1 i w,
     Caltech256.__init__ root_arg tr ttr dl w0 = (Ok ds, w1) ->
     (Caltech256.__len__ ds <= i \/ i < - Caltech256.__len__ ds ->
      Caltech256.__getitem__ ds i w = (Err IndexError, w)) /\
     (- Caltech256.__len__ ds <= i < 0 ->
      Caltech256.__getitem__ ds i w =
      Caltech256.__getitem__ ds (i + Caltech256.__len__ ds) w)).
Proof.
  split.
  - intros root_arg tt tr ttr dl w0 ds w1 i w Hinit.
    apply init_101_ok in Hinit as (_ & _ & _ & _ & _ & ls & counts & _ & _ & Hc & Hidx & Hy).
    pose proof (counts_nonneg _ _ _ (count_101_nonneg _ _) Hc) as Hnn.
    assert (Hlen : Z.of_nat (length (Caltech101.y ds)) = Caltech101.__len__ ds).
    { unfold Caltech101.__len__. now rewrite Hy, Hidx, length_ids_from, length_ordinals. }
    split; intros Hi.
    + apply getitem_101_out_of_range, py_index_out_of_range. lia.
    + now apply getitem_101_shift.
  - intros root_arg tr ttr dl w0 ds w1 i w Hinit.
    apply init_256_ok in Hinit as (_ & _ & _ & ls & counts & _ & _ & Hc & Hidx & Hy).
    pose proof (counts_nonneg _ _ _ (count_256_nonneg _ _) Hc) as Hnn.
    assert (Hlen : Z.of_nat (length (Caltech256.y ds)) = Caltech256.__len__ ds).
    { unfold Caltech256.__len__. now rewrite Hy, Hidx, length_ids_from, length_ordinals. }
    split; intros Hi.
    + apply getitem_256_out_of_range, py_index_out_of_range. lia.
    + now apply getitem_256_shift.
Qed.

Lemma getitem_index_error_beyond_both_ends_witness :
  (Caltech101.__getitem__ (sample_ds_101 ["category"]) 5 sample_world =
     (Err IndexError, add_log sample_world [EvImport "scipy.io"]) /\
   Caltech101.__getitem__ (sample_ds_101 ["category"]) (-6) sample_world =
     (Err IndexError, add_log sample_world [EvImport "scipy.io"]) /\
   Caltech101.__getitem__ (sample_ds_101 ["category"]) (-1) sample_world =
     Caltech101.__getitem__ (sample_ds_101 ["category"]) 4 sample_world) /\
  (Caltech256.__getitem__ sample_ds_256 5 sample_world = (Err IndexError, sample_world) /\
   Caltech256.__getitem__ sample_ds_256 (-6) sample_world = (Err IndexError, sample_world) /\
   Caltech256.__getitem__ sample_ds_256 (-1) sample_world =
     Caltech256.__getitem__ sample_ds_256 4 sample_world).
Proof.
  assert (H101 : @Caltech101.__init__ offline "data" (TList ["category"]) None None false
                   sample_world = (Ok (sample_ds_101 ["category"]), sample_world_101))
    by reflexivity.
  assert (H256 : @Caltech256.__init__ offline "data" None None false sample_world =
                 (Ok sample_ds_256, sample_world_256))
    by reflexivity.
  split; (split; [|split]).
  - apply (proj1 (proj1 (@getitem_index_error_beyond_both_ends offline)
                    _ _ _ _ _ _ _ _ 5 sample_world H101)).
    left. vm_compute. discriminate.
  - apply (proj1 (proj1 (@getitem_index_error_beyond_both_ends offline)
                    _ _ _ _ _ _ _ _ (-6) sample_world H101)).
    right. reflexivity.
  - apply (proj2 (proj1 (@getitem_index_error_beyond_both_ends offline)
                    _ _ _ _ _ _ _ _ (-1) sample_world H101)).
    vm_compute. split; discriminate || reflexivity.
  - apply (proj1 (proj2 (@getitem_index_error_beyond_both_ends offline)
                    _ _ _ _ _ _ _ 5 sample_world H256)).
    left. vm_compute. discriminate.
  - apply (proj1 (proj2 (@getitem_index_error_beyond_both_ends offline)
                    _ _ _ _ _ _ _ (-6) sample_world H256)).
    right. reflexivity.
  - apply (proj2 (proj2 (@getitem_index_error_beyond_both_ends offline)
                    _ _ _ _ _ _ _ (-1) sample_world H256)).
    vm_compute. split; discriminate || reflexivity.
Defined.

(** C1 does not hold as stated: on the constructed sample datasets of
    size 5 the negative index [-1] is outside [0, 5), yet [__getitem__]
    raises nothing and returns the last sample. *)
Lemma negative_index_is_served :
  @Caltech101.__init__ offline "data" (TList ["category"]) None None false sample_world =
    (Ok (sample_ds_101 ["category"]), sample_world_101) /\
  @Caltech256.__init__ offline "data" None None false sample_world =
    (Ok sample_ds_256, sample_world_256) /\
  -1 < 0 /\
  fst (Caltech101.__getitem__ (sample_ds_101 ["category"]) (-1) sample_world_101) =
    Ok (PImage [13], PInt 1) /\
  is_index_error
    (fst (Caltech101.__getitem__ (sample_ds_101 ["category"]) (-1) sample_world_101)) = false /\
  fst (Caltech256.__getitem__ sample_ds_256 (-1) sample_world_256) =
    Ok (PImage [23], PInt 1) /\
  is_index_error (fst (Caltech256.__getitem__ sample_ds_256 (-1) sample_world_256)) = false.
Proof. repeat split. Qed.

(** ** Zero-padded numbering *)

Lemma append_cons c s t : String c s +:+ t = String c (s +:+ t).
Proof. reflexivity. Qed.

Lemma length_append s t :
  String.length (s +:+ t) = (String.length s + String.length t)%nat.
Proof.
  induction s as [|c s IH]; [reflexivity|].
  rewrite append_cons. cbn [String.length]. now rewrite IH.
Qed.

Lemma length_zeros k : String.length (zeros k) = k.
Proof. induction k as [|k IH]; [reflexivity|]. cbn [zeros String.length]. now rewrite IH. Qed.

Lemma format_0d_nonneg width n :
  0 <= n ->
  format_0d width n =
  zeros (width - String.length (decimal (Z.to_N n))) +:+ decimal (Z.to_N n).
Proof.
  intros Hn. unfold format_0d. destruct (Z.ltb_spec n 0); [lia|].
  rewrite Zabs2N.abs_N_nonneg by assumption.
  cbn [String.length]. now rewrite Nat.sub_0_r.
Qed.

Lemma length_format_0d width n :
  0 <= n ->
  String.length (format_0d width n) =
  Nat.max width (String.length (decimal (Z.to_N n))).
Proof.
  intros Hn. rewrite format_0d_nonneg, length_append, length_zeros by assumption. lia.
Qed.

Lemma read_decimal_decimal n : read_decimal (decimal n) = Some n.
Proof.
  unfold read_decimal, decimal.
  rewrite NilZero.usu.
  - cbn [option_map]. now rewrite DecimalN.Unsigned.of_to.
  - destruct n as [|p]; [discriminate|]. apply DecimalPos.Unsigned.to_uint_nonnil.
Qed.

Lemma read_decimal_zeros k s m :
  read_decimal s = Some m -> read_decimal (zeros k +:+ s) = Some m.
Proof.
  intros Hs. induction k as [|k IH]; [exact Hs|].
  cbn [zeros]. rewrite append_cons.
  unfold read_decimal in *.
  destruct (zeros k +:+ s) as [|c r] eqn:Hr; [discriminate|].
  change (NilZero.uint_of_string (String c r))
    with (NilEmpty.uint_of_string (String c r)) in IH.
  change (NilZero.uint_of_string (String "0" (String c r)))
    with (uint_of_char "0" (NilEmpty.uint_of_string (String c r))).
  destruct (NilEmpty.uint_of_string (String c r)) as [d|]; [exact IH|discriminate].
Qed.

Lemma read_decimal_format_0d width n :
  0 <= n -> read_decimal (format_0d width n) = Some (Z.to_N n).
Proof.
  intros Hn. rewrite format_0d_nonneg by assumption.
  apply read_decimal_zeros, read_decimal_decimal.
Qed.

Example format_0d_examples :
  format_0d 4 7 = "0007" /\ format_0d 4 123 = "0123" /\ format_0d 3 42 = "042" /\
  format_0d 4 12345 = "12345".
Proof. repeat split. Qed.

(** ** The files a lookup opens *)

(** C6. For every in-range index [i] of a constructed dataset, with
    category id [yi], category name [c] and ordinal [k] at [i]:
    the only image Caltech101 opens is
    [<root>/101_ObjectCategories/<c>/image_%04d.jpg] numbered by the
    ordinal, and it opens it once the import has succeeded; Caltech256 opens
    [<root>/256_ObjectCategories/<c>/%03d_%04d.jpg] numbered by the 1-based
    category number [yi + 1] and the ordinal.  The numbering [%0Nd] writes
    the decimal digits after as many zeros as it takes to reach [N]
    characters, and reads back as the number. *)
Theorem getitem_image_filename_pattern `{ArchiveUtils} :
  (forall root_arg tt tr ttr dl w0 ds w1 i,
     Caltech101.__init__ root_arg tt tr ttr dl w0 = (Ok ds, w1) ->
     0 <= i < Caltech101.__len__ ds ->
     exists yi c k,
       Caltech101.y ds !! Z.to_nat i = Some yi /\
       Caltech101.categories ds !! Z.to_nat yi = Some c /\
       Caltech101.index ds !! Z.to_nat i = Some k /\ 1 <= k /\
       forall w,
         let image_file :=
           os_path_join (Caltech101.root ds)
             ["101_ObjectCategories"; c; "image_" +:+ format_0d 4 k +:+ ".jpg"] in
         exists es,
           log (snd (Caltech101.__getitem__ ds i w)) = log w ++ EvImport "scipy.io" :: es /\
           (forall p, EvImageOpen p ∈ es -> p = image_file) /\
           (scipy_installed w = true -> EvImageOpen image_file ∈ es)) /\
  (forall root_arg tr ttr dl w0 ds w1 i,
     Caltech256.__init__ root_arg tr ttr dl w0 = (Ok ds, w1) ->
     0 <= i < Caltech256.__len__ ds ->
     exists yi c k,
       Caltech256.y ds !! Z.to_nat i = Some yi /\ 0 <= yi /\
       Caltech256.categories ds !! Z.to_nat yi = Some c /\
       Caltech256.index ds !! Z.to_nat i = Some k /\ 1 <= k /\
       forall w,
         log (snd (Caltech256.__getitem__ ds i w)) =
           log w ++
           [EvImageOpen (os_path_join (Caltech256.root ds)
                           ["256_ObjectCategories"; c;
                            format_0d 3 (yi + 1) +:+ "_" +:+ format_0d 4 k +:+ ".jpg"])]) /\
  (forall width n, 0 <= n ->
     format_0d width n =
       zeros (width - String.length (decimal (Z.to_N n))) +:+ decimal (Z.to_N n) /\
     String.length (format_0d width n) =
       Nat.max width (String.length (decimal (Z.to_N n))) /\
     read_decimal (format_0d width n) = Some (Z.to_N n)).
Proof.
  split; [|split].
  - intros root_arg tt tr ttr dl w0 ds w1 i Hinit Hi.
    destruct (constructed_101_lookups _ _ _ _ _ _ _ _ _ Hinit Hi)
      as (yi & c & k & Hy & Hy0 & Hc & Hac & Hk & Hk1).
    exists yi, c, k. repeat (split; [assumption|]).
    intros w image_file.
    apply init_101_ok in Hinit as (_ & _ & _ & Hv & _).
    apply map_result_verify_ok in Hv as [Heq Hv]. rewrite <- Heq in Hv.
    destruct (getitem_101_log ds i yi k c (proj1 Hi) Hy Hy0 Hc Hac Hk w Hv)
      as (es & Hw & Hes & Hlive).
    exists es. rewrite Hw. split; [reflexivity|]. split.
    + intros p Hp. rewrite Forall_forall in Hes.
      destruct (Hes _ Hp) as [Himg|Hmat]; [now injection Himg|discriminate].
    + intros Hscipy. now apply Hlive.
  - intros root_arg tr ttr dl w0 ds w1 i Hinit Hi.
    destruct (constructed_256_lookups _ _ _ _ _ _ _ _ Hinit Hi)
      as (yi & c & k & Hy & Hy0 & Hc & Hk & Hk1).
    exists yi, c, k. repeat (split; [assumption|]).
    intros w. now rewrite (getitem_256_run ds i yi k c (proj1 Hi) Hy Hy0 Hc Hk).
  - intros width n Hn.
    auto using format_0d_nonneg, length_format_0d, read_decimal_format_0d.
Qed.

Lemma getitem_image_filename_pattern_witness :
  (exists yi c k,
     Caltech101.y (sample_ds_101 ["category"]) !! Z.to_nat 2 = Some yi /\
     Caltech101.categories (sample_ds_101 ["category"]) !! Z.to_nat yi = Some c /\
     Caltech101.index (sample_ds_101 ["category"]) !! Z.to_nat 2 = Some k /\ 1 <= k /\
     forall w,
       let image_file :=
         os_path_join "data/caltech101"
           ["101_ObjectCategories"; c; "image_" +:+ format_0d 4 k +:+ ".jpg"] in
       exists es,
         log (snd (Caltech101.__getitem__ (sample_ds_101 ["category"]) 2 w)) =
           log w ++ EvImport "scipy.io" :: es /\
         (forall p, EvImageOpen p ∈ es -> p = image_file) /\
         (scipy_installed w = true -> EvImageOpen image_file ∈ es)) /\
  (exists yi c k,
     Caltech256.y sample_ds_256 !! Z.to_nat 4 = Some yi /\ 0 <= yi /\
     Caltech256.categories sample_ds_256 !! Z.to_nat yi = Some c /\
     Caltech256.index sample_ds_256 !! Z.to_nat 4 = Some k /\ 1 <= k /\
     forall w,
       log (snd (Caltech256.__getitem__ sample_ds_256 4 w)) =
         log w ++
         [EvImageOpen (os_path_join "data/caltech256"
                         ["256_ObjectCategories"; c;
                          format_0d 3 (yi + 1) +:+ "_" +:+ format_0d 4 k +:+ ".jpg"])]) /\
  (format_0d 4 7 = zeros (4 - String.length (decimal (Z.to_N 7))) +:+ decimal (Z.to_N 7) /\
   String.length (format_0d 4 7) = Nat.max 4 (String.length (decimal (Z.to_N 7))) /\
   read_decimal (format_0d 4 7) = Some (Z.to_N 7)).
Proof.
  split; [|split].
  - apply (proj1 (@getitem_image_filename_pattern offline)
             "data" (TList ["category"]) None None false sample_world
             (sample_ds_101 ["category"]) sample_world_101 2).
    + reflexivity.
    + vm_compute. split; discriminate || reflexivity.
  - apply (proj1 (proj2 (@getitem_image_filename_pattern offline))
             "data" None None false sample_world sample_ds_256 sample_world_256 4).
    + reflexivity.
    + vm_compute. split; discriminate || reflexivity.
  - apply (proj2 (proj2 (@getitem_image_filename_pattern offline)) 4%nat 7). lia.
Defined.

(** The files the sample lookups open. *)
Example sample_lookups_open :
  log (snd (Caltech101.__getitem__ (sample_ds_101 ["category"; "annotation"]) 0 sample_world)) =
    [EvImport "scipy.io";
     EvImageOpen "data/caltech101/101_ObjectCategories/Faces/image_0001.jpg";
     EvLoadmat "data/caltech101/Annotations/Faces_2/annotation_0001.mat"] /\
  log (snd (Caltech101.__getitem__ (sample_ds_101 ["category"; "annotation"]) 4 sample_world)) =
    [EvImport "scipy.io";
     EvImageOpen "data/caltech101/101_ObjectCategories/b/image_0003.jpg";
     EvLoadmat "data/caltech101/Annotations/b/annotation_0003.mat"] /\
  log (snd (Caltech256.__getitem__ sample_ds_256 4 sample_world)) =
    [EvImageOpen "data/caltech256/256_ObjectCategories/002.b/002_0003.jpg"].
Proof. repeat split. Qed.

Lemma annotation_name_other x :
  x ∉ ["Faces"; "Faces_easy"; "Motorbikes"; "airplanes"] ->
  Caltech101.name_map !! x = None.
Proof.
  intros Hx. rewrite !not_elem_of_cons in Hx. destruct Hx as (H1 & H2 & H3 & H4 & _).
  unfold Caltech101.name_map.
  rewrite !lookup_insert_ne by congruence. apply lookup_singleton_ne. congruence.
Qed.

(** C7. The annotation folder of category [Faces] is [Faces_2]; a
    category that is not a key of the name map keeps its name.  For every
    in-range index of a constructed Caltech101 whose category is [c],
    every image the lookup opens lies under [101_ObjectCategories/<c>]
    and every annotation it reads lies under
    [Annotations/<annotation_name c>], the ordinal numbering both files.
    Once the import has succeeded the image is opened, and the annotation
    is read whenever the image could be opened and annotations are
    requested. *)
Theorem annotation_folder_follows_name_map `{ArchiveUtils} :
  Caltech101.annotation_name "Faces" = "Faces_2" /\
  (forall x, x ∉ ["Faces"; "Faces_easy"; "Motorbikes"; "airplanes"] ->
             Caltech101.annotation_name x = x) /\
  (forall root_arg tt tr ttr dl w0 ds w1 i,
     Caltech101.__init__ root_arg tt tr ttr dl w0 = (Ok ds, w1) ->
     0 <= i < Caltech101.__len__ ds ->
     exists yi c k,
       Caltech101.y ds !! Z.to_nat i = Some yi /\
       Caltech101.categories ds !! Z.to_nat yi = Some c /\
       Caltech101.annotation_categories ds !! Z.to_nat yi =
         Some (Caltech101.annotation_name c) /\
       Caltech101.index ds !! Z.to_nat i = Some k /\
       forall w,
         let image_file :=
           os_path_join (Caltech101.root ds)
             ["101_ObjectCategories"; c; "image_" +:+ format_0d 4 k +:+ ".jpg"] in
         let annotation_file :=
           os_path_join (Caltech101.root ds)
             ["Annotations"; Caltech101.annotation_name c;
              "annotation_" +:+ format_0d 4 k +:+ ".mat"] in
         exists es,
           log (snd (Caltech101.__getitem__ ds i w)) = log w ++ EvImport "scipy.io" :: es /\
           (forall p, EvImageOpen p ∈ es -> p = image_file) /\
           (forall p, EvLoadmat p ∈ es -> p = annotation_file) /\
           (scipy_installed w = true ->
            EvImageOpen image_file ∈ es /\
            (is_ok (image_of image_file (fs w)) = true ->
             "annotation" ∈ Caltech101.target_type ds ->
             EvLoadmat annotation_file ∈ es))).
Proof.
  split; [reflexivity|]. split.
  - intros x Hx. unfold Caltech101.annotation_name.
    now rewrite (annotation_name_other x Hx).
  - intros root_arg tt tr ttr dl w0 ds w1 i Hinit Hi.
    destruct (constructed_101_lookups _ _ _ _ _ _ _ _ _ Hinit Hi)
      as (yi & c & k & Hy & Hy0 & Hc & Hac & Hk & Hk1).
    exists yi, c, k. repeat (split; [assumption|]).
    intros w image_file annotation_file.
    apply init_101_ok in Hinit as (_ & _ & _ & Hv & _).
    apply map_result_verify_ok in Hv as [Heq Hv]. rewrite <- Heq in Hv.
    destruct (getitem_101_log ds i yi k c (proj1 Hi) Hy Hy0 Hc Hac Hk w Hv)
      as (es & Hw & Hes & Hlive).
    exists es. rewrite Hw. rewrite Forall_forall in Hes.
    split; [reflexivity|]. split; [|split].
    + intros p Hp. destruct (Hes _ Hp) as [Himg|Hmat]; [now injection Himg|discriminate].
    + intros p Hp. destruct (Hes _ Hp) as [Himg|Hmat]; [discriminate|now injection Hmat].
    + exact Hlive.
Qed.

Lemma annotation_folder_follows_name_map_witness :
  Caltech101.annotation_name "Faces" = "Faces_2" /\
  Caltech101.annotation_name "b" = "b" /\
  (exists yi c k,
     Caltech101.y (sample_ds_101 ["annotation"]) !! Z.to_nat 0 = Some yi /\
     Caltech101.categories (sample_ds_101 ["annotation"]) !! Z.to_nat yi = Some c /\
     Caltech101.annotation_categories (sample_ds_101 ["annotation"]) !! Z.to_nat yi =
       Some (Caltech101.annotation_name c) /\
     Caltech101.index (sample_ds_101 ["annotation"]) !! Z.to_nat 0 = Some k /\
     forall w,
       let image_file :=
         os_path_join "data/caltech101"
           ["101_ObjectCategories"; c; "image_" +:+ format_0d 4 k +:+ ".jpg"] in
       let annotation_file :=
         os_path_join "data/caltech101"
           ["Annotations"; Caltech101.annotation_name c;
            "annotation_" +:+ format_0d 4 k +:+ ".mat"] in
       exists es,
         log (snd (Caltech101.__getitem__ (sample_ds_101 ["annotation"]) 0 w)) =
           log w ++ EvImport "scipy.io" :: es /\
         (forall p, EvImageOpen p ∈ es -> p = image_file) /\
         (forall p, EvLoadmat p ∈ es -> p = annotation_file) /\
         (scipy_installed w = true ->
          EvImageOpen image_file ∈ es /\
          (is_ok (image_of image_file (fs w)) = true ->
           "annotation" ∈ ["annotation"] ->
           EvLoadmat annotation_file ∈ es))).
Proof.
  split; [|split].
  - exact (proj1 (@annotation_folder_follows_name_map offline)).
  - apply (proj1 (proj2 (@annotation_folder_follows_name_map offline)) "b").
    rewrite !not_elem_of_cons. repeat split; try discriminate. apply not_elem_of_nil.
  - apply (proj2 (proj2 (@annotation_folder_follows_name_map offline))
             "data" (TList ["annotation"]) None None false sample_world
             (sample_ds_101 ["annotation"]) sample_world_101 0).
    + reflexivity.
    + vm_compute. split; discriminate || reflexivity.
Defined.

(** ** The target of a lookup *)

(** C8 (as amended). For every in-range index [i] of a constructed
    Caltech101 whose image, and annotation file when one is requested,
    can be read (nothing is read unless [scipy.io] imports),
    [__getitem__] produces one value per entry of
    [target_type], in order: the class id [y[i]] for ["category"], the
    [obj_contour] array of [<root>/Annotations/<annotation_name c>/annotation_%04d.mat]
    for ["annotation"].  With more than one entry the target is the tuple
    of these values (an ordered pair for two entries), with exactly one
    entry it is the value itself, and with none the selection raises.
    Caltech256 always produces the class id alone.  The optional
    transforms are applied to image and target last. *)
Theorem getitem_target_shape `{ArchiveUtils} :
  (forall root_arg tt tr ttr dl w0 ds w1 i,
     Caltech101.__init__ root_arg tt tr ttr dl w0 = (Ok ds, w1) ->
     0 <= i < Caltech101.__len__ ds ->
     exists yi c k,
       Caltech101.y ds !! Z.to_nat i = Some yi /\
       Caltech101.categories ds !! Z.to_nat yi = Some c /\
       Caltech101.index ds !! Z.to_nat i = Some k /\
       forall w im contour,
         scipy_installed w = true ->
         image_of (os_path_join (Caltech101.root ds)
                     ["101_ObjectCategories"; c; "image_" +:+ format_0d 4 k +:+ ".jpg"])
           (fs w) = Ok im ->
         ("annotation" ∈ Caltech101.target_type ds ->
          exists data,
            mat_of (os_path_join (Caltech101.root ds)
                      ["Annotations"; Caltech101.annotation_name c;
                       "annotation_" +:+ format_0d 4 k +:+ ".mat"]) (fs w) = Ok data /\
            data !! "obj_contour" = Some contour) ->
         fst (Caltech101.__getitem__ ds i w) =
         match map (target_item yi contour) (Caltech101.target_type ds) with
         | [] => Err IndexError
         | [x] => apply_transforms tr ttr (PImage im) x
         | items => apply_transforms tr ttr (PImage im) (PTuple items)
         end) /\
  (forall root_arg tr ttr dl w0 ds w1 i,
     Caltech256.__init__ root_arg tr ttr dl w0 = (Ok ds, w1) ->
     0 <= i < Caltech256.__len__ ds ->
     exists yi c k,
       Caltech256.y ds !! Z.to_nat i = Some yi /\
       Caltech256.categories ds !! Z.to_nat yi = Some c /\
       Caltech256.index ds !! Z.to_nat i = Some k /\
       forall w im,
         image_of (os_path_join (Caltech256.root ds)
                     ["256_ObjectCategories"; c;
                      format_0d 3 (yi + 1) +:+ "_" +:+ format_0d 4 k +:+ ".jpg"])
           (fs w) = Ok im ->
         fst (Caltech256.__getitem__ ds i w) = apply_transforms tr ttr (PImage im) (PInt yi)).
Proof.
  split.
  - intros root_arg tt tr ttr dl w0 ds w1 i Hinit Hi.
    destruct (constructed_101_lookups _ _ _ _ _ _ _ _ _ Hinit Hi)
      as (yi & c & k & Hy & Hy0 & Hc & Hac & Hk & Hk1).
    exists yi, c, k. repeat (split; [assumption|]).
    intros w im contour Hscipy Him Hfile.
    apply init_101_ok in Hinit as (_ & Htr & Httr & Hv & _).
    apply map_result_verify_ok in Hv as [Heq Hv]. rewrite <- Heq in Hv.
    rewrite (getitem_101_value ds i yi k c (proj1 Hi) Hy Hy0 Hc Hac Hk w im contour
               Hv Hscipy Him Hfile), Htr, Httr.
    destruct (map (target_item yi contour) (Caltech101.target_type ds)) as [|x [|x' l]].
    + now rewrite pack_target_nil.
    + now rewrite pack_target_one.
    + now rewrite pack_target_many.
  - intros root_arg tr ttr dl w0 ds w1 i Hinit Hi.
    destruct (constructed_256_lookups _ _ _ _ _ _ _ _ Hinit Hi)
      as (yi & c & k & Hy & Hy0 & Hc & Hk & Hk1).
    exists yi, c, k. repeat (split; [assumption|]).
    intros w im Him.
    apply init_256_ok in Hinit as (_ & Htr & Httr & _).
    rewrite (getitem_256_run ds i yi k c (proj1 Hi) Hy Hy0 Hc Hk). cbn [fst].
    unfold Caltech256.image_path. now rewrite Him, Htr, Httr.
Qed.

Lemma getitem_target_shape_witness :
  fst (Caltech101.__getitem__ (sample_ds_101 ["category"; "annotation"]) 0 sample_world) =
    Ok (PImage [1], PTuple [PInt 0; PArray [1]]) /\
  fst (Caltech101.__getitem__ (sample_ds_101 ["annotation"]) 0 sample_world) =
    Ok (PImage [1], PArray [1]) /\
  fst (Caltech256.__getitem__ sample_ds_256 2 sample_world) = Ok (PImage [21], PInt 1).
Proof.
  split; [|split].
  - destruct (proj1 (@getitem_target_shape offline)
                "data" (TList ["category"; "annotation"]) None None false sample_world
                (sample_ds_101 ["category"; "annotation"]) sample_world_101 0)
      as (yi & c & k & Hy & Hc & Hk & Hget).
    + reflexivity.
    + vm_compute. split; discriminate || reflexivity.
    + vm_compute in Hy. injection Hy as <-.
      vm_compute in Hc. injection Hc as <-.
      vm_compute in Hk. injection Hk as <-.
      rewrite (Hget sample_world [1] [1]); [reflexivity..|].
      intros _. eexists. split; reflexivity.
  - destruct (proj1 (@getitem_target_shape offline)
                "data" (TList ["annotation"]) None None false sample_world
                (sample_ds_101 ["annotation"]) sample_world_101 0)
      as (yi & c & k & Hy & Hc & Hk & Hget).
    + reflexivity.
    + vm_compute. split; discriminate || reflexivity.
    + vm_compute in Hy. injection Hy as <-.
      vm_compute in Hc. injection Hc as <-.
      vm_compute in Hk. injection Hk as <-.
      rewrite (Hget sample_world [1] [1]); [reflexivity..|].
      intros _. eexists. split; reflexivity.
  - destruct (proj2 (@getitem_target_shape offline)
                "data" None None false sample_world sample_ds_256 sample_world_256 2)
      as (yi & c & k & Hy & Hc & Hk & Hget).
    + reflexivity.
    + vm_compute. split; discriminate || reflexivity.
    + vm_compute in Hy. injection Hy as <-.
      vm_compute in Hc. injection Hc as <-.
      vm_compute in Hk. injection Hk as <-.
      rewrite (Hget sample_world [21]); reflexivity.
Defined.

(** C8 does not hold as stated: the constructor accepts the list
    ["category"; "category"], which requests the class id alone, yet the
    target of the lookup is a pair and not the single requested value. *)
Lemma repeated_kind_yields_a_tuple :
  @Caltech101.__init__ offline "data" (TList ["category"; "category"]) None None false
    sample_world = (Ok (sample_ds_101 ["category"; "category"]), sample_world_101) /\
  ("annotation" ∉ Caltech101.target_type (sample_ds_101 ["category"; "category"])) /\
  0 <= 0 < Caltech101.__len__ (sample_ds_101 ["category"; "category"]) /\
  fst (Caltech101.__getitem__ (sample_ds_101 ["category"; "category"]) 0 sample_world_101) =
    Ok (PImage [1], PTuple [PInt 0; PInt 0]).
Proof.
  split; [reflexivity|]. split; [|split; [|reflexivity]].
  - cbn [Caltech101.target_type sample_ds_101]. rewrite !not_elem_of_cons.
    repeat split; try discriminate. apply not_elem_of_nil.
  - vm_compute. split; discriminate || reflexivity.
Qed.

(** ** The empty list of target kinds *)

Lemma init_101_target_type_irrelevant `{ArchiveUtils} root_arg tt tt' tys' tr ttr dl w ds w' :
  map_result (fun t => verify_str_arg t "target_type" ["category"; "annotation"])
    (match tt' with TStr s => [s] | TList l => l end) = Ok tys' ->
  Caltech101.__init__ root_arg tt tr ttr dl w = (Ok ds, w') ->
  Caltech101.__init__ root_arg tt' tr ttr dl w = (Ok (with_target_type tys' ds), w').
Proof.
  intros Hv Hinit. unfold Caltech101.__init__ in *.
  bind_inv Hinit as base wb Eb. rewrite (bind_run _ _ _ _ _ Eb). clear Eb.
  bind_inv Hinit as u1 w1 E1. rewrite (bind_run _ _ _ _ _ E1).
  bind_inv Hinit as tys w2 Ett. unfold lift in Ett. injection Ett as _ <-.
  unfold bind at 1, lift at 1. rewrite Hv.
  bind_inv Hinit as u2 w2 E2. rewrite (bind_run _ _ _ _ _ E2).
  bind_inv Hinit as ok w3 E3. rewrite (bind_run _ _ _ _ _ E3).
  destruct (negb ok); [discriminate|].
  bind_inv Hinit as ls w4 Els. rewrite (bind_run _ _ _ _ _ Els).
  bind_inv Hinit as cats w5 Erm. rewrite (bind_run _ _ _ _ _ Erm).
  bind_inv Hinit as built w6 E. rewrite (bind_run _ _ _ _ _ E).
  destruct built as [idx ys]. unfold ret in *. injection Hinit as <- <-. reflexivity.
Qed.

(** C10. The empty list of target kinds passes validation: wherever the
    default construction succeeds, construction with [[]] succeeds too
    and yields the same dataset with an empty [target_type].  On such a
    dataset no lookup at an in-range index ever returns: the lookup
    imports scipy, opens the image and then raises the index error of
    [target[0]] on the empty target list; only a failure of the import or
    of the opening of the image gets in before it. *)
Theorem empty_target_type_passes_then_getitem_fails `{ArchiveUtils} :
  map_result (fun t => verify_str_arg t "target_type" ["category"; "annotation"]) [] = Ok [] /\
  (forall root_arg tr ttr dl w ds w',
     Caltech101.__init__ root_arg (TStr "category") tr ttr dl w = (Ok ds, w') ->
     Caltech101.__init__ root_arg (TList []) tr ttr dl w =
       (Ok (with_target_type [] ds), w')) /\
  (forall root_arg tr ttr dl w0 ds w1 i,
     Caltech101.__init__ root_arg (TList []) tr ttr dl w0 = (Ok ds, w1) ->
     0 <= i < Caltech101.__len__ ds ->
     Caltech101.target_type ds = [] /\
     (forall w, is_ok (fst (Caltech101.__getitem__ ds i w)) = false) /\
     exists yi c k,
       Caltech101.y ds !! Z.to_nat i = Some yi /\
       Caltech101.categories ds !! Z.to_nat yi = Some c /\
       Caltech101.index ds !! Z.to_nat i = Some k /\
       forall w,
         let image_file :=
           os_path_join (Caltech101.root ds)
             ["101_ObjectCategories"; c; "image_" +:+ format_0d 4 k +:+ ".jpg"] in
         Caltech101.__getitem__ ds i w =
         if scipy_installed w then
           match image_of image_file (fs w) with
           | Ok im =>
               (Err IndexError, add_log w [EvImport "scipy.io"; EvImageOpen image_file])
           | Err e => (Err e, add_log w [EvImport "scipy.io"; EvImageOpen image_file])
           end
         else (Err (ModuleNotFoundError "scipy"), add_log w [EvImport "scipy.io"])).
Proof.
  split; [reflexivity|]. split.
  - intros root_arg tr ttr dl w ds w' Hinit.
    now apply (init_101_target_type_irrelevant root_arg (TStr "category") (TList []) []).
  - intros root_arg tr ttr dl w0 ds w1 i Hinit Hi.
    destruct (constructed_101_lookups _ _ _ _ _ _ _ _ _ Hinit Hi)
      as (yi & c & k & Hy & Hy0 & Hc & Hac & Hk & Hk1).
    apply init_101_ok in Hinit as (_ & _ & _ & Hv & _).
    cbn in Hv. injection Hv as Hv. symmetry in Hv.
    assert (Hrun : forall w,
              Caltech101.__getitem__ ds i w =
              if scipy_installed w then
                match image_of (Caltech101.image_path ds c k) (fs w) with
                | Ok im => (Err IndexError,
                            add_log w [EvImport "scipy.io";
                                       EvImageOpen (Caltech101.image_path ds c k)])
                | Err e => (Err e,
                            add_log w [EvImport "scipy.io";
                                       EvImageOpen (Caltech101.image_path ds c k)])
                end
              else (Err (ModuleNotFoundError "scipy"), add_log w [EvImport "scipy.io"])).
    { intros w. rewrite (getitem_101_run ds i yi k c (proj1 Hi) Hy Hy0 Hc Hk w), Hv.
      destruct (scipy_installed w); [|reflexivity].
      destruct (image_of _ (fs w)); reflexivity. }
    split; [exact Hv|]. split.
    + intros w. rewrite Hrun. destruct (scipy_installed w); [|reflexivity].
      now destruct (image_of _ (fs w)).
    + exists yi, c, k. repeat (split; [assumption|]).
      intros w image_file. exact (Hrun w).
Qed.

Lemma empty_target_type_passes_then_getitem_fails_witness :
  @Caltech101.__init__ offline "data" (TList []) None None false sample_world =
    (Ok (with_target_type [] (sample_ds_101 ["category"])), sample_world_101) /\
  (forall w, is_ok (fst (Caltech101.__getitem__ (sample_ds_101 []) 3 w)) = false) /\
  Caltech101.__getitem__ (sample_ds_101 []) 3 sample_world =
    (Err IndexError,
     add_log sample_world
       [EvImport "scipy.io";
        EvImageOpen "data/caltech101/101_ObjectCategories/b/image_0002.jpg"]).
Proof.
  assert (Hinit : @Caltech101.__init__ offline "data" (TList []) None None false sample_world =
                  (Ok (sample_ds_101 []), sample_world_101)) by reflexivity.
  assert (Hi : 0 <= 3 < Caltech101.__len__ (sample_ds_101 []))
    by (vm_compute; split; discriminate || reflexivity).
  split; [|split].
  - apply (proj1 (proj2 (@empty_target_type_passes_then_getitem_fails offline))
             "data" None None false sample_world (sample_ds_101 ["category"]) sample_world_101).
    reflexivity.
  - exact (proj1 (proj2 (proj2 (proj2 (@empty_target_type_passes_then_getitem_fails offline))
                           "data" None None false sample_world (sample_ds_101 [])
                           sample_world_101 3 Hinit Hi))).
  - destruct (proj2 (proj2 (proj2 (proj2 (@empty_target_type_passes_then_getitem_fails offline))
                              "data" None None false sample_world (sample_ds_101 [])
                              sample_world_101 3 Hinit Hi)))
      as (yi & c & k & Hy & Hc & Hk & Hget).
    vm_compute in Hy. injection Hy as <-.
    vm_compute in Hc. injection Hc as <-.
    vm_compute in Hk. injection Hk as <-.
    exact (Hget sample_world).
Defined.

(** C10 does not hold as stated: an in-range lookup on a dataset
    constructed with [[]] need not fail with an index error.  The
    constructor counts every entry of a category folder, so on a disk
    whose class [a] holds one file that is not [image_0001.jpg]
    construction with [[]] succeeds with two samples, and the lookup at
    index 0 stops at [Image.open] with a file-not-found error, before the
    target is selected. *)
Lemma empty_target_type_lookup_can_fail_earlier :
  @Caltech101.__init__ offline "data" (TList []) None None false odd_world =
    (Ok (odd_ds []),
     add_log odd_world
       [EvMakedirs "data/caltech101";
        EvExists "data/caltech101/101_ObjectCategories";
        EvListdir "data/caltech101/101_ObjectCategories";
        EvListdir "data/caltech101/101_ObjectCategories/a";
        EvListdir "data/caltech101/101_ObjectCategories/b"]) /\
  Caltech101.target_type (odd_ds []) = [] /\
  Caltech101.__len__ (odd_ds []) = 2 /\
  fst (Caltech101.__getitem__ (odd_ds []) 0
         (add_log odd_world
            [EvMakedirs "data/caltech101";
             EvExists "data/caltech101/101_ObjectCategories";
             EvListdir "data/caltech101/101_ObjectCategories";
             EvListdir "data/caltech101/101_ObjectCategories/a";
             EvListdir "data/caltech101/101_ObjectCategories/b"])) =
    Err (FileNotFoundError "data/caltech101/101_ObjectCategories/a/image_0001.jpg") /\
  is_index_error
    (fst (Caltech101.__getitem__ (odd_ds []) 0
            (add_log odd_world
               [EvMakedirs "data/caltech101";
                EvExists "data/caltech101/101_ObjectCategories";
                EvListdir "data/caltech101/101_ObjectCategories";
                EvListdir "data/caltech101/101_ObjectCategories/a";
                EvListdir "data/caltech101/101_ObjectCategories/b"]))) = false.
Proof. repeat split. Qed.

(** ** Validation of the target kind *)

Lemma map_result_verify_first_invalid pre t post :
  Forall (fun s => s ∈ ["category"; "annotation"]) pre ->
  t ∉ ["category"; "annotation"] ->
  map_result (fun s => verify_str_arg s "target_type" ["category"; "annotation"])
    (pre ++ t :: post) =
  Err (ValueError_verify t "target_type" ["category"; "annotation"]).
Proof.
  intros Hpre Ht. induction Hpre as [|s pre Hs _ IH]; cbn [app map_result].
  - unfold verify_str_arg. case_bool_decide; [contradiction|reflexivity].
  - unfold verify_str_arg at 1. case_bool_decide; [|contradiction]. now rewrite IH.
Qed.

(** C2 (as amended). For every target kind [t] outside
    [{"category", "annotation"}], given alone or as the first invalid
    entry of a list, the constructor of Caltech101 first creates the
    dataset root [<root>/caltech101] ([os.makedirs] with [exist_ok]) and
    then, if that succeeded, fails with the validation error naming [t]
    and the allowed set.  Creating the root is the only call made before
    failing: nothing is checked, listed or downloaded.  When the root
    cannot be created, that error is raised instead. *)
Theorem invalid_target_type_rejected_after_makedirs `{ArchiveUtils} :
  forall tt pre t post root_arg tr ttr dl w,
    match tt with TStr s => [s] | TList l => l end = pre ++ t :: post ->
    Forall (fun s => s ∈ ["category"; "annotation"]) pre ->
    t ∉ ["category"; "annotation"] ->
    Caltech101.__init__ root_arg tt tr ttr dl w =
    match makedirs_at (os_path_join root_arg ["caltech101"])
            (components (os_path_join root_arg ["caltech101"])) (fs w) with
    | Ok n =>
        (Err (ValueError_verify t "target_type" ["category"; "annotation"]),
         World n (scipy_installed w)
           (log w ++ [EvMakedirs (os_path_join root_arg ["caltech101"])]))
    | Err e => (Err e, add_log w [EvMakedirs (os_path_join root_arg ["caltech101"])])
    end.
Proof.
  intros tt pre t post root_arg tr ttr dl w Htt Hpre Ht. unfold Caltech101.__init__.
  unfold bind at 1, VisionDataset_init at 1, ret at 1.
  cbn [vd_root vd_transform vd_target_transform].
  unfold bind at 1. rewrite os_makedirs_run.
  destruct (makedirs_at _ _ (fs w)) as [n|e]; [|reflexivity].
  unfold bind at 1, lift at 1.
  now rewrite Htt, (map_result_verify_first_invalid pre t post Hpre Ht).
Qed.

Lemma invalid_target_type_rejected_after_makedirs_witness :
  @Caltech101.__init__ offline "data" (TStr "segmentation") None None true sample_world =
    (Err (ValueError_verify "segmentation" "target_type" ["category"; "annotation"]),
     add_log sample_world [EvMakedirs "data/caltech101"]) /\
  @Caltech101.__init__ offline "data" (TList ["category"; "mask"; "annotation"]) None None
    false sample_world =
    (Err (ValueError_verify "mask" "target_type" ["category"; "annotation"]),
     add_log sample_world [EvMakedirs "data/caltech101"]).
Proof.
  split.
  - apply (@invalid_target_type_rejected_after_makedirs offline
             (TStr "segmentation") [] "segmentation" [] "data" None None true sample_world).
    + reflexivity.
    + constructor.
    + rewrite !not_elem_of_cons. repeat split; try discriminate. apply not_elem_of_nil.
  - apply (@invalid_target_type_rejected_after_makedirs offline
             (TList ["category"; "mask"; "annotation"]) ["category"] "mask" ["annotation"]
             "data" None None false sample_world).
    + reflexivity.
    + repeat constructor.
    + rewrite !not_elem_of_cons. repeat split; try discriminate. apply not_elem_of_nil.
Defined.

(** C2 does not hold as stated: on an empty disk the rejected
    construction leaves the directory [data/caltech101] behind. *)
Lemma invalid_target_type_still_creates_root :
  ("segmentation" ∉ ["category"; "annotation"]) /\
  fst (@Caltech101.__init__ offline "data" (TStr "segmentation") None None false empty_world) =
    Err (ValueError_verify "segmentation" "target_type" ["category"; "annotation"]) /\
  fs empty_world = Dir [] /\
  fs (snd (@Caltech101.__init__ offline "data" (TStr "segmentation") None None false
             empty_world)) = Dir [("data", Dir [("caltech101", Dir [])])] /\
  log (snd (@Caltech101.__init__ offline "data" (TStr "segmentation") None None false
              empty_world)) = [EvMakedirs "data/caltech101"].
Proof.
  split; [|repeat split].
  rewrite !not_elem_of_cons. repeat split; try discriminate. apply not_elem_of_nil.
Qed.

(** ** The category list *)

Lemma init_101_without_sentinel `{ArchiveUtils} root_arg tt tys tr ttr w n ls :
  makedirs_at (os_path_join root_arg ["caltech101"])
    (components (os_path_join root_arg ["caltech101"])) (fs w) = Ok n ->
  map_result (fun t => verify_str_arg t "target_type" ["category"; "annotation"])
    (match tt with TStr s => [s] | TList l => l end) = Ok tys ->
  listdir_of (os_path_join (os_path_join root_arg ["caltech101"]) ["101_ObjectCategories"])
    n = Ok ls ->
  "BACKGROUND_Google" ∉ ls ->
  Caltech101.__init__ root_arg tt tr ttr false w =
  (Err (ValueError_remove "BACKGROUND_Google"),
   World n (scipy_installed w)
     (log w ++ [EvMakedirs (os_path_join root_arg ["caltech101"]);
                EvExists (Caltech101.images_dir (os_path_join root_arg ["caltech101"]));
                EvListdir (Caltech101.images_dir (os_path_join root_arg ["caltech101"]))])).
Proof.
  intros Hmk Hv Hls Habsent. unfold Caltech101.__init__.
  unfold bind at 1, VisionDataset_init at 1, ret at 1.
  cbn [vd_root vd_transform vd_target_transform].
  unfold bind at 1. rewrite os_makedirs_run, Hmk.
  unfold bind at 1, lift at 1. rewrite Hv.
  unfold bind at 1, ret at 1.
  unfold bind at 1. rewrite check_integrity_101_run. cbn [fs].
  assert (Hex : is_Some (lookup_path
                  (Caltech101.images_dir (os_path_join root_arg ["caltech101"])) n)).
  { unfold listdir_of in Hls. unfold Caltech101.images_dir.
    destruct (lookup_path _ n); [eauto|discriminate]. }
  rewrite (bool_decide_eq_true_2 _ Hex). cbn [negb].
  unfold bind at 1. rewrite os_listdir_run. cbn [fs add_log].
  fold (Caltech101.images_dir (os_path_join root_arg ["caltech101"])) in Hls |- *.
  rewrite Hls.
  unfold bind at 1, lift at 1.
  rewrite list_remove_absent.
  - unfold add_log. cbn [fs scipy_installed log]. now rewrite <- !app_assoc.
  - unfold sorted. now rewrite merge_sort_Permutation.
Qed.

(** C3 (as amended). When the construction of a Caltech101 succeeds, the
    listing of the image root contains the entry [BACKGROUND_Google] and
    the category list is that listing, sorted in code-point order, with
    [BACKGROUND_Google] removed.  The constructor does not cope with a
    missing sentinel: with an image root that lists no
    [BACKGROUND_Google], a construction that reaches the listing (valid
    target kinds, no [download]) fails with the error of [list.remove]. *)
Theorem categories_sorted_listing_without_sentinel `{ArchiveUtils} :
  (forall root_arg tt tr ttr dl w ds w',
     Caltech101.__init__ root_arg tt tr ttr dl w = (Ok ds, w') ->
     exists ls,
       listdir_of (os_path_join (Caltech101.root ds) ["101_ObjectCategories"]) (fs w') = Ok ls /\
       "BACKGROUND_Google" ∈ ls /\
       list_remove "BACKGROUND_Google" (sorted ls) = Ok (Caltech101.categories ds) /\
       StronglySorted String.le (Caltech101.categories ds) /\
       ls ≡ₚ "BACKGROUND_Google" :: Caltech101.categories ds) /\
  (forall root_arg tt tys tr ttr w n ls,
     makedirs_at (os_path_join root_arg ["caltech101"])
       (components (os_path_join root_arg ["caltech101"])) (fs w) = Ok n ->
     map_result (fun t => verify_str_arg t "target_type" ["category"; "annotation"])
       (match tt with TStr s => [s] | TList l => l end) = Ok tys ->
     listdir_of (os_path_join (os_path_join root_arg ["caltech101"]) ["101_ObjectCategories"])
       n = Ok ls ->
     "BACKGROUND_Google" ∉ ls ->
     fst (Caltech101.__init__ root_arg tt tr ttr false w) =
       Err (ValueError_remove "BACKGROUND_Google") /\
     fs (snd (Caltech101.__init__ root_arg tt tr ttr false w)) = n).
Proof.
  split.
  - intros root_arg tt tr ttr dl w ds w' Hinit.
    apply init_101_ok in Hinit as (_ & _ & _ & _ & _ & ls & counts & Hls & Hrm & _).
    exists ls. split; [exact Hls|].
    pose proof (list_remove_ok _ _ _ Hrm) as [Hin Hperm].
    unfold sorted in Hin, Hperm. rewrite merge_sort_Permutation in Hin, Hperm.
    repeat split; auto.
    eapply list_remove_sorted; [|exact Hrm]. apply sorted_spec.
  - intros root_arg tt tys tr ttr w n ls Hmk Hv Hls Habsent.
    now rewrite (init_101_without_sentinel root_arg tt tys tr ttr w n ls Hmk Hv Hls Habsent).
Qed.

Lemma categories_sorted_listing_without_sentinel_witness :
  (exists ls,
     listdir_of (os_path_join "data/caltech101" ["101_ObjectCategories"])
       (fs sample_world_101) = Ok ls /\
     "BACKGROUND_Google" ∈ ls /\
     list_remove "BACKGROUND_Google" (sorted ls) = Ok ["Faces"; "b"] /\
     StronglySorted String.le ["Faces"; "b"] /\
     ls ≡ₚ ["BACKGROUND_Google"; "Faces"; "b"]) /\
  (fst (@Caltech101.__init__ offline "data" (TStr "category") None None false
          no_sentinel_world) =
     Err (ValueError_remove "BACKGROUND_Google") /\
   fs (snd (@Caltech101.__init__ offline "data" (TStr "category") None None false
              no_sentinel_world)) =
     Dir [("data", Dir [("caltech101", sample_no_sentinel)])]).
Proof.
  split.
  - apply (proj1 (@categories_sorted_listing_without_sentinel offline)
             "data" (TList ["category"]) None None false sample_world
             (sample_ds_101 ["category"]) sample_world_101).
    reflexivity.
  - apply (proj2 (@categories_sorted_listing_without_sentinel offline)
             "data" (TStr "category") ["category"] None None
             no_sentinel_world
             (Dir [("data", Dir [("caltech101", sample_no_sentinel)])])
             ["b"; "a"]).
    + reflexivity.
    + reflexivity.
    + reflexivity.
    + rewrite !not_elem_of_cons. repeat split; try discriminate. apply not_elem_of_nil.
Defined.


(** C3 does not hold as stated: an image root holding the class
    folders [a] and [b] and no [BACKGROUND_Google] is present and
    listable, yet construction does not succeed. *)
Lemma construction_fails_without_sentinel :
  listdir_of "data/caltech101/101_ObjectCategories" (fs no_sentinel_world) = Ok ["b"; "a"] /\
  ("BACKGROUND_Google" ∉ ["b"; "a"]) /\
  fst (@Caltech101.__init__ offline "data" (TStr "category") None None false
         no_sentinel_world) = Err (ValueError_remove "BACKGROUND_Google").
Proof.
  split; [reflexivity|]. split; [|reflexivity].
  rewrite !not_elem_of_cons. repeat split; try discriminate. apply not_elem_of_nil.
Qed.

(** ** Fetching *)

Lemma download_101_present `{ArchiveUtils} root w :
  is_Some (lookup_path (os_path_join root ["101_ObjectCategories"]) (fs w)) ->
  Caltech101.download root w =
  (Ok tt, add_log w [EvExists (os_path_join root ["101_ObjectCategories"])]).
Proof.
  intros Hex. unfold Caltech101.download. unfold bind at 1.
  rewrite check_integrity_101_run. unfold Caltech101.images_dir.
  now rewrite (bool_decide_eq_true_2 _ Hex).
Qed.

Lemma download_256_present `{ArchiveUtils} root w :
  is_Some (lookup_path (os_path_join root ["256_ObjectCategories"]) (fs w)) ->
  Caltech256.download root w =
  (Ok tt, add_log w [EvExists (os_path_join root ["256_ObjectCategories"])]).
Proof.
  intros Hex. unfold Caltech256.download. unfold bind at 1.
  rewrite check_integrity_256_run.
  now rewrite (bool_decide_eq_true_2 _ Hex).
Qed.

(** C9. Whenever the expected dataset directory exists, [download]
    returns at once: its only call is the existence check, so the disk is
    unchanged, nothing is written and the network is not used; a second
    call does the same again, so two calls leave the same result and the
    same disk as one. *)
Theorem download_is_noop_when_present `{ArchiveUtils} :
  (forall root w,
     is_Some (lookup_path (os_path_join root ["101_ObjectCategories"]) (fs w)) ->
     exists es,
       Caltech101.download root w = (Ok tt, add_log w es) /\
       Forall (fun e => writes_disk e = false /\ uses_network e = false) es /\
       fs (snd (Caltech101.download root w)) = fs w /\
       fst ((Caltech101.download root ;;; Caltech101.download root) w) =
         fst (Caltech101.download root w) /\
       fs (snd ((Caltech101.download root ;;; Caltech101.download root) w)) =
         fs (snd (Caltech101.download root w)) /\
       Forall (fun e => writes_disk e = false /\ uses_network e = false)
         (drop (length (log w))
            (log (snd ((Caltech101.download root ;;; Caltech101.download root) w))))) /\
  (forall root w,
     is_Some (lookup_path (os_path_join root ["256_ObjectCategories"]) (fs w)) ->
     exists es,
       Caltech256.download root w = (Ok tt, add_log w es) /\
       Forall (fun e => writes_disk e = false /\ uses_network e = false) es /\
       fs (snd (Caltech256.download root w)) = fs w /\
       fst ((Caltech256.download root ;;; Caltech256.download root) w) =
         fst (Caltech256.download root w) /\
       fs (snd ((Caltech256.download root ;;; Caltech256.download root) w)) =
         fs (snd (Caltech256.download root w)) /\
       Forall (fun e => writes_disk e = false /\ uses_network e = false)
         (drop (length (log w))
            (log (snd ((Caltech256.download root ;;; Caltech256.download root) w))))).
Proof.
  split.
  - intros root w Hex. exists [EvExists (os_path_join root ["101_ObjectCategories"])].
    assert (Htwice : (Caltech101.download root ;;; Caltech101.download root) w =
                     (Ok tt, add_log w [EvExists (os_path_join root ["101_ObjectCategories"]);
                                        EvExists (os_path_join root ["101_ObjectCategories"])])).
    { unfold bind. rewrite (download_101_present root w Hex).
      rewrite download_101_present by exact Hex. now rewrite add_log_app. }
    rewrite Htwice, (download_101_present root w Hex). cbn [fst snd add_log fs log].
    rewrite drop_app_length. repeat split; repeat constructor.
  - intros root w Hex. exists [EvExists (os_path_join root ["256_ObjectCategories"])].
    assert (Htwice : (Caltech256.download root ;;; Caltech256.download root) w =
                     (Ok tt, add_log w [EvExists (os_path_join root ["256_ObjectCategories"]);
                                        EvExists (os_path_join root ["256_ObjectCategories"])])).
    { unfold bind. rewrite (download_256_present root w Hex).
      rewrite download_256_present by exact Hex. now rewrite add_log_app. }
    rewrite Htwice, (download_256_present root w Hex). cbn [fst snd add_log fs log].
    rewrite drop_app_length. repeat split; repeat constructor.
Qed.

Lemma download_is_noop_when_present_witness :
  (exists es,
     @Caltech101.download offline "data/caltech101" sample_world = (Ok tt, add_log sample_world es) /\
     Forall (fun e => writes_disk e = false /\ uses_network e = false) es /\
     fs (snd (@Caltech101.download offline "data/caltech101" sample_world)) = fs sample_world /\
     fst ((@Caltech101.download offline "data/caltech101" ;;;
           @Caltech101.download offline "data/caltech101") sample_world) =
       fst (@Caltech101.download offline "data/caltech101" sample_world) /\
     fs (snd ((@Caltech101.download offline "data/caltech101" ;;;
               @Caltech101.download offline "data/caltech101") sample_world)) =
       fs (snd (@Caltech101.download offline "data/caltech101" sample_world)) /\
     Forall (fun e => writes_disk e = false /\ uses_network e = false)
       (drop (length (log sample_world))
          (log (snd ((@Caltech101.download offline "data/caltech101" ;;;
                      @Caltech101.download offline "data/caltech101") sample_world))))) /\
  (exists es,
     @Caltech256.download offline "data/caltech256" sample_world = (Ok tt, add_log sample_world es) /\
     Forall (fun e => writes_disk e = false /\ uses_network e = false) es /\
     fs (snd (@Caltech256.download offline "data/caltech256" sample_world)) = fs sample_world /\
     fst ((@Caltech256.download offline "data/caltech256" ;;;
           @Caltech256.download offline "data/caltech256") sample_world) =
       fst (@Caltech256.download offline "data/caltech256" sample_world) /\
     fs (snd ((@Caltech256.download offline "data/caltech256" ;;;
               @Caltech256.download offline "data/caltech256") sample_world)) =
       fs (snd (@Caltech256.download offline "data/caltech256" sample_world)) /\
     Forall (fun e => writes_disk e = false /\ uses_network e = false)
       (drop (length (log sample_world))
          (log (snd ((@Caltech256.download offline "data/caltech256" ;;;
                      @Caltech256.download offline "data/caltech256") sample_world))))).
Proof.
  split.
  - apply (proj1 (@download_is_noop_when_present offline) "data/caltech101" sample_world).
    vm_compute. eauto.
  - apply (proj2 (@download_is_noop_when_present offline) "data/caltech256" sample_world).
    vm_compute. eauto.
Defined.

(** Without the directory the fetch does reach the network. *)
Example download_fetches_when_absent :
  @Caltech256.download offline "data/caltech256" empty_world =
  (Err (OtherError "network unreachable"),
   add_log empty_world
     [EvExists "data/caltech256/256_ObjectCategories";
      EvDownload "https://data.caltech.edu/records/nyy15-4j048/files/256_ObjectCategories.tar"
        "data/caltech256" "256_ObjectCategories.tar" "67b4f42ca05d46448c6bb8ecd2220f6d"]).
Proof. reflexivity. Qed.

(** * Further properties of the two classes *)

(** ** Computations that only read *)

Lemma read_only_ret {A} n s (a : A) : read_only_at n s (ret a).
Proof. exists (Ok a), []. split; [constructor|]. intros l. now rewrite app_nil_r. Qed.

Lemma read_only_raise {A} n s e : read_only_at n s (@raise A e).
Proof. exists (Err e), []. split; [constructor|]. intros l. now rewrite app_nil_r. Qed.

Lemma read_only_lift {A} n s (r : result A) : read_only_at n s (lift r).
Proof. exists r, []. split; [constructor|]. intros l. now rewrite app_nil_r. Qed.

Lemma read_only_bind {A B} n s (m : M A) (k : A -> M B) :
  read_only_at n s m -> (forall a, read_only_at n s (k a)) -> read_only_at n s (bind m k).
Proof.
  intros (r & es & Hes & Hm) Hk. destruct r as [a|e].
  - destruct (Hk a) as (r' & es' & Hes' & Hka). exists r', (es ++ es').
    split; [now apply Forall_app|]. intros l. unfold bind.
    now rewrite Hm, Hka, app_assoc.
  - exists (Err e), es. split; [exact Hes|]. intros l. unfold bind. now rewrite Hm.
Qed.

Lemma read_only_listdir n s path : read_only_at n s (os_listdir path).
Proof.
  exists (listdir_of path n), [EvListdir path].
  split; [repeat constructor|]. intros l. reflexivity.
Qed.

Lemma read_only_exists n s path : read_only_at n s (os_path_exists path).
Proof.
  exists (Ok (bool_decide (is_Some (lookup_path path n)))), [EvExists path].
  split; [repeat constructor|]. intros l. reflexivity.
Qed.

Lemma read_only_Image_open n s path : read_only_at n s (Image_open path).
Proof.
  exists (image_of path n), [EvImageOpen path].
  split; [repeat constructor|]. intros l. reflexivity.
Qed.

Lemma read_only_loadmat n s path : read_only_at n s (scipy_io_loadmat path).
Proof.
  exists (mat_of path n), [EvLoadmat path].
  split; [repeat constructor|]. intros l. reflexivity.
Qed.

Lemma read_only_import n s : read_only_at n s import_scipy_io.
Proof.
  exists (if s then Ok tt else Err (ModuleNotFoundError "scipy")), [EvImport "scipy.io"].
  split; [repeat constructor|]. intros l.
  unfold import_scipy_io, bind, emit. cbn. now destruct s.
Qed.

Lemma read_only_apply_opt n s f x : read_only_at n s (apply_opt f x).
Proof. destruct f; [apply read_only_lift|apply read_only_ret]. Qed.

Lemma read_only_index_loop n s count :
  (forall c, read_only_at n s (count c)) ->
  forall cs index y, read_only_at n s (index_loop count cs index y).
Proof.
  intros Hc cs. induction cs as [|[i c] cs IH]; intros index y; cbn [index_loop].
  - apply read_only_ret.
  - apply read_only_bind; [apply Hc|]. intros a. apply IH.
Qed.

Create HintDb read_only.

#[local] Hint Resolve read_only_ret read_only_raise read_only_lift read_only_listdir
  read_only_exists read_only_Image_open read_only_loadmat read_only_import
  read_only_apply_opt : read_only.

Ltac read_only :=
  repeat first
    [ solve [auto with read_only]
    | apply read_only_bind; [|intros ?]
    | match goal with
      | |- read_only_at _ _ (if ?b then _ else _) => destruct b
      | |- read_only_at _ _ (let '(_, _) := ?p in _) => destruct p
      end ].

Lemma read_only_target_loop n s self i ts :
  forall target, read_only_at n s (Caltech101.target_loop self i ts target).
Proof.
  induction ts as [|t ts IH]; intros target; cbn [Caltech101.target_loop].
  - apply read_only_ret.
  - apply read_only_bind; [|intros a; apply IH].
    unfold Caltech101.target_step. read_only.
Qed.

Lemma read_only_getitem_101 n s self i : read_only_at n s (Caltech101.__getitem__ self i).
Proof.
  unfold Caltech101.__getitem__.
  repeat (apply read_only_bind; [auto using read_only_target_loop with read_only|intros ?]).
  apply read_only_ret.
Qed.

Lemma read_only_getitem_256 n s self i : read_only_at n s (Caltech256.__getitem__ self i).
Proof. unfold Caltech256.__getitem__. read_only. Qed.

Lemma read_only_run {A} (m : M A) w :
  read_only_at (fs w) (scipy_installed w) m ->
  exists es, Forall reads es /\ snd (m w) = add_log w es /\
             forall l, fst (m (World (fs w) (scipy_installed w) l)) = fst (m w).
Proof.
  intros (r & es & Hes & Hm). exists es. split; [exact Hes|].
  destruct w as [n s l0]. cbn [fs scipy_installed] in *. split.
  - now rewrite Hm.
  - intros l. now rewrite !Hm.
Qed.

(** X3. A lookup without transforms only reads.  The transforms are
    callables of the caller and may do anything; with neither of them
    set, [__getitem__] of either class calls nothing but the import, the
    opening of the image and the loading of the annotation: for every
    such dataset object, index and world it leaves the disk as it was,
    logs nothing but reading calls, and its result does not depend on
    what was logged before. *)
Theorem getitem_only_reads :
  (forall self i w,
     Caltech101.transform self = None ->
     Caltech101.target_transform self = None ->
     exists es,
       Forall reads es /\
       snd (Caltech101.__getitem__ self i w) = add_log w es /\
       forall l,
         fst (Caltech101.__getitem__ self i (World (fs w) (scipy_installed w) l)) =
         fst (Caltech101.__getitem__ self i w)) /\
  (forall self i w,
     Caltech256.transform self = None ->
     Caltech256.target_transform self = None ->
     exists es,
       Forall reads es /\
       snd (Caltech256.__getitem__ self i w) = add_log w es /\
       forall l,
         fst (Caltech256.__getitem__ self i (World (fs w) (scipy_installed w) l)) =
         fst (Caltech256.__getitem__ self i w)).
Proof.
  split; intros self i w _ _; apply read_only_run.
  - apply read_only_getitem_101.
  - apply read_only_getitem_256.
Qed.

Lemma getitem_only_reads_witness :
  (exists es,
     Forall reads es /\
     snd (Caltech101.__getitem__ (sample_ds_101 ["category"; "annotation"]) 3 sample_world) =
       add_log sample_world es /\
     forall l,
       fst (Caltech101.__getitem__ (sample_ds_101 ["category"; "annotation"]) 3
              (World (fs sample_world) (scipy_installed sample_world) l)) =
       fst (Caltech101.__getitem__ (sample_ds_101 ["category"; "annotation"]) 3 sample_world)) /\
  (exists es,
     Forall reads es /\
     snd (Caltech256.__getitem__ sample_ds_256 3 sample_world) = add_log sample_world es /\
     forall l,
       fst (Caltech256.__getitem__ sample_ds_256 3
              (World (fs sample_world) (scipy_installed sample_world) l)) =
       fst (Caltech256.__getitem__ sample_ds_256 3 sample_world)).
Proof.
  split.
  - apply (proj1 getitem_only_reads (sample_ds_101 ["category"; "annotation"]) 3 sample_world);
      reflexivity.
  - apply (proj2 getitem_only_reads sample_ds_256 3 sample_world); reflexivity.
Defined.

(** ** The constructor as a function of the disk *)

Lemma reads_to_ret {A} n s (a : A) : reads_to n s (ret a) (Ok a).
Proof. exists []. split; [constructor|]. intros l. now rewrite app_nil_r. Qed.

Lemma reads_to_raise {A} n s e : reads_to n s (@raise A e) (Err e).
Proof. exists []. split; [constructor|]. intros l. now rewrite app_nil_r. Qed.

Lemma reads_to_lift {A} n s (r : result A) : reads_to n s (lift r) r.
Proof. exists []. split; [constructor|]. intros l. now rewrite app_nil_r. Qed.

Lemma reads_to_bind {A B} n s (m : M A) (k : A -> M B) a r :
  reads_to n s m (Ok a) -> reads_to n s (k a) r -> reads_to n s (bind m k) r.
Proof.
  intros (es & Hes & Hm) (es' & Hes' & Hk). exists (es ++ es').
  split; [now apply Forall_app|]. intros l. unfold bind. now rewrite Hm, Hk, app_assoc.
Qed.

Lemma reads_to_bind_err {A B} n s (m : M A) (k : A -> M B) e :
  reads_to n s m (Err e) -> reads_to n s (bind m k) (Err e).
Proof.
  intros (es & Hes & Hm). exists es. split; [exact Hes|]. intros l. unfold bind. now rewrite Hm.
Qed.

Lemma reads_to_listdir n s path : reads_to n s (os_listdir path) (listdir_of path n).
Proof. exists [EvListdir path]. split; [repeat constructor|]. intros l. reflexivity. Qed.

Lemma reads_to_exists n s path :
  reads_to n s (os_path_exists path) (Ok (bool_decide (is_Some (lookup_path path n)))).
Proof. exists [EvExists path]. split; [repeat constructor|]. intros l. reflexivity. Qed.

Lemma reads_to_count_101 n s root c :
  reads_to n s (Caltech101.count_files root c) (count_101 n root c).
Proof.
  exists [EvListdir (os_path_join root ["101_ObjectCategories"; c])].
  split; [repeat constructor|]. intros l. now rewrite count_files_101_run.
Qed.

Lemma reads_to_count_256 n s root c :
  reads_to n s (Caltech256.count_files root c) (count_256 n root c).
Proof.
  exists [EvListdir (os_path_join root ["256_ObjectCategories"; c])].
  split; [repeat constructor|]. intros l. now rewrite count_files_256_run.
Qed.

(** The loop fails with the error of the first category it cannot count,
    and otherwise appends the blocks of all of them. *)
Lemma reads_to_index_loop n s count (cnt : string -> result Z) :
  (forall c, reads_to n s (count c) (cnt c)) ->
  forall l st idx ys,
    reads_to n s (index_loop count (zip (seqZ st (Z.of_nat (length l))) l) idx ys)
      (match map_result cnt l with
       | Ok counts => Ok (idx ++ ordinals counts, ys ++ ids_from st counts)
       | Err e => Err e
       end).
Proof.
  intros Hc l. induction l as [|c l IH]; intros st idx ys.
  - cbn. rewrite !app_nil_r. apply reads_to_ret.
  - rewrite seqZ_cons by (simpl length; lia).
    replace (Z.pred (Z.of_nat (length (c :: l)))) with (Z.of_nat (length l))
      by (simpl length; lia).
    cbn [zip zip_with index_loop map_result]. specialize (Hc c).
    destruct (cnt c) as [k|e].
    + eapply reads_to_bind; [exact Hc|].
      specialize (IH (Z.succ st) (idx ++ range1 k) (ys ++ repeat_int k st)).
      destruct (map_result cnt l) as [counts|e].
      * cbn [ordinals ids_from]. rewrite !app_assoc.
        replace (st + 1) with (Z.succ st) by lia. exact IH.
      * exact IH.
    + now apply reads_to_bind_err.
Qed.

Lemma reads_to_download_101 `{ArchiveUtils} n s root :
  is_Some (lookup_path (os_path_join root ["101_ObjectCategories"]) n) ->
  reads_to n s (Caltech101.download root) (Ok tt).
Proof.
  intros Hex. exists [EvExists (os_path_join root ["101_ObjectCategories"])].
  split; [repeat constructor|]. intros l. now rewrite download_101_present.
Qed.

Lemma reads_to_download_256 `{ArchiveUtils} n s root :
  is_Some (lookup_path (os_path_join root ["256_ObjectCategories"]) n) ->
  reads_to n s (Caltech256.download root) (Ok tt).
Proof.
  intros Hex. exists [EvExists (os_path_join root ["256_ObjectCategories"])].
  split; [repeat constructor|]. intros l. now rewrite download_256_present.
Qed.

Lemma reads_to_run {A} (m : M A) n s r l :
  reads_to n s m r ->
  exists es, Forall reads es /\ m (World n s l) = (r, World n s (l ++ es)).
Proof. intros (es & Hes & Hm). eauto. Qed.

(** Once the root has been created, leaving the disk [n], and with
    nothing to fetch, the constructor only reads, and what it returns is
    [outcome_101] of that disk. *)
Lemma init_101_outcome `{ArchiveUtils} dl root_arg tt tr ttr w n :
  makedirs_at (os_path_join root_arg ["caltech101"])
    (components (os_path_join root_arg ["caltech101"])) (fs w) = Ok n ->
  (dl = true ->
   is_Some (lookup_path (Caltech101.images_dir (os_path_join root_arg ["caltech101"])) n)) ->
  exists es,
    Forall reads es /\
    Caltech101.__init__ root_arg tt tr ttr dl w =
    (outcome_101 root_arg tt tr ttr n,
     World n (scipy_installed w)
       (log w ++ EvMakedirs (os_path_join root_arg ["caltech101"]) :: es)).
Proof.
  intros Hmk Hdl. unfold Caltech101.__init__.
  unfold bind at 1, VisionDataset_init at 1, ret at 1.
  cbn [vd_root vd_transform vd_target_transform].
  unfold bind at 1. rewrite os_makedirs_run, Hmk.
  set (root := os_path_join root_arg ["caltech101"]) in *.
  match goal with
  | |- exists es, _ /\ ?R (World _ _ _) = _ =>
      assert (Hr : reads_to n (scipy_installed w) R (outcome_101 root_arg tt tr ttr n))
  end.
  { unfold outcome_101. fold root.
    destruct (map_result _ _) as [tys|e]; [|apply reads_to_bind_err, reads_to_lift].
    eapply reads_to_bind; [apply reads_to_lift|].
    eapply reads_to_bind.
    { destruct dl; [apply reads_to_download_101; now apply Hdl|apply reads_to_ret]. }
    eapply reads_to_bind; [apply reads_to_exists|]. fold (Caltech101.images_dir root).
    destruct (bool_decide _); cbn [negb]; [|apply reads_to_raise].
    destruct (listdir_of _ n) as [ls|e] eqn:Hls.
    2:{ apply reads_to_bind_err. fold (Caltech101.images_dir root). rewrite <- Hls.
        apply reads_to_listdir. }
    eapply reads_to_bind.
    { fold (Caltech101.images_dir root). rewrite <- Hls. apply reads_to_listdir. }
    destruct (list_remove _ _) as [cats|e]; [|apply reads_to_bind_err, reads_to_lift].
    eapply reads_to_bind; [apply reads_to_lift|].
    pose proof (reads_to_index_loop n (scipy_installed w) (Caltech101.count_files root)
                  (count_101 n root) (reads_to_count_101 n _ root) cats 0 [] []) as Hloop.
    rewrite <- enumerate_zip in Hloop.
    destruct (map_result (count_101 n root) cats) as [counts|e].
    - eapply reads_to_bind; [exact Hloop|]. apply reads_to_ret.
    - now apply reads_to_bind_err. }
  destruct (reads_to_run _ _ _ _ (log w ++ [EvMakedirs root]) Hr) as (es & Hes & Hrun).
  exists es. split; [exact Hes|]. rewrite Hrun. now rewrite <- app_assoc.
Qed.

Lemma init_256_outcome `{ArchiveUtils} dl root_arg tr ttr w n :
  makedirs_at (os_path_join root_arg ["caltech256"])
    (components (os_path_join root_arg ["caltech256"])) (fs w) = Ok n ->
  (dl = true ->
   is_Some (lookup_path (os_path_join (os_path_join root_arg ["caltech256"])
                           ["256_ObjectCategories"]) n)) ->
  exists es,
    Forall reads es /\
    Caltech256.__init__ root_arg tr ttr dl w =
    (outcome_256 root_arg tr ttr n,
     World n (scipy_installed w)
       (log w ++ EvMakedirs (os_path_join root_arg ["caltech256"]) :: es)).
Proof.
  intros Hmk Hdl. unfold Caltech256.__init__.
  unfold bind at 1, VisionDataset_init at 1, ret at 1.
  cbn [vd_root vd_transform vd_target_transform].
  unfold bind at 1. rewrite os_makedirs_run, Hmk.
  set (root := os_path_join root_arg ["caltech256"]) in *.
  match goal with
  | |- exists es, _ /\ ?R (World _ _ _) = _ =>
      assert (Hr : reads_to n (scipy_installed w) R (outcome_256 root_arg tr ttr n))
  end.
  { unfold outcome_256. fold root.
    eapply reads_to_bind.
    { destruct dl; [apply reads_to_download_256; now apply Hdl|apply reads_to_ret]. }
    eapply reads_to_bind; [apply reads_to_exists|].
    destruct (bool_decide _); cbn [negb]; [|apply reads_to_raise].
    destruct (listdir_of _ n) as [ls|e] eqn:Hls.
    2:{ apply reads_to_bind_err. rewrite <- Hls. apply reads_to_listdir. }
    eapply reads_to_bind; [rewrite <- Hls; apply reads_to_listdir|].
    pose proof (reads_to_index_loop n (scipy_installed w) (Caltech256.count_files root)
                  (count_256 n root) (reads_to_count_256 n _ root) (sorted ls) 0 [] [])
      as Hloop.
    rewrite <- enumerate_zip in Hloop.
    destruct (map_result (count_256 n root) (sorted ls)) as [counts|e].
    - eapply reads_to_bind; [exact Hloop|]. apply reads_to_ret.
    - now apply reads_to_bind_err. }
  destruct (reads_to_run _ _ _ _ (log w ++ [EvMakedirs root]) Hr) as (es & Hes & Hrun).
  exists es. split; [exact Hes|]. rewrite Hrun. now rewrite <- app_assoc.
Qed.

(** When the root cannot be created, nothing else happens. *)
Lemma init_101_makedirs_fails `{ArchiveUtils} dl root_arg tt tr ttr w e :
  makedirs_at (os_path_join root_arg ["caltech101"])
    (components (os_path_join root_arg ["caltech101"])) (fs w) = Err e ->
  Caltech101.__init__ root_arg tt tr ttr dl w =
  (Err e, add_log w [EvMakedirs (os_path_join root_arg ["caltech101"])]).
Proof.
  intros Hmk. unfold Caltech101.__init__.
  unfold bind at 1, VisionDataset_init at 1, ret at 1.
  cbn [vd_root vd_transform vd_target_transform].
  unfold bind at 1. now rewrite os_makedirs_run, Hmk.
Qed.

Lemma init_256_makedirs_fails `{ArchiveUtils} dl root_arg tr ttr w e :
  makedirs_at (os_path_join root_arg ["caltech256"])
    (components (os_path_join root_arg ["caltech256"])) (fs w) = Err e ->
  Caltech256.__init__ root_arg tr ttr dl w =
  (Err e, add_log w [EvMakedirs (os_path_join root_arg ["caltech256"])]).
Proof.
  intros Hmk. unfold Caltech256.__init__.
  unfold bind at 1, VisionDataset_init at 1, ret at 1.
  cbn [vd_root vd_transform vd_target_transform].
  unfold bind at 1. now rewrite os_makedirs_run, Hmk.
Qed.

(** ** Creating the root *)

Lemma assoc_assoc_set {A} x (v : A) es : assoc x (assoc_set x v es) = Some v.
Proof.
  induction es as [|[k v'] es IH]; cbn.
  - now rewrite String.eqb_refl.
  - destruct (String.eqb k x) eqn:Hk; cbn; now rewrite Hk.
Qed.

Lemma assoc_set_same {A} x (v : A) es : assoc x es = Some v -> assoc_set x v es = es.
Proof.
  induction es as [|[k v'] es IH]; cbn; [discriminate|].
  destruct (String.eqb k x).
  - now intros [= ->].
  - intros Hx. now rewrite IH.
Qed.

Lemma assoc_set_twice {A} x (v v' : A) es :
  assoc_set x v (assoc_set x v' es) = assoc_set x v es.
Proof.
  induction es as [|[k u] es IH]; cbn.
  - now rewrite String.eqb_refl.
  - destruct (String.eqb k x) eqn:Hk; cbn; rewrite Hk; [reflexivity|now rewrite IH].
Qed.

(** [os.makedirs(..., exist_ok=True)] on an existing directory changes nothing. *)
Lemma makedirs_existing path p : forall n,
  is_dir (resolve p n) = true -> makedirs_at path p n = Ok n.
Proof.
  induction p as [|x p IH]; intros n Hd; cbn in *.
  - destruct n; [discriminate|reflexivity].
  - destruct n as [c|es]; [discriminate|].
    destruct (assoc x es) as [n1|] eqn:Hx; [|discriminate].
    change (default (Dir []) (Some n1)) with n1.
    rewrite (IH n1 Hd). now rewrite (assoc_set_same x n1 es Hx).
Qed.

(** What it created is a directory, and creating it again changes nothing. *)
Lemma makedirs_result path p : forall n n',
  makedirs_at path p n = Ok n' ->
  is_dir (resolve p n') = true /\ makedirs_at path p n' = Ok n'.
Proof.
  induction p as [|x p IH]; intros n n' Hmk; cbn in Hmk.
  - destruct n; [discriminate|]. injection Hmk as <-. now split.
  - destruct n as [c|es]; [discriminate|].
    destruct (makedirs_at path p (default (Dir []) (assoc x es))) as [m|e] eqn:Hsub;
      [|discriminate].
    injection Hmk as <-. destruct (IH _ _ Hsub) as [Hd Hagain].
    cbn. rewrite assoc_assoc_set. change (default (Dir []) (Some m)) with m.
    split; [exact Hd|]. now rewrite Hagain, assoc_set_twice.
Qed.

(** X2. Without [download], construction changes the disk by creating
    the root and in no other way, whatever its outcome: the disk it
    leaves is the one [os.makedirs] made (the old one if that failed, or
    if the root was there already), and after that call it only reads. *)
Theorem init_without_download_only_creates_root `{ArchiveUtils} :
  (forall root_arg tt tr ttr w,
     let root := os_path_join root_arg ["caltech101"] in
     let w' := snd (Caltech101.__init__ root_arg tt tr ttr false w) in
     (exists es, Forall reads es /\ log w' = log w ++ EvMakedirs root :: es) /\
     fs w' = match makedirs_at root (components root) (fs w) with
             | Ok n => n
             | Err _ => fs w
             end /\
     (is_dir (lookup_path root (fs w)) = true -> fs w' = fs w)) /\
  (forall root_arg tr ttr w,
     let root := os_path_join root_arg ["caltech256"] in
     let w' := snd (Caltech256.__init__ root_arg tr ttr false w) in
     (exists es, Forall reads es /\ log w' = log w ++ EvMakedirs root :: es) /\
     fs w' = match makedirs_at root (components root) (fs w) with
             | Ok n => n
             | Err _ => fs w
             end /\
     (is_dir (lookup_path root (fs w)) = true -> fs w' = fs w)).
Proof.
  split.
  - intros root_arg tt tr ttr w root w'. subst w'.
    destruct (makedirs_at root (components root) (fs w)) as [n|e] eqn:Hmk.
    + destruct (init_101_outcome false root_arg tt tr ttr w n Hmk) as (es & Hes & Hrun);
        [discriminate|].
      rewrite Hrun. cbn [snd fs log]. split; [eauto|]. split; [reflexivity|].
      intros Hd. unfold lookup_path in Hd.
      rewrite (makedirs_existing root _ _ Hd) in Hmk. now injection Hmk.
    + rewrite (init_101_makedirs_fails false root_arg tt tr ttr w e Hmk).
      cbn [snd add_log fs log]. split; [|auto]. exists []. split; [constructor|reflexivity].
  - intros root_arg tr ttr w root w'. subst w'.
    destruct (makedirs_at root (components root) (fs w)) as [n|e] eqn:Hmk.
    + destruct (init_256_outcome false root_arg tr ttr w n Hmk) as (es & Hes & Hrun);
        [discriminate|].
      rewrite Hrun. cbn [snd fs log]. split; [eauto|]. split; [reflexivity|].
      intros Hd. unfold lookup_path in Hd.
      rewrite (makedirs_existing root _ _ Hd) in Hmk. now injection Hmk.
    + rewrite (init_256_makedirs_fails false root_arg tr ttr w e Hmk).
      cbn [snd add_log fs log]. split; [|auto]. exists []. split; [constructor|reflexivity].
Qed.

Lemma init_without_download_only_creates_root_witness :
  fs (snd (@Caltech101.__init__ offline "data" (TStr "category") None None false sample_world)) =
    fs sample_world /\
  fs (snd (@Caltech256.__init__ offline "data" None None false sample_world)) =
    fs sample_world.
Proof.
  split.
  - apply (proj1 (@init_without_download_only_creates_root offline)
             "data" (TStr "category") None None sample_world).
    reflexivity.
  - apply (proj2 (@init_without_download_only_creates_root offline)
             "data" None None sample_world).
    reflexivity.
Defined.

(** X12. Construction without [download] can be repeated: run again on
    the world the first run left, it returns the same result (the same
    dataset or the same error) and leaves the disk as the first run left
    it. *)
Theorem construction_is_repeatable `{ArchiveUtils} :
  (forall root_arg tt tr ttr w,
     let w' := snd (Caltech101.__init__ root_arg tt tr ttr false w) in
     fst (Caltech101.__init__ root_arg tt tr ttr false w') =
       fst (Caltech101.__init__ root_arg tt tr ttr false w) /\
     fs (snd (Caltech101.__init__ root_arg tt tr ttr false w')) = fs w') /\
  (forall root_arg tr ttr w,
     let w' := snd (Caltech256.__init__ root_arg tr ttr false w) in
     fst (Caltech256.__init__ root_arg tr ttr false w') =
       fst (Caltech256.__init__ root_arg tr ttr false w) /\
     fs (snd (Caltech256.__init__ root_arg tr ttr false w')) = fs w').
Proof.
  split.
  - intros root_arg tt tr ttr w w'. subst w'.
    destruct (makedirs_at (os_path_join root_arg ["caltech101"])
                (components (os_path_join root_arg ["caltech101"])) (fs w)) as [n|e] eqn:Hmk.
    + destruct (init_101_outcome false root_arg tt tr ttr w n Hmk) as (es & _ & Hrun);
        [discriminate|].
      rewrite Hrun. cbn [fst snd].
      destruct (makedirs_result _ _ _ _ Hmk) as [_ Hagain].
      destruct (init_101_outcome false root_arg tt tr ttr
                  (World n (scipy_installed w)
                     (log w ++ EvMakedirs (os_path_join root_arg ["caltech101"]) :: es))
                  n Hagain)
        as (es' & _ & Hrun'); [discriminate|].
      now rewrite Hrun'.
    + rewrite (init_101_makedirs_fails false root_arg tt tr ttr w e Hmk). cbn [fst snd].
      now rewrite (init_101_makedirs_fails false root_arg tt tr ttr (add_log w _) e Hmk).
  - intros root_arg tr ttr w w'. subst w'.
    destruct (makedirs_at (os_path_join root_arg ["caltech256"])
                (components (os_path_join root_arg ["caltech256"])) (fs w)) as [n|e] eqn:Hmk.
    + destruct (init_256_outcome false root_arg tr ttr w n Hmk) as (es & _ & Hrun);
        [discriminate|].
      rewrite Hrun. cbn [fst snd].
      destruct (makedirs_result _ _ _ _ Hmk) as [_ Hagain].
      destruct (init_256_outcome false root_arg tr ttr
                  (World n (scipy_installed w)
                     (log w ++ EvMakedirs (os_path_join root_arg ["caltech256"]) :: es))
                  n Hagain)
        as (es' & _ & Hrun'); [discriminate|].
      now rewrite Hrun'.
    + rewrite (init_256_makedirs_fails false root_arg tr ttr w e Hmk). cbn [fst snd].
      now rewrite (init_256_makedirs_fails false root_arg tr ttr (add_log w _) e Hmk).
Qed.

(** X6. With the image directory in place once the root has been
    created, [download=True] makes no difference: construction returns
    the same result and leaves the same disk as with [download=False],
    and apart from creating the root it only reads; no archive utility is
    called. *)
Theorem download_flag_is_harmless_when_present `{ArchiveUtils} :
  (forall root_arg tt tr ttr w n,
     makedirs_at (os_path_join root_arg ["caltech101"])
       (components (os_path_join root_arg ["caltech101"])) (fs w) = Ok n ->
     is_Some (lookup_path (os_path_join (os_path_join root_arg ["caltech101"])
                             ["101_ObjectCategories"]) n) ->
     fst (Caltech101.__init__ root_arg tt tr ttr true w) =
       fst (Caltech101.__init__ root_arg tt tr ttr false w) /\
     fs (snd (Caltech101.__init__ root_arg tt tr ttr true w)) =
       fs (snd (Caltech101.__init__ root_arg tt tr ttr false w)) /\
     exists es,
       Forall reads es /\
       log (snd (Caltech101.__init__ root_arg tt tr ttr true w)) =
         log w ++ EvMakedirs (os_path_join root_arg ["caltech101"]) :: es) /\
  (forall root_arg tr ttr w n,
     makedirs_at (os_path_join root_arg ["caltech256"])
       (components (os_path_join root_arg ["caltech256"])) (fs w) = Ok n ->
     is_Some (lookup_path (os_path_join (os_path_join root_arg ["caltech256"])
                             ["256_ObjectCategories"]) n) ->
     fst (Caltech256.__init__ root_arg tr ttr true w) =
       fst (Caltech256.__init__ root_arg tr ttr false w) /\
     fs (snd (Caltech256.__init__ root_arg tr ttr true w)) =
       fs (snd (Caltech256.__init__ root_arg tr ttr false w)) /\
     exists es,
       Forall reads es /\
       log (snd (Caltech256.__init__ root_arg tr ttr true w)) =
         log w ++ EvMakedirs (os_path_join root_arg ["caltech256"]) :: es).
Proof.
  split.
  - intros root_arg tt tr ttr w n Hmk Hex.
    destruct (init_101_outcome true root_arg tt tr ttr w n Hmk) as (es & Hes & Hrun);
      [intros _; exact Hex|].
    destruct (init_101_outcome false root_arg tt tr ttr w n Hmk) as (es' & _ & Hrun');
      [discriminate|].
    rewrite Hrun, Hrun'. cbn [fst snd fs log]. eauto.
  - intros root_arg tr ttr w n Hmk Hex.
    destruct (init_256_outcome true root_arg tr ttr w n Hmk) as (es & Hes & Hrun);
      [intros _; exact Hex|].
    destruct (init_256_outcome false root_arg tr ttr w n Hmk) as (es' & _ & Hrun');
      [discriminate|].
    rewrite Hrun, Hrun'. cbn [fst snd fs log]. eauto.
Qed.

Lemma download_flag_is_harmless_when_present_witness :
  (fst (@Caltech101.__init__ offline "data" (TStr "category") None None true sample_world) =
     fst (@Caltech101.__init__ offline "data" (TStr "category") None None false sample_world) /\
   fs (snd (@Caltech101.__init__ offline "data" (TStr "category") None None true
              sample_world)) =
     fs (snd (@Caltech101.__init__ offline "data" (TStr "category") None None false
                sample_world)) /\
   exists es,
     Forall reads es /\
     log (snd (@Caltech101.__init__ offline "data" (TStr "category") None None true
                 sample_world)) =
       log sample_world ++ EvMakedirs (os_path_join "data" ["caltech101"]) :: es) /\
  (fst (@Caltech256.__init__ offline "data" None None true sample_world) =
     fst (@Caltech256.__init__ offline "data" None None false sample_world) /\
   fs (snd (@Caltech256.__init__ offline "data" None None true sample_world)) =
     fs (snd (@Caltech256.__init__ offline "data" None None false sample_world)) /\
   exists es,
     Forall reads es /\
     log (snd (@Caltech256.__init__ offline "data" None None true sample_world)) =
       log sample_world ++ EvMakedirs (os_path_join "data" ["caltech256"]) :: es).
Proof.
  split.
  - apply (proj1 (@download_flag_is_harmless_when_present offline)
             "data" (TStr "category") None None sample_world sample_disk).
    + reflexivity.
    + vm_compute. eauto.
  - apply (proj2 (@download_flag_is_harmless_when_present offline)
             "data" None None sample_world sample_disk).
    + reflexivity.
    + vm_compute. eauto.
Defined.

(** X1. Without [download], when the image directory is missing once
    the root has been created (and, for Caltech101, the requested target
    kinds are valid: they are checked first), construction fails with the
    runtime error that points to [download=True]; it has created the
    root directory, which is left behind. *)
Theorem missing_dataset_raises_runtime_error `{ArchiveUtils} :
  (forall root_arg tt tys tr ttr w n,
     makedirs_at (os_path_join root_arg ["caltech101"])
       (components (os_path_join root_arg ["caltech101"])) (fs w) = Ok n ->
     map_result (fun t => verify_str_arg t "target_type" ["category"; "annotation"])
       (match tt with TStr s => [s] | TList l => l end) = Ok tys ->
     lookup_path (os_path_join (os_path_join root_arg ["caltech101"])
                    ["101_ObjectCategories"]) n = None ->
     fst (Caltech101.__init__ root_arg tt tr ttr false w) =
       Err (RuntimeError
              "Dataset not found or corrupted. You can use download=True to download it") /\
     fs (snd (Caltech101.__init__ root_arg tt tr ttr false w)) = n /\
     is_dir (lookup_path (os_path_join root_arg ["caltech101"]) n) = true) /\
  (forall root_arg tr ttr w n,
     makedirs_at (os_path_join root_arg ["caltech256"])
       (components (os_path_join root_arg ["caltech256"])) (fs w) = Ok n ->
     lookup_path (os_path_join (os_path_join root_arg ["caltech256"])
                    ["256_ObjectCategories"]) n = None ->
     fst (Caltech256.__init__ root_arg tr ttr false w) =
       Err (RuntimeError
              "Dataset not found or corrupted. You can use download=True to download it") /\
     fs (snd (Caltech256.__init__ root_arg tr ttr false w)) = n /\
     is_dir (lookup_path (os_path_join root_arg ["caltech256"]) n) = true).
Proof.
  split.
  - intros root_arg tt tys tr ttr w n Hmk Hv Hnone.
    destruct (init_101_outcome false root_arg tt tr ttr w n Hmk) as (es & _ & Hrun);
      [discriminate|].
    rewrite Hrun. cbn [fst snd fs]. unfold outcome_101. rewrite Hv.
    unfold Caltech101.images_dir. rewrite Hnone.
    rewrite bool_decide_eq_false_2 by (intros [? ?]; discriminate).
    repeat split. now apply (makedirs_result _ _ _ _ Hmk).
  - intros root_arg tr ttr w n Hmk Hnone.
    destruct (init_256_outcome false root_arg tr ttr w n Hmk) as (es & _ & Hrun);
      [discriminate|].
    rewrite Hrun. cbn [fst snd fs]. unfold outcome_256. rewrite Hnone.
    rewrite bool_decide_eq_false_2 by (intros [? ?]; discriminate).
    repeat split. now apply (makedirs_result _ _ _ _ Hmk).
Qed.

Lemma missing_dataset_raises_runtime_error_witness :
  (fst (@Caltech101.__init__ offline "data" (TStr "category") None None false empty_world) =
     Err (RuntimeError
            "Dataset not found or corrupted. You can use download=True to download it") /\
   fs (snd (@Caltech101.__init__ offline "data" (TStr "category") None None false
              empty_world)) = Dir [("data", Dir [("caltech101", Dir [])])] /\
   is_dir (lookup_path (os_path_join "data" ["caltech101"])
             (Dir [("data", Dir [("caltech101", Dir [])])])) = true) /\
  (fst (@Caltech256.__init__ offline "data" None None false empty_world) =
     Err (RuntimeError
            "Dataset not found or corrupted. You can use download=True to download it") /\
   fs (snd (@Caltech256.__init__ offline "data" None None false empty_world)) =
     Dir [("data", Dir [("caltech256", Dir [])])] /\
   is_dir (lookup_path (os_path_join "data" ["caltech256"])
             (Dir [("data", Dir [("caltech256", Dir [])])])) = true).
Proof.
  split.
  - apply (proj1 (@missing_dataset_raises_runtime_error offline)
             "data" (TStr "category") ["category"] None None empty_world
             (Dir [("data", Dir [("caltech101", Dir [])])])); reflexivity.
  - apply (proj2 (@missing_dataset_raises_runtime_error offline)
             "data" None None empty_world
             (Dir [("data", Dir [("caltech256", Dir [])])])); reflexivity.
Defined.

(** ** Lookups that fail *)

Lemma target_loop_annotation_fails self i yi k c ts :
  0 <= i ->
  Caltech101.y self !! Z.to_nat i = Some yi -> 0 <= yi ->
  Caltech101.annotation_categories self !! Z.to_nat yi = Some (Caltech101.annotation_name c) ->
  Caltech101.index self !! Z.to_nat i = Some k ->
  Forall (fun t => t = "category" \/ t = "annotation") ts ->
  "annotation" ∈ ts ->
  forall acc w e,
    contour_of (Caltech101.annotation_path self (Caltech101.annotation_name c) k) (fs w) = Err e ->
    fst (Caltech101.target_loop self i ts acc w) = Err e.
Proof.
  intros Hi Hyi Hyi0 Hac Hk Hvalid. induction Hvalid as [|t ts Ht _ IH]; intros Hin acc w e He.
  - now apply elem_of_nil in Hin.
  - assert (Hcons : Caltech101.target_loop self i (t :: ts) acc w =
                    match Caltech101.target_step self i acc t w with
                    | (Ok a, w1) => Caltech101.target_loop self i ts a w1
                    | (Err e, w1) => (Err e, w1)
                    end) by reflexivity.
    rewrite Hcons. clear Hcons. destruct Ht as [-> | ->].
    + rewrite (target_step_category self i yi Hi Hyi).
      apply IH; [|exact He].
      apply elem_of_cons in Hin as [Hin|Hin]; [discriminate|exact Hin].
    + rewrite (target_step_annotation self i yi k c Hi Hyi Hyi0 Hac Hk).
      unfold contour_of, dict_getitem in He.
      destruct (mat_of _ (fs w)) as [data|e'].
      * destruct (data !! "obj_contour"); [discriminate|]. cbn [fst]. now injection He as ->.
      * cbn [fst]. now injection He as ->.
Qed.

(** X7. An image that cannot be opened stops the lookup: for an in-range
    index of a constructed dataset (in Caltech101 once [scipy.io] is
    imported, which comes first), the error of [Image.open] is the error
    of [__getitem__] (a file-not-found error naming the numbered file
    when no such file exists), and nothing is read after it; in
    particular no annotation. *)
Theorem unreadable_image_stops_the_lookup `{ArchiveUtils} :
  (forall root_arg tt tr ttr dl w0 ds w1 i,
     Caltech101.__init__ root_arg tt tr ttr dl w0 = (Ok ds, w1) ->
     0 <= i < Caltech101.__len__ ds ->
     exists yi c k,
       Caltech101.y ds !! Z.to_nat i = Some yi /\
       Caltech101.categories ds !! Z.to_nat yi = Some c /\
       Caltech101.index ds !! Z.to_nat i = Some k /\
       forall w,
         let image_file :=
           os_path_join (Caltech101.root ds)
             ["101_ObjectCategories"; c; "image_" +:+ format_0d 4 k +:+ ".jpg"] in
         scipy_installed w = true ->
         (forall e, image_of image_file (fs w) = Err e ->
                    Caltech101.__getitem__ ds i w =
                    (Err e, add_log w [EvImport "scipy.io"; EvImageOpen image_file])) /\
         (lookup_path image_file (fs w) = None ->
          fst (Caltech101.__getitem__ ds i w) = Err (FileNotFoundError image_file))) /\
  (forall root_arg tr ttr dl w0 ds w1 i,
     Caltech256.__init__ root_arg tr ttr dl w0 = (Ok ds, w1) ->
     0 <= i < Caltech256.__len__ ds ->
     exists yi c k,
       Caltech256.y ds !! Z.to_nat i = Some yi /\
       Caltech256.categories ds !! Z.to_nat yi = Some c /\
       Caltech256.index ds !! Z.to_nat i = Some k /\
       forall w,
         let image_file :=
           os_path_join (Caltech256.root ds)
             ["256_ObjectCategories"; c;
              format_0d 3 (yi + 1) +:+ "_" +:+ format_0d 4 k +:+ ".jpg"] in
         (forall e, image_of image_file (fs w) = Err e ->
                    Caltech256.__getitem__ ds i w =
                    (Err e, add_log w [EvImageOpen image_file])) /\
         (lookup_path image_file (fs w) = None ->
          fst (Caltech256.__getitem__ ds i w) = Err (FileNotFoundError image_file))).
Proof.
  split.
  - intros root_arg tt tr ttr dl w0 ds w1 i Hinit Hi.
    destruct (constructed_101_lookups _ _ _ _ _ _ _ _ _ Hinit Hi)
      as (yi & c & k & Hy & Hy0 & Hc & Hac & Hk & Hk1).
    exists yi, c, k. repeat (split; [assumption|]).
    intros w image_file Hscipy.
    assert (Hfail : forall e, image_of image_file (fs w) = Err e ->
                Caltech101.__getitem__ ds i w =
                (Err e, add_log w [EvImport "scipy.io"; EvImageOpen image_file])).
    { intros e He. rewrite (getitem_101_run ds i yi k c (proj1 Hi) Hy Hy0 Hc Hk w), Hscipy.
      fold (Caltech101.image_path ds c k) in image_file. subst image_file. now rewrite He. }
    split; [exact Hfail|]. intros Hnone.
    rewrite (Hfail (FileNotFoundError image_file)); [reflexivity|].
    unfold image_of. now rewrite Hnone.
  - intros root_arg tr ttr dl w0 ds w1 i Hinit Hi.
    destruct (constructed_256_lookups _ _ _ _ _ _ _ _ Hinit Hi)
      as (yi & c & k & Hy & Hy0 & Hc & Hk & Hk1).
    exists yi, c, k. repeat (split; [assumption|]).
    intros w image_file.
    assert (Hfail : forall e, image_of image_file (fs w) = Err e ->
                Caltech256.__getitem__ ds i w =
                (Err e, add_log w [EvImageOpen image_file])).
    { intros e He. rewrite (getitem_256_run ds i yi k c (proj1 Hi) Hy Hy0 Hc Hk w).
      fold (Caltech256.image_path ds c yi k) in image_file. subst image_file. now rewrite He. }
    split; [exact Hfail|]. intros Hnone.
    rewrite (Hfail (FileNotFoundError image_file)); [reflexivity|].
    unfold image_of. now rewrite Hnone.
Qed.

Lemma unreadable_image_stops_the_lookup_witness :
  fst (Caltech101.__getitem__ (odd_ds ["category"]) 0 odd_world) =
    Err (FileNotFoundError "data/caltech101/101_ObjectCategories/a/image_0001.jpg") /\
  fst (Caltech256.__getitem__ sample_ds_256 0 empty_world) =
    Err (FileNotFoundError "data/caltech256/256_ObjectCategories/001.a/001_0001.jpg").
Proof.
  split.
  - destruct (proj1 (@unreadable_image_stops_the_lookup offline)
                "data" (TStr "category") None None false odd_world (odd_ds ["category"])
                (add_log odd_world
                   [EvMakedirs "data/caltech101";
                    EvExists "data/caltech101/101_ObjectCategories";
                    EvListdir "data/caltech101/101_ObjectCategories";
                    EvListdir "data/caltech101/101_ObjectCategories/a";
                    EvListdir "data/caltech101/101_ObjectCategories/b"]) 0)
      as (yi & c & k & Hy & Hc & Hk & Hget).
    + reflexivity.
    + vm_compute. split; discriminate || reflexivity.
    + vm_compute in Hy. injection Hy as <-.
      vm_compute in Hc. injection Hc as <-.
      vm_compute in Hk. injection Hk as <-.
      apply (Hget odd_world); reflexivity.
  - destruct (proj2 (@unreadable_image_stops_the_lookup offline)
                "data" None None false sample_world sample_ds_256 sample_world_256 0)
      as (yi & c & k & Hy & Hc & Hk & Hget).
    + reflexivity.
    + vm_compute. split; discriminate || reflexivity.
    + vm_compute in Hy. injection Hy as <-.
      vm_compute in Hc. injection Hc as <-.
      vm_compute in Hk. injection Hk as <-.
      apply (Hget empty_world); reflexivity.
Defined.

(** X8. When an annotation is requested, a contour that cannot be read
    stops the lookup: for an in-range index of a constructed Caltech101
    whose image opens, the error of reading [obj_contour] from the
    annotation file (the file is missing or is no .mat file, or it holds
    no such variable: a key error) is the error of [__getitem__]. *)
Theorem unreadable_annotation_stops_the_lookup `{ArchiveUtils} :
  forall root_arg tt tr ttr dl w0 ds w1 i,
    Caltech101.__init__ root_arg tt tr ttr dl w0 = (Ok ds, w1) ->
    0 <= i < Caltech101.__len__ ds ->
    "annotation" ∈ Caltech101.target_type ds ->
    exists yi c k,
      Caltech101.y ds !! Z.to_nat i = Some yi /\
      Caltech101.categories ds !! Z.to_nat yi = Some c /\
      Caltech101.index ds !! Z.to_nat i = Some k /\
      forall w im e,
        let image_file :=
          os_path_join (Caltech101.root ds)
            ["101_ObjectCategories"; c; "image_" +:+ format_0d 4 k +:+ ".jpg"] in
        let annotation_file :=
          os_path_join (Caltech101.root ds)
            ["Annotations"; Caltech101.annotation_name c;
             "annotation_" +:+ format_0d 4 k +:+ ".mat"] in
        scipy_installed w = true ->
        image_of image_file (fs w) = Ok im ->
        contour_of annotation_file (fs w) = Err e ->
        fst (Caltech101.__getitem__ ds i w) = Err e.
Proof.
  intros root_arg tt tr ttr dl w0 ds w1 i Hinit Hi Hann.
  destruct (constructed_101_lookups _ _ _ _ _ _ _ _ _ Hinit Hi)
    as (yi & c & k & Hy & Hy0 & Hc & Hac & Hk & Hk1).
  exists yi, c, k. repeat (split; [assumption|]).
  intros w im e image_file annotation_file Hscipy Him He.
  apply init_101_ok in Hinit as (_ & _ & _ & Hv & _).
  apply map_result_verify_ok in Hv as [Heq Hv]. rewrite <- Heq in Hv.
  rewrite (getitem_101_run ds i yi k c (proj1 Hi) Hy Hy0 Hc Hk w), Hscipy.
  fold (Caltech101.image_path ds c k) in image_file. subst image_file. rewrite Him.
  unfold bind at 1.
  pose proof (target_loop_annotation_fails ds i yi k c (Caltech101.target_type ds)
                (proj1 Hi) Hy Hy0 Hac Hk Hv Hann []
                (add_log w [EvImport "scipy.io"; EvImageOpen (Caltech101.image_path ds c k)])
                e He) as Hloop.
  destruct (Caltech101.target_loop _ _ _ _ _) as [[items|e'] w2]; cbn [fst] in Hloop.
  - discriminate.
  - now injection Hloop as ->.
Qed.

Lemma unreadable_annotation_stops_the_lookup_witness :
  fst (Caltech101.__getitem__ (odd_ds ["category"; "annotation"]) 1 odd_world) =
    Err (KeyError "obj_contour") /\
  fst (Caltech101.__getitem__ (sample_ds_101 ["annotation"]) 0
         (World (Dir [("data", Dir [("caltech101",
                   Dir [("101_ObjectCategories",
                         Dir [("Faces", Dir [("image_0001.jpg", jpg 1)])])])])]) true [])) =
    Err (FileNotFoundError "data/caltech101/Annotations/Faces_2/annotation_0001.mat").
Proof.
  split.
  - destruct (@unreadable_annotation_stops_the_lookup offline
                "data" (TList ["category"; "annotation"]) None None false odd_world
                (odd_ds ["category"; "annotation"])
                (add_log odd_world
                   [EvMakedirs "data/caltech101";
                    EvExists "data/caltech101/101_ObjectCategories";
                    EvListdir "data/caltech101/101_ObjectCategories";
                    EvListdir "data/caltech101/101_ObjectCategories/a";
                    EvListdir "data/caltech101/101_ObjectCategories/b"]) 1)
      as (yi & c & k & Hy & Hc & Hk & Hget).
    + reflexivity.
    + vm_compute. split; discriminate || reflexivity.
    + cbn [Caltech101.target_type odd_ds]. right. now left.
    + vm_compute in Hy. injection Hy as <-.
      vm_compute in Hc. injection Hc as <-.
      vm_compute in Hk. injection Hk as <-.
      apply (Hget odd_world [2]); reflexivity.
  - destruct (@unreadable_annotation_stops_the_lookup offline
                "data" (TList ["annotation"]) None None false sample_world
                (sample_ds_101 ["annotation"]) sample_world_101 0)
      as (yi & c & k & Hy & Hc & Hk & Hget).
    + reflexivity.
    + vm_compute. split; discriminate || reflexivity.
    + cbn [Caltech101.target_type sample_ds_101]. now left.
    + vm_compute in Hy. injection Hy as <-.
      vm_compute in Hc. injection Hc as <-.
      vm_compute in Hk. injection Hk as <-.
      apply (Hget _ [1]); reflexivity.
Defined.

(** ** scipy *)



(** ** More on the layout of the sample index *)

Lemma zip_blocks_NoDup counts : forall s,
  Forall (fun n => 0 <= n) counts ->
  NoDup (zip (ids_from s counts) (ordinals counts)).
Proof.
  induction counts as [|n counts IH]; intros s Hnn; [constructor|].
  inversion Hnn as [|? ? Hn Hnn']; subst. cbn [ids_from ordinals].
  rewrite zip_with_app by (now rewrite length_repeat_int, length_range1).
  apply NoDup_app. split; [|split].
  - apply NoDup_zip_r, NoDup_seqZ.
  - intros [a b] Hin1 Hin2.
    apply elem_of_zip_l in Hin1. apply elem_of_zip_l in Hin2.
    unfold repeat_int in Hin1. apply elem_of_replicate in Hin1 as [-> _].
    apply ids_from_range in Hin2. lia.
  - now apply IH.
Qed.

(** The entry at [i] lies in the block of its category. *)
Lemma ordinal_within_count counts : forall s i yi k,
  Forall (fun n => 0 <= n) counts ->
  ids_from s counts !! i = Some yi ->
  ordinals counts !! i = Some k ->
  exists n, counts !! Z.to_nat (yi - s) = Some n /\ 1 <= k <= n.
Proof.
  induction counts as [|m counts IH]; intros s i yi k Hnn Hy Hk; [discriminate|].
  inversion Hnn as [|? ? Hm Hnn']; subst. cbn [ids_from ordinals] in Hy, Hk.
  destruct (decide (i < Z.to_nat m)%nat) as [Hlt|Hge].
  - rewrite lookup_app_l in Hy by now rewrite length_repeat_int.
    rewrite lookup_app_l in Hk by now rewrite length_range1.
    unfold repeat_int in Hy. apply lookup_replicate in Hy as [-> _].
    unfold range1 in Hk. apply lookup_seqZ in Hk as [-> Hi].
    exists m. replace (s - s) with 0 by lia. split; [reflexivity|lia].
  - rewrite lookup_app_r in Hy by (rewrite length_repeat_int; lia).
    rewrite lookup_app_r in Hk by (rewrite length_range1; lia).
    rewrite length_repeat_int in Hy. rewrite length_range1 in Hk.
    destruct (IH (s + 1) _ yi k Hnn' Hy Hk) as (n & Hn & Hkn).
    pose proof (ids_from_range _ _ _ (list_elem_of_lookup_2 _ _ _ Hy)) as Hr.
    exists n. split; [|exact Hkn].
    replace (Z.to_nat (yi - s)) with (S (Z.to_nat (yi - (s + 1)))) by lia. exact Hn.
Qed.

(** X13. No sample is indexed twice: in a constructed dataset of either
    class two indices with the same category id and the same ordinal are
    the same index, so different indices address different image files
    of the layout. *)
Theorem samples_are_indexed_once `{ArchiveUtils} :
  (forall root_arg tt tr ttr dl w ds w',
     Caltech101.__init__ root_arg tt tr ttr dl w = (Ok ds, w') ->
     forall i j yi k,
       Caltech101.y ds !! i = Some yi -> Caltech101.index ds !! i = Some k ->
       Caltech101.y ds !! j = Some yi -> Caltech101.index ds !! j = Some k ->
       i = j) /\
  (forall root_arg tr ttr dl w ds w',
     Caltech256.__init__ root_arg tr ttr dl w = (Ok ds, w') ->
     forall i j yi k,
       Caltech256.y ds !! i = Some yi -> Caltech256.index ds !! i = Some k ->
       Caltech256.y ds !! j = Some yi -> Caltech256.index ds !! j = Some k ->
       i = j).
Proof.
  assert (Hnodup : forall (ys ks : list Z) i j yi k,
            NoDup (zip ys ks) ->
            ys !! i = Some yi -> ks !! i = Some k ->
            ys !! j = Some yi -> ks !! j = Some k -> i = j).
  { intros ys ks i j yi k Hnd Hyi Hki Hyj Hkj.
    apply (NoDup_lookup _ i j (yi, k) Hnd); apply lookup_zip_with_Some; eauto. }
  split.
  - intros root_arg tt tr ttr dl w ds w' Hinit.
    apply init_101_ok in Hinit as (_ & _ & _ & _ & _ & ls & counts & _ & _ & Hc & Hidx & Hy).
    pose proof (counts_nonneg _ _ _ (count_101_nonneg _ _) Hc) as Hnn.
    intros i j yi k. apply Hnodup. rewrite Hy, Hidx. now apply zip_blocks_NoDup.
  - intros root_arg tr ttr dl w ds w' Hinit.
    apply init_256_ok in Hinit as (_ & _ & _ & ls & counts & _ & _ & Hc & Hidx & Hy).
    pose proof (counts_nonneg _ _ _ (count_256_nonneg _ _) Hc) as Hnn.
    intros i j yi k. apply Hnodup. rewrite Hy, Hidx. now apply zip_blocks_NoDup.
Qed.

Lemma samples_are_indexed_once_witness :
  (forall i j yi k,
     Caltech101.y (sample_ds_101 ["category"]) !! i = Some yi ->
     Caltech101.index (sample_ds_101 ["category"]) !! i = Some k ->
     Caltech101.y (sample_ds_101 ["category"]) !! j = Some yi ->
     Caltech101.index (sample_ds_101 ["category"]) !! j = Some k ->
     i = j) /\
  (forall i j yi k,
     Caltech256.y sample_ds_256 !! i = Some yi -> Caltech256.index sample_ds_256 !! i = Some k ->
     Caltech256.y sample_ds_256 !! j = Some yi -> Caltech256.index sample_ds_256 !! j = Some k ->
     i = j).
Proof.
  split.
  - apply (proj1 (@samples_are_indexed_once offline)
             "data" (TList ["category"]) None None false sample_world
             (sample_ds_101 ["category"]) sample_world_101).
    reflexivity.
  - apply (proj2 (@samples_are_indexed_once offline)
             "data" None None false sample_world sample_ds_256 sample_world_256).
    reflexivity.
Defined.

(** X14. The ordinal at an index never exceeds the number of files
    counted in its category: for every entry [i] of the sample index of a
    constructed dataset, with category [c] and ordinal [k], the count
    [n] the constructor read for [c] satisfies [1 <= k <= n]. *)
Theorem ordinal_is_within_the_category_count `{ArchiveUtils} :
  (forall root_arg tt tr ttr dl w ds w' i yi k,
     Caltech101.__init__ root_arg tt tr ttr dl w = (Ok ds, w') ->
     Caltech101.y ds !! i = Some yi -> Caltech101.index ds !! i = Some k ->
     exists c n,
       Caltech101.categories ds !! Z.to_nat yi = Some c /\
       count_101 (fs w') (Caltech101.root ds) c = Ok n /\ 1 <= k <= n) /\
  (forall root_arg tr ttr dl w ds w' i yi k,
     Caltech256.__init__ root_arg tr ttr dl w = (Ok ds, w') ->
     Caltech256.y ds !! i = Some yi -> Caltech256.index ds !! i = Some k ->
     exists c n,
       Caltech256.categories ds !! Z.to_nat yi = Some c /\
       count_256 (fs w') (Caltech256.root ds) c = Ok n /\ 1 <= k <= n).
Proof.
  assert (Hgen : forall (cnt : string -> result Z) cats counts i yi k,
            (forall c z, cnt c = Ok z -> 0 <= z) ->
            map cnt cats = map Ok counts ->
            ids_from 0 counts !! i = Some yi -> ordinals counts !! i = Some k ->
            exists c n, cats !! Z.to_nat yi = Some c /\ cnt c = Ok n /\ 1 <= k <= n).
  { intros cnt cats counts i yi k Hpos Hmap Hy Hk.
    pose proof (counts_nonneg cnt cats counts Hpos Hmap) as Hnn.
    destruct (ordinal_within_count counts 0 i yi k Hnn Hy Hk) as (n & Hn & Hkn).
    replace (yi - 0) with yi in Hn by lia.
    destruct (lookup_lt_is_Some_2 cats (Z.to_nat yi)) as [c Hc].
    { rewrite <- (map_Ok_length _ _ _ Hmap). now apply lookup_lt_Some in Hn. }
    destruct (map_Ok_lookup _ _ _ _ _ Hmap Hc) as (n' & Hcn & Hn').
    exists c, n. split; [exact Hc|]. split; [congruence|exact Hkn]. }
  split.
  - intros root_arg tt tr ttr dl w ds w' i yi k Hinit Hy Hk.
    apply init_101_ok in Hinit as (_ & _ & _ & _ & _ & ls & counts & _ & _ & Hc & Hidx & Hys).
    rewrite Hys in Hy. rewrite Hidx in Hk.
    exact (Hgen _ _ _ _ _ _ (count_101_nonneg _ _) Hc Hy Hk).
  - intros root_arg tr ttr dl w ds w' i yi k Hinit Hy Hk.
    apply init_256_ok in Hinit as (_ & _ & _ & ls & counts & _ & _ & Hc & Hidx & Hys).
    rewrite Hys in Hy. rewrite Hidx in Hk.
    exact (Hgen _ _ _ _ _ _ (count_256_nonneg _ _) Hc Hy Hk).
Qed.

Lemma ordinal_is_within_the_category_count_witness :
  (exists c n,
     Caltech101.categories (sample_ds_101 ["category"]) !! Z.to_nat 1 = Some c /\
     count_101 (fs sample_world_101) "data/caltech101" c = Ok n /\ 1 <= 3 <= n) /\
  (exists c n,
     Caltech256.categories sample_ds_256 !! Z.to_nat 0 = Some c /\
     count_256 (fs sample_world_256) "data/caltech256" c = Ok n /\ 1 <= 2 <= n).
Proof.
  split.
  - apply (proj1 (@ordinal_is_within_the_category_count offline)
             "data" (TList ["category"]) None None false sample_world
             (sample_ds_101 ["category"]) sample_world_101 4%nat 1 3); reflexivity.
  - apply (proj2 (@ordinal_is_within_the_category_count offline)
             "data" None None false sample_world sample_ds_256 sample_world_256 1%nat 0 2);
      reflexivity.
Defined.

(** ** Categories *)

Lemma map_result_ok_all {A B} (f : A -> result B) l bs x :
  map_result f l = Ok bs -> x ∈ l -> exists b, f x = Ok b.
Proof.
  revert bs. induction l as [|a l IH]; intros bs Hmap Hx; [now apply elem_of_nil in Hx|].
  cbn in Hmap. destruct (f a) as [b|e] eqn:Ha; [|discriminate].
  destruct (map_result f l) as [bs'|e]; [|discriminate].
  apply elem_of_cons in Hx as [->|Hx]; [eauto|]. now apply (IH bs').
Qed.

Lemma map_Ok_all {A} (cnt : A -> result Z) l counts x :
  map cnt l = map Ok counts -> x ∈ l -> exists n, cnt x = Ok n.
Proof.
  intros Hmap Hx. apply list_elem_of_lookup in Hx as [k Hk].
  destruct (map_Ok_lookup _ _ _ _ _ Hmap Hk) as (n & Hn & _). eauto.
Qed.

Lemma listdir_is_dir path n ls : listdir_of path n = Ok ls -> is_dir (lookup_path path n) = true.
Proof.
  unfold listdir_of. destruct (lookup_path path n) as [[c|es]|]; [discriminate| |discriminate].
  reflexivity.
Qed.

(** X4. Caltech256 removes nothing from the listing: the categories of a
    constructed Caltech256 are all entries of its image root, each once,
    in code-point order. *)
Theorem caltech256_categories_are_the_sorted_listing `{ArchiveUtils} :
  forall root_arg tr ttr dl w ds w',
    Caltech256.__init__ root_arg tr ttr dl w = (Ok ds, w') ->
    exists ls,
      listdir_of (os_path_join (Caltech256.root ds) ["256_ObjectCategories"]) (fs w') = Ok ls /\
      Caltech256.categories ds = sorted ls /\
      StronglySorted String.le (Caltech256.categories ds) /\
      Caltech256.categories ds ≡ₚ ls /\
      length (Caltech256.categories ds) = length ls.
Proof.
  intros root_arg tr ttr dl w ds w' Hinit.
  apply init_256_ok in Hinit as (_ & _ & _ & ls & counts & Hls & Hcats & _).
  exists ls. rewrite Hcats. destruct (sorted_spec ls) as [Hs Hp].
  repeat split; auto. now rewrite Hp.
Qed.

Lemma caltech256_categories_are_the_sorted_listing_witness :
  exists ls,
    listdir_of (os_path_join "data/caltech256" ["256_ObjectCategories"])
      (fs sample_world_256) = Ok ls /\
    ["001.a"; "002.b"] = sorted ls /\
    StronglySorted String.le ["001.a"; "002.b"] /\
    ["001.a"; "002.b"] ≡ₚ ls /\
    length ["001.a"; "002.b"] = length ls.
Proof.
  apply (@caltech256_categories_are_the_sorted_listing offline
           "data" None None false sample_world sample_ds_256 sample_world_256).
  reflexivity.
Defined.

(** X5. Every category must be a folder.  In a constructed dataset each
    category names a directory under the image root; and without
    [download], when some entry of the image root (other than
    [BACKGROUND_Google] for Caltech101) cannot be listed, a stray
    regular file for instance, construction does not succeed. *)
Theorem every_category_must_be_a_folder `{ArchiveUtils} :
  (forall root_arg tt tr ttr dl w ds w' c,
     Caltech101.__init__ root_arg tt tr ttr dl w = (Ok ds, w') ->
     c ∈ Caltech101.categories ds ->
     is_dir (lookup_path (os_path_join (Caltech101.root ds) ["101_ObjectCategories"; c])
               (fs w')) = true) /\
  (forall root_arg tr ttr dl w ds w' c,
     Caltech256.__init__ root_arg tr ttr dl w = (Ok ds, w') ->
     c ∈ Caltech256.categories ds ->
     is_dir (lookup_path (os_path_join (Caltech256.root ds) ["256_ObjectCategories"; c])
               (fs w')) = true) /\
  (forall root_arg tt tr ttr w n ls c e,
     makedirs_at (os_path_join root_arg ["caltech101"])
       (components (os_path_join root_arg ["caltech101"])) (fs w) = Ok n ->
     listdir_of (os_path_join (os_path_join root_arg ["caltech101"]) ["101_ObjectCategories"])
       n = Ok ls ->
     c ∈ ls -> c <> "BACKGROUND_Google" ->
     listdir_of (os_path_join (os_path_join root_arg ["caltech101"])
                   ["101_ObjectCategories"; c]) n = Err e ->
     is_ok (fst (Caltech101.__init__ root_arg tt tr ttr false w)) = false) /\
  (forall root_arg tr ttr w n ls c e,
     makedirs_at (os_path_join root_arg ["caltech256"])
       (components (os_path_join root_arg ["caltech256"])) (fs w) = Ok n ->
     listdir_of (os_path_join (os_path_join root_arg ["caltech256"]) ["256_ObjectCategories"])
       n = Ok ls ->
     c ∈ ls ->
     listdir_of (os_path_join (os_path_join root_arg ["caltech256"])
                   ["256_ObjectCategories"; c]) n = Err e ->
     is_ok (fst (Caltech256.__init__ root_arg tr ttr false w)) = false).
Proof.
  split; [|split; [|split]].
  - intros root_arg tt tr ttr dl w ds w' c Hinit Hc.
    apply init_101_ok in Hinit as (_ & _ & _ & _ & _ & ls & counts & _ & _ & Hcnt & _).
    destruct (map_Ok_all _ _ _ _ Hcnt Hc) as (n & Hn). unfold count_101 in Hn.
    destruct (listdir_of _ (fs w')) as [l|e] eqn:Hl; [|discriminate].
    now apply listdir_is_dir in Hl.
  - intros root_arg tr ttr dl w ds w' c Hinit Hc.
    apply init_256_ok in Hinit as (_ & _ & _ & ls & counts & _ & _ & Hcnt & _).
    destruct (map_Ok_all _ _ _ _ Hcnt Hc) as (n & Hn). unfold count_256 in Hn.
    destruct (listdir_of _ (fs w')) as [l|e] eqn:Hl; [|discriminate].
    now apply listdir_is_dir in Hl.
  - intros root_arg tt tr ttr w n ls c e Hmk Hls Hc Hne Hfail.
    destruct (init_101_outcome false root_arg tt tr ttr w n Hmk) as (es & _ & Hrun);
      [discriminate|].
    rewrite Hrun. cbn [fst]. unfold outcome_101.
    destruct (map_result _ _) as [tys|e0]; [|reflexivity].
    destruct (bool_decide _); [|reflexivity].
    unfold Caltech101.images_dir. rewrite Hls.
    destruct (list_remove _ _) as [cats|e0] eqn:Hrm; [|reflexivity].
    destruct (map_result (count_101 n _) cats) as [counts|e0] eqn:Hcounts; [|reflexivity].
    exfalso. apply list_remove_ok in Hrm as [_ Hperm].
    assert (Hin : c ∈ cats).
    { assert (Hs : c ∈ sorted ls) by (unfold sorted; now rewrite merge_sort_Permutation).
      rewrite Hperm in Hs. apply elem_of_cons in Hs as [Hs|Hs]; [contradiction|exact Hs]. }
    destruct (map_result_ok_all _ _ _ _ Hcounts Hin) as (k & Hk).
    unfold count_101 in Hk. rewrite Hfail in Hk. discriminate.
  - intros root_arg tr ttr w n ls c e Hmk Hls Hc Hfail.
    destruct (init_256_outcome false root_arg tr ttr w n Hmk) as (es & _ & Hrun);
      [discriminate|].
    rewrite Hrun. cbn [fst]. unfold outcome_256.
    destruct (bool_decide _); [|reflexivity]. rewrite Hls.
    destruct (map_result (count_256 n _) (sorted ls)) as [counts|e0] eqn:Hcounts;
      [|reflexivity].
    exfalso.
    assert (Hin : c ∈ sorted ls) by (unfold sorted; now rewrite merge_sort_Permutation).
    destruct (map_result_ok_all _ _ _ _ Hcounts Hin) as (k & Hk).
    unfold count_256 in Hk. rewrite Hfail in Hk. discriminate.
Qed.

Lemma every_category_must_be_a_folder_witness :
  is_dir (lookup_path (os_path_join "data/caltech101" ["101_ObjectCategories"; "Faces"])
            (fs sample_world_101)) = true /\
  is_dir (lookup_path (os_path_join "data/caltech256" ["256_ObjectCategories"; "002.b"])
            (fs sample_world_256)) = true /\
  is_ok (fst (@Caltech101.__init__ offline "data" (TStr "category") None None false
                stray_world_101)) = false /\
  is_ok (fst (@Caltech256.__init__ offline "data" None None false stray_world)) = false.
Proof.
  split; [|split; [|split]].
  - apply (proj1 (@every_category_must_be_a_folder offline)
             "data" (TList ["category"]) None None false sample_world
             (sample_ds_101 ["category"]) sample_world_101 "Faces").
    + reflexivity.
    + cbn [Caltech101.categories sample_ds_101]. now left.
  - apply (proj1 (proj2 (@every_category_must_be_a_folder offline))
             "data" None None false sample_world sample_ds_256 sample_world_256 "002.b").
    + reflexivity.
    + cbn [Caltech256.categories sample_ds_256]. right. now left.
  - apply (proj1 (proj2 (proj2 (@every_category_must_be_a_folder offline)))
             "data" (TStr "category") None None stray_world_101 (fs stray_world_101)
             ["BACKGROUND_Google"; "a"; "README"] "README"
             (NotADirectoryError "data/caltech101/101_ObjectCategories/README")).
    + reflexivity.
    + reflexivity.
    + right. right. now left.
    + discriminate.
    + reflexivity.
  - apply (proj2 (proj2 (proj2 (@every_category_must_be_a_folder offline)))
             "data" None None stray_world (fs stray_world)
             ["001.a"; "README"] "README"
             (NotADirectoryError "data/caltech256/256_ObjectCategories/README")).
    + reflexivity.
    + reflexivity.
    + right. now left.
    + reflexivity.
Defined.

(** ** A fetch that fails *)

Lemma download_101_fetch_fails `{ArchiveUtils} root w e n' :
  lookup_path (os_path_join root ["101_ObjectCategories"]) (fs w) = None ->
  download_and_extract_archive_fs
    "https://data.caltech.edu/records/mzrjq-6wc02/files/caltech-101.zip?download=1"
    root "caltech-101.zip" "3138e1922a9193bfa496528edbbc45d0" (fs w) = (Err e, n') ->
  Caltech101.download root w =
  (Err e,
   World n' (scipy_installed w)
     (log w ++
      [EvExists (os_path_join root ["101_ObjectCategories"]);
       EvDownload
         "https://data.caltech.edu/records/mzrjq-6wc02/files/caltech-101.zip?download=1"
         root "caltech-101.zip" "3138e1922a9193bfa496528edbbc45d0"])).
Proof.
  intros Hnone Hfetch. unfold Caltech101.download. unfold bind at 1.
  rewrite check_integrity_101_run. unfold Caltech101.images_dir. rewrite Hnone.
  rewrite bool_decide_eq_false_2 by (intros [? ?]; discriminate).
  unfold bind at 1, download_and_extract_archive, bind at 1, emit.
  cbn [fs add_log scipy_installed log set_fs]. rewrite Hfetch.
  cbn [fs add_log scipy_installed log set_fs]. now rewrite <- app_assoc.
Qed.

Lemma download_256_fetch `{ArchiveUtils} root w r n' :
  lookup_path (os_path_join root ["256_ObjectCategories"]) (fs w) = None ->
  download_and_extract_archive_fs
    "https://data.caltech.edu/records/nyy15-4j048/files/256_ObjectCategories.tar"
    root "256_ObjectCategories.tar" "67b4f42ca05d46448c6bb8ecd2220f6d" (fs w) = (r, n') ->
  Caltech256.download root w =
  (r,
   World n' (scipy_installed w)
     (log w ++
      [EvExists (os_path_join root ["256_ObjectCategories"]);
       EvDownload
         "https://data.caltech.edu/records/nyy15-4j048/files/256_ObjectCategories.tar"
         root "256_ObjectCategories.tar" "67b4f42ca05d46448c6bb8ecd2220f6d"])).
Proof.
  intros Hnone Hfetch. unfold Caltech256.download. unfold bind at 1.
  rewrite check_integrity_256_run. rewrite Hnone.
  rewrite bool_decide_eq_false_2 by (intros [? ?]; discriminate).
  unfold download_and_extract_archive, bind, emit.
  cbn [fs add_log scipy_installed log set_fs]. rewrite Hfetch.
  cbn [fs add_log scipy_installed log set_fs]. now rewrite <- app_assoc.
Qed.

(** X11. A fetch that fails is not retried and nothing is cleaned up
    after it.  With the image directory missing, [download] calls the
    archive utility once, with the fixed URL, file name and checksum of
    its class; when that call fails, [download] fails with its error and
    makes no further call (Caltech256: whatever the call returns is what
    [download] returns).  A constructor called with [download=True]
    fails with the same error, before checking or listing anything. *)
Theorem failed_fetch_propagates `{ArchiveUtils} :
  (forall root w e n',
     lookup_path (os_path_join root ["101_ObjectCategories"]) (fs w) = None ->
     download_and_extract_archive_fs
       "https://data.caltech.edu/records/mzrjq-6wc02/files/caltech-101.zip?download=1"
       root "caltech-101.zip" "3138e1922a9193bfa496528edbbc45d0" (fs w) = (Err e, n') ->
     Caltech101.download root w =
     (Err e,
      World n' (scipy_installed w)
        (log w ++
         [EvExists (os_path_join root ["101_ObjectCategories"]);
          EvDownload
            "https://data.caltech.edu/records/mzrjq-6wc02/files/caltech-101.zip?download=1"
            root "caltech-101.zip" "3138e1922a9193bfa496528edbbc45d0"]))) /\
  (forall root w r n',
     lookup_path (os_path_join root ["256_ObjectCategories"]) (fs w) = None ->
     download_and_extract_archive_fs
       "https://data.caltech.edu/records/nyy15-4j048/files/256_ObjectCategories.tar"
       root "256_ObjectCategories.tar" "67b4f42ca05d46448c6bb8ecd2220f6d" (fs w) = (r, n') ->
     Caltech256.download root w =
     (r,
      World n' (scipy_installed w)
        (log w ++
         [EvExists (os_path_join root ["256_ObjectCategories"]);
          EvDownload
            "https://data.caltech.edu/records/nyy15-4j048/files/256_ObjectCategories.tar"
            root "256_ObjectCategories.tar" "67b4f42ca05d46448c6bb8ecd2220f6d"]))) /\
  (forall root_arg tt tys tr ttr w n e n',
     makedirs_at (os_path_join root_arg ["caltech101"])
       (components (os_path_join root_arg ["caltech101"])) (fs w) = Ok n ->
     map_result (fun t => verify_str_arg t "target_type" ["category"; "annotation"])
       (match tt with TStr s => [s] | TList l => l end) = Ok tys ->
     lookup_path (os_path_join (os_path_join root_arg ["caltech101"])
                    ["101_ObjectCategories"]) n = None ->
     download_and_extract_archive_fs
       "https://data.caltech.edu/records/mzrjq-6wc02/files/caltech-101.zip?download=1"
       (os_path_join root_arg ["caltech101"]) "caltech-101.zip"
       "3138e1922a9193bfa496528edbbc45d0" n = (Err e, n') ->
     fst (Caltech101.__init__ root_arg tt tr ttr true w) = Err e /\
     fs (snd (Caltech101.__init__ root_arg tt tr ttr true w)) = n' /\
     log (snd (Caltech101.__init__ root_arg tt tr ttr true w)) =
       log w ++
       [EvMakedirs (os_path_join root_arg ["caltech101"]);
        EvExists (os_path_join (os_path_join root_arg ["caltech101"])
                    ["101_ObjectCategories"]);
        EvDownload
          "https://data.caltech.edu/records/mzrjq-6wc02/files/caltech-101.zip?download=1"
          (os_path_join root_arg ["caltech101"]) "caltech-101.zip"
          "3138e1922a9193bfa496528edbbc45d0"]) /\
  (forall root_arg tr ttr w n e n',
     makedirs_at (os_path_join root_arg ["caltech256"])
       (components (os_path_join root_arg ["caltech256"])) (fs w) = Ok n ->
     lookup_path (os_path_join (os_path_join root_arg ["caltech256"])
                    ["256_ObjectCategories"]) n = None ->
     download_and_extract_archive_fs
       "https://data.caltech.edu/records/nyy15-4j048/files/256_ObjectCategories.tar"
       (os_path_join root_arg ["caltech256"]) "256_ObjectCategories.tar"
       "67b4f42ca05d46448c6bb8ecd2220f6d" n = (Err e, n') ->
     fst (Caltech256.__init__ root_arg tr ttr true w) = Err e /\
     fs (snd (Caltech256.__init__ root_arg tr ttr true w)) = n' /\
     log (snd (Caltech256.__init__ root_arg tr ttr true w)) =
       log w ++
       [EvMakedirs (os_path_join root_arg ["caltech256"]);
        EvExists (os_path_join (os_path_join root_arg ["caltech256"])
                    ["256_ObjectCategories"]);
        EvDownload
          "https://data.caltech.edu/records/nyy15-4j048/files/256_ObjectCategories.tar"
          (os_path_join root_arg ["caltech256"]) "256_ObjectCategories.tar"
          "67b4f42ca05d46448c6bb8ecd2220f6d"]).
Proof.
  split; [|split; [|split]].
  - intros root w e n'. apply download_101_fetch_fails.
  - intros root w r n'. apply download_256_fetch.
  - intros root_arg tt tys tr ttr w n e n' Hmk Hv Hnone Hfetch.
    assert (Hrun : Caltech101.__init__ root_arg tt tr ttr true w =
              (Err e,
               World n' (scipy_installed w)
                 ((log w ++ [EvMakedirs (os_path_join root_arg ["caltech101"])]) ++
                  [EvExists (os_path_join (os_path_join root_arg ["caltech101"])
                               ["101_ObjectCategories"]);
                   EvDownload
                     "https://data.caltech.edu/records/mzrjq-6wc02/files/caltech-101.zip?download=1"
                     (os_path_join root_arg ["caltech101"]) "caltech-101.zip"
                     "3138e1922a9193bfa496528edbbc45d0"]))).
    { unfold Caltech101.__init__.
      unfold bind at 1, VisionDataset_init at 1, ret at 1.
      cbn [vd_root vd_transform vd_target_transform].
      unfold bind at 1. rewrite os_makedirs_run, Hmk.
      unfold bind at 1, lift at 1. rewrite Hv.
      unfold bind at 1.
      now rewrite (download_101_fetch_fails (os_path_join root_arg ["caltech101"])
                     (World n (scipy_installed w)
                        (log w ++ [EvMakedirs (os_path_join root_arg ["caltech101"])]))
                     e n' Hnone Hfetch). }
    rewrite Hrun. cbn [fst snd fs log]. now rewrite <- app_assoc.
  - intros root_arg tr ttr w n e n' Hmk Hnone Hfetch.
    assert (Hrun : Caltech256.__init__ root_arg tr ttr true w =
              (Err e,
               World n' (scipy_installed w)
                 ((log w ++ [EvMakedirs (os_path_join root_arg ["caltech256"])]) ++
                  [EvExists (os_path_join (os_path_join root_arg ["caltech256"])
                               ["256_ObjectCategories"]);
                   EvDownload
                     "https://data.caltech.edu/records/nyy15-4j048/files/256_ObjectCategories.tar"
                     (os_path_join root_arg ["caltech256"]) "256_ObjectCategories.tar"
                     "67b4f42ca05d46448c6bb8ecd2220f6d"]))).
    { unfold Caltech256.__init__.
      unfold bind at 1, VisionDataset_init at 1, ret at 1.
      cbn [vd_root vd_transform vd_target_transform].
      unfold bind at 1. rewrite os_makedirs_run, Hmk.
      unfold bind at 1.
      now rewrite (download_256_fetch (os_path_join root_arg ["caltech256"])
                     (World n (scipy_installed w)
                        (log w ++ [EvMakedirs (os_path_join root_arg ["caltech256"])]))
                     (Err e) n' Hnone Hfetch). }
    rewrite Hrun. cbn [fst snd fs log]. now rewrite <- app_assoc.
Qed.

Lemma failed_fetch_propagates_witness :
  fst (@Caltech101.download offline "data/caltech101" empty_world) =
    Err (OtherError "network unreachable") /\
  fst (@Caltech256.download offline "data/caltech256" empty_world) =
    Err (OtherError "network unreachable") /\
  fst (@Caltech101.__init__ offline "data" (TStr "category") None None true empty_world) =
    Err (OtherError "network unreachable") /\
  fst (@Caltech256.__init__ offline "data" None None true empty_world) =
    Err (OtherError "network unreachable").
Proof.
  split; [|split; [|split]].
  - rewrite (proj1 (@failed_fetch_propagates offline) "data/caltech101" empty_world
               (OtherError "network unreachable") (Dir [])); reflexivity.
  - rewrite (proj1 (proj2 (@failed_fetch_propagates offline)) "data/caltech256" empty_world
               (Err (OtherError "network unreachable")) (Dir [])); reflexivity.
  - apply (proj1 (proj2 (proj2 (@failed_fetch_propagates offline)))
             "data" (TStr "category") ["category"] None None empty_world
             (Dir [("data", Dir [("caltech101", Dir [])])])
             (OtherError "network unreachable")
             (Dir [("data", Dir [("caltech101", Dir [])])])); reflexivity.
  - apply (proj2 (proj2 (proj2 (@failed_fetch_propagates offline)))
             "data" None None empty_world
             (Dir [("data", Dir [("caltech256", Dir [])])])
             (OtherError "network unreachable")
             (Dir [("data", Dir [("caltech256", Dir [])])])); reflexivity.
Defined.

(** ** What the constructed object holds *)

(** X10. The requested target kinds are stored as a list of valid
    kinds: a string stands for the one-element list of it (construction
    with either behaves the same in every world), and in a constructed
    Caltech101 [target_type] is the given list, or the one-element list
    of the given string, every entry of which is ["category"] or
    ["annotation"]. *)
Theorem target_type_is_stored_as_a_valid_list `{ArchiveUtils} :
  (forall root_arg s tr ttr dl w,
     Caltech101.__init__ root_arg (TStr s) tr ttr dl w =
     Caltech101.__init__ root_arg (TList [s]) tr ttr dl w) /\
  (forall root_arg tt tr ttr dl w ds w',
     Caltech101.__init__ root_arg tt tr ttr dl w = (Ok ds, w') ->
     Caltech101.target_type ds = match tt with TStr s => [s] | TList l => l end /\
     Forall (fun t => t = "category" \/ t = "annotation") (Caltech101.target_type ds)).
Proof.
  split.
  - reflexivity.
  - intros root_arg tt tr ttr dl w ds w' Hinit.
    apply init_101_ok in Hinit as (Hroot & Htr & Httr & Hv & _).
    apply map_result_verify_ok in Hv as [Heq Hv]. rewrite <- Heq in Hv. auto.
Qed.

Lemma target_type_is_stored_as_a_valid_list_witness :
  Caltech101.target_type (sample_ds_101 ["annotation"]) = ["annotation"] /\
  Forall (fun t => t = "category" \/ t = "annotation")
    (Caltech101.target_type (sample_ds_101 ["annotation"])).
Proof.
  apply (proj2 (@target_type_is_stored_as_a_valid_list offline)
           "data" (TStr "annotation") None None false sample_world
           (sample_ds_101 ["annotation"]) sample_world_101).
  reflexivity.
Defined.

(** ** The steps of a fetch *)

Lemma isdir_call path w :
  os_path_isdir path w = (Ok (is_dir (lookup_path path (fs w))), add_log w [EvIsdir path]).
Proof. reflexivity. Qed.

Lemma isfile_call path w :
  os_path_isfile path w = (Ok (is_file (lookup_path path (fs w))), add_log w [EvIsfile path]).
Proof. reflexivity. Qed.

Lemma rmtree_call path w :
  exists r n, shutil_rmtree path w = (r, World n (scipy_installed w) (log w ++ [EvRmtree path])).
Proof.
  unfold shutil_rmtree, bind, emit. cbn [fs scipy_installed log].
  destruct (lookup_path path (fs w)) as [[c|es]|]; eauto.
  destruct (unlink_at _ _); cbn; eauto.
Qed.

Lemma remove_call path w :
  exists r n, os_remove path w = (r, World n (scipy_installed w) (log w ++ [EvRemove path])).
Proof.
  unfold os_remove, bind, emit. cbn [fs scipy_installed log].
  destruct (lookup_path path (fs w)) as [[c|es]|]; eauto.
  destruct (unlink_at _ _); cbn; eauto.
Qed.

Lemma extract_call `{ArchiveUtils} from_path to_path rf w :
  exists r n,
    extract_archive from_path to_path rf w =
    (r, World n (scipy_installed w) (log w ++ [EvExtract from_path to_path rf])).
Proof.
  unfold extract_archive, bind, emit. cbn [fs scipy_installed log].
  destruct (extract_archive_fs from_path to_path rf (fs w)) as [r n]. cbn. eauto.
Qed.

Lemma fetch_call `{ArchiveUtils} url root filename md5 w :
  exists r n,
    download_and_extract_archive url root filename md5 w =
    (r, World n (scipy_installed w) (log w ++ [EvDownload url root filename md5])).
Proof.
  unfold download_and_extract_archive, bind, emit. cbn [fs scipy_installed log].
  destruct (download_and_extract_archive_fs url root filename md5 (fs w)) as [r n]. cbn. eauto.
Qed.

(** X15. The steps of a fetch of Caltech101.  When the image directory
    is missing and [download] returns normally, it has made these calls
    in this order: the existence check, the fetch of the zip with its
    checksum into the root, the check whether [__MACOSX] in the unpacked
    folder [caltech-101] is a directory, followed at most by its removal,
    the extraction of [101_ObjectCategories.tar.gz] and then of
    [Annotations.tar] from that folder into the root (both removing the
    archive when done), the check whether the folder [caltech-101] is a
    directory, followed at most by its removal, and the check whether
    [caltech-101.zip] is a file, followed at most by its removal.  The
    folder and the zip are removed only after both extractions, and
    nothing is removed before its check. *)
Theorem caltech101_download_steps `{ArchiveUtils} :
  forall root w,
    lookup_path (os_path_join root ["101_ObjectCategories"]) (fs w) = None ->
    fst (Caltech101.download root w) = Ok tt ->
    let folder := os_path_join root ["caltech-101"] in
    exists pre mid post,
      log (snd (Caltech101.download root w)) =
        log w ++
        [EvExists (os_path_join root ["101_ObjectCategories"]);
         EvDownload
           "https://data.caltech.edu/records/mzrjq-6wc02/files/caltech-101.zip?download=1"
           root "caltech-101.zip" "3138e1922a9193bfa496528edbbc45d0";
         EvIsdir (os_path_join folder ["__MACOSX"])] ++
        pre ++
        [EvExtract (os_path_join folder ["101_ObjectCategories.tar.gz"]) root true;
         EvExtract (os_path_join folder ["Annotations.tar"]) root true;
         EvIsdir folder] ++
        mid ++
        [EvIsfile (os_path_join root ["caltech-101.zip"])] ++
        post /\
      (pre = [] \/ pre = [EvRmtree (os_path_join folder ["__MACOSX"])]) /\
      (mid = [] \/ mid = [EvRmtree folder]) /\
      (post = [] \/ post = [EvRemove (os_path_join root ["caltech-101.zip"])]).
Proof.
  intros root w Hnone Hok folder.
  remember (Caltech101.download root w) as out eqn:Hout.
  revert Hok. unfold Caltech101.download in Hout. unfold bind at 1 in Hout.
  rewrite check_integrity_101_run in Hout. unfold Caltech101.images_dir in Hout.
  rewrite Hnone in Hout.
  rewrite bool_decide_eq_false_2 in Hout by (intros [? ?]; discriminate).
  unfold bind at 1 in Hout.
  match type of Hout with
  | context [download_and_extract_archive ?u ?r ?f ?m ?w0] =>
      destruct (fetch_call u r f m w0) as ([[]|e] & n1 & Hrun); rewrite Hrun in Hout;
      clear Hrun; [|now subst out]
  end.
  unfold bind at 1 in Hout. rewrite isdir_call in Hout. fold folder in Hout.
  unfold bind at 1 in Hout.
  match type of Hout with
  | context [(if ?b then shutil_rmtree ?p else ret tt) ?w0] =>
      assert (Hpre : exists r n pre,
                (if b then shutil_rmtree p else ret tt) w0 =
                (r, World n (scipy_installed w0) (log w0 ++ pre)) /\
                (pre = [] \/ pre = [EvRmtree p]));
      [ destruct b;
        [ destruct (rmtree_call p w0) as (r & n & ->); eauto 6
        | exists (Ok tt), (fs w0), []; rewrite app_nil_r; split; [now destruct w0|now left] ]
      | ]
  end.
  destruct Hpre as (r & n2 & pre & Hrun & Hpre).
  rewrite Hrun in Hout. clear Hrun.
  destruct r as [[]|e]; [|now subst out].
  unfold bind at 1 in Hout.
  match type of Hout with
  | context [extract_archive ?a ?b ?c ?w0] =>
      destruct (extract_call a b c w0) as ([[]|e] & n3 & Hrun); rewrite Hrun in Hout;
      clear Hrun; [|now subst out]
  end.
  unfold bind at 1 in Hout.
  match type of Hout with
  | context [extract_archive ?a ?b ?c ?w0] =>
      destruct (extract_call a b c w0) as ([[]|e] & n4 & Hrun); rewrite Hrun in Hout;
      clear Hrun; [|now subst out]
  end.
  unfold bind at 1 in Hout. rewrite isdir_call in Hout.
  unfold bind at 1 in Hout.
  match type of Hout with
  | context [(if ?b then shutil_rmtree ?p else ret tt) ?w0] =>
      assert (Hmid : exists r n mid,
                (if b then shutil_rmtree p else ret tt) w0 =
                (r, World n (scipy_installed w0) (log w0 ++ mid)) /\
                (mid = [] \/ mid = [EvRmtree p]));
      [ destruct b;
        [ destruct (rmtree_call p w0) as (r & n & ->); eauto 6
        | exists (Ok tt), (fs w0), []; rewrite app_nil_r; split; [now destruct w0|now left] ]
      | ]
  end.
  destruct Hmid as (r & n6 & mid & Hrun & Hmid).
  rewrite Hrun in Hout. clear Hrun.
  destruct r as [[]|e]; [|now subst out].
  unfold bind at 1 in Hout. rewrite isfile_call in Hout.
  match type of Hout with
  | context [(if ?b then os_remove ?p else ret tt) ?w0] =>
      assert (Hpost : exists r n post,
                (if b then os_remove p else ret tt) w0 =
                (r, World n (scipy_installed w0) (log w0 ++ post)) /\
                (post = [] \/ post = [EvRemove p]));
      [ destruct b;
        [ destruct (remove_call p w0) as (r & n & ->); eauto 6
        | exists (Ok tt), (fs w0), []; rewrite app_nil_r; split; [now destruct w0|now left] ]
      | ]
  end.
  destruct Hpost as (r & n8 & post & Hrun & Hpost). rewrite Hrun in Hout. clear Hrun.
  subst out. intros _. exists pre, mid, post. split; [|auto].
  cbn [snd log]. unfold add_log. cbn [fs scipy_installed log].
  repeat rewrite <- app_assoc. reflexivity.
Qed.

Lemma caltech101_download_steps_witness :
  exists pre mid post,
    log (snd (@Caltech101.download mirror "data/caltech101" bare_world)) =
      log bare_world ++
      [EvExists (os_path_join "data/caltech101" ["101_ObjectCategories"]);
       EvDownload
         "https://data.caltech.edu/records/mzrjq-6wc02/files/caltech-101.zip?download=1"
         "data/caltech101" "caltech-101.zip" "3138e1922a9193bfa496528edbbc45d0";
       EvIsdir (os_path_join (os_path_join "data/caltech101" ["caltech-101"]) ["__MACOSX"])] ++
      pre ++
      [EvExtract (os_path_join (os_path_join "data/caltech101" ["caltech-101"])
                    ["101_ObjectCategories.tar.gz"]) "data/caltech101" true;
       EvExtract (os_path_join (os_path_join "data/caltech101" ["caltech-101"])
                    ["Annotations.tar"]) "data/caltech101" true;
       EvIsdir (os_path_join "data/caltech101" ["caltech-101"])] ++
      mid ++
      [EvIsfile (os_path_join "data/caltech101" ["caltech-101.zip"])] ++
      post /\
    (pre = [] \/
     pre = [EvRmtree (os_path_join (os_path_join "data/caltech101" ["caltech-101"])
                        ["__MACOSX"])]) /\
    (mid = [] \/ mid = [EvRmtree (os_path_join "data/caltech101" ["caltech-101"])]) /\
    (post = [] \/ post = [EvRemove (os_path_join "data/caltech101" ["caltech-101.zip"])]).
Proof.
  apply (@caltech101_download_steps mirror "data/caltech101" bare_world).
  - reflexivity.
  - reflexivity.
Defined.
